(** * AI-code-tools: the documentation generator and the unit test creator

    A shallow embedding of [tsDocumenter.js], of the unit test creator with
    the file-exists check ([generateTestFileContent], [removeComments],
    [createUnitTestFile] and its main loop) and of the method loop of
    [src/UnitTestCreator/unitTestCreator.js], with the properties of their
    declaration selection, prompt construction, completion call and
    result application.

    The second copy of the documentation generator differs from
    [tsDocumenter.js] by the prompt, which it looks up by language, and by
    the file pattern; it is not embedded separately.

    JavaScript strings are sequences of UTF-16 code units: a string is a
    [list N], its [length] the number of code units.  The remote endpoint,
    the syntax tree library and the file system are outside the program:
    the endpoint is an oracle, the calls into the tree library that change a
    declaration are recorded, the disk is a finite map. *)

From Stdlib Require Import ZArith NArith List Ascii String Bool Lia.
From stdpp Require Import base option list gmap.

Set Warnings "-register-all".
Local Open Scope Z_scope.

(** ** JavaScript strings *)

Module JsString.

Definition code_unit := N.
Definition jsstring := list code_unit.

(** An ASCII literal as a JavaScript string. *)
Definition lit (s : string) : jsstring :=
  map N_of_ascii (list_ascii_of_string s).

Definition LF : code_unit := 10%N.
Definition nl : jsstring := [LF].

(** Concatenation of a list of pieces, for writing multi-line literals. *)
Definition cat (pieces : list jsstring) : jsstring := concat pieces.

Definition jseq (a b : jsstring) : bool := bool_decide (a = b).

(** [LineTerminator]: LF, CR, LS, PS. *)
Definition is_line_terminator (c : code_unit) : bool :=
  ((c =? 10) || (c =? 13) || (c =? 0x2028) || (c =? 0x2029))%N.

(** [WhiteSpace] and [LineTerminator] code units: what [trim] removes and
    what the class [\s] matches. *)
Definition is_white_space (c : code_unit) : bool :=
  ((c =? 9) || (c =? 10) || (c =? 11) || (c =? 12) || (c =? 13)
   || (c =? 32) || (c =? 160) || (c =? 0x1680)
   || ((0x2000 <=? c) && (c <=? 0x200A))
   || (c =? 0x2028) || (c =? 0x2029) || (c =? 0x202F) || (c =? 0x205F)
   || (c =? 0x3000) || (c =? 0xFEFF))%N.

Fixpoint trimStart (s : jsstring) : jsstring :=
  match s with
  | [] => []
  | c :: r => if is_white_space c then trimStart r else s
  end.

Definition trimEnd (s : jsstring) : jsstring := rev (trimStart (rev s)).

(** [String.prototype.trim]. *)
Definition trim (s : jsstring) : jsstring := trimEnd (trimStart s).

Fixpoint starts_with (pat s : jsstring) : bool :=
  match pat, s with
  | [], _ => true
  | _ :: _, [] => false
  | p :: pat', c :: s' => (p =? c)%N && starts_with pat' s'
  end.

(** First position, counted from [i], at which [pat] occurs in [s];
    [-1] when there is none. *)
Fixpoint index_from (pat s : jsstring) (i : Z) : Z :=
  match s with
  | [] => if starts_with pat [] then i else -1
  | _ :: r => if starts_with pat s then i else index_from pat r (i + 1)
  end.

(** [text.indexOf(pat, position)]: the position is clamped to
    [0 .. text.length]. *)
Definition indexOf (text pat : jsstring) (position : Z) : Z :=
  let len := Z.of_nat (length text) in
  let start := Z.min (Z.max position 0) len in
  index_from pat (drop (Z.to_nat start) text) start.

(** [text.substring(indexStart, indexEnd)]: both bounds are clamped to
    [0 .. text.length] and swapped when out of order. *)
Definition substring (text : jsstring) (indexStart indexEnd : Z) : jsstring :=
  let len := Z.of_nat (length text) in
  let finalStart := Z.min (Z.max indexStart 0) len in
  let finalEnd := Z.min (Z.max indexEnd 0) len in
  let from := Z.min finalStart finalEnd in
  let to := Z.max finalStart finalEnd in
  take (Z.to_nat (to - from)) (drop (Z.to_nat from) text).

(** [text.split(sep)] for a separator of one code unit: never empty. *)
Fixpoint split (sep : code_unit) (s : jsstring) : list jsstring :=
  match s with
  | [] => [[]]
  | c :: r =>
      if (c =? sep)%N then [] :: split sep r
      else match split sep r with
           | [] => [[c]]
           | h :: t => (c :: h) :: t
           end
  end.

(** [parts.join(sep)]. *)
Fixpoint join (sep : jsstring) (parts : list jsstring) : jsstring :=
  match parts with
  | [] => []
  | [p] => p
  | p :: rest => p ++ sep ++ join sep rest
  end.

(** [/^\s*$/.test(s)]: without the [m] flag the anchors are the two ends
    of the input, so every code unit has to be white space. *)
Definition test_blank (s : jsstring) : bool := forallb is_white_space s.

(** A string is truthy when it is not empty. *)
Definition truthy_str (s : jsstring) : bool :=
  match s with [] => false | _ :: _ => true end.

(** [line.replace(/^\* ?/, '')]: a leading asterisk and one space after
    it, when present, are removed. *)
Definition strip_leading_star (line : jsstring) : jsstring :=
  match line with
  | 42%N :: 32%N :: r => r
  | 42%N :: r => r
  | _ => line
  end.

(** First occurrence of [pat] in [s]: the text before it and the text
    after it. *)
Fixpoint cut_at (pat s : jsstring) : option (jsstring * jsstring) :=
  match s with
  | [] => if starts_with pat [] then Some ([], []) else None
  | c :: r =>
      if starts_with pat s then Some ([], drop (length pat) s)
      else match cut_at pat r with
           | Some (before, after) => Some (c :: before, after)
           | None => None
           end
  end.

(** [GetSubstitution] for a string pattern (no capture groups): in the
    replacement text [$$] stands for a dollar sign, [$&] for the matched
    text, [$`] for the text before the match and [$'] for the text after
    it; any other dollar sign stands for itself. *)
Fixpoint get_substitution (matched before after repl : jsstring) : jsstring :=
  match repl with
  | 36%N :: 36%N :: r => 36%N :: get_substitution matched before after r
  | 36%N :: 38%N :: r => matched ++ get_substitution matched before after r
  | 36%N :: 96%N :: r => before ++ get_substitution matched before after r
  | 36%N :: 39%N :: r => after ++ get_substitution matched before after r
  | c :: r => c :: get_substitution matched before after r
  | [] => []
  end.

(** [s.replace(pat, repl)] with a string pattern: the first occurrence
    only, the replacement text expanded by [get_substitution]. *)
Definition replace (s pat repl : jsstring) : jsstring :=
  match cut_at pat s with
  | None => s
  | Some (before, after) =>
      before ++ get_substitution pat before after repl ++ after
  end.

End JsString.

Import JsString.

(** ** JavaScript values, exceptions and the effects of the programs *)

(** Values as [JSON.parse] builds them; an object is its list of
    properties.  Numbers are integers here: only their truthiness is ever
    looked at. *)
Inductive jsval :=
| VUndefined
| VNull
| VBool (b : bool)
| VNum (z : Z)
| VStr (s : jsstring)
| VArr (items : list jsval)
| VObj (props : list (string * jsval)).

Inductive exn :=
| TypeError
| ReferenceError (identifier : string)
| RangeError
| Error (message : string)
| RequestError
| FsError (code : string).

Inductive result (A : Type) :=
| Ok (a : A)
| Throw (e : exn).
Arguments Ok {A} a.
Arguments Throw {A} e.

Definition rbind {A B} (r : result A) (k : A -> result B) : result B :=
  match r with
  | Ok a => k a
  | Throw e => Throw e
  end.

Notation "'let?' x ':=' r 'in' k" := (rbind r (fun x => k))
  (at level 10, x name, r at level 100, k at level 200).

Definition truthy (v : jsval) : bool :=
  match v with
  | VUndefined | VNull => false
  | VBool b => b
  | VNum z => negb (z =? 0)
  | VStr s => truthy_str s
  | VArr _ | VObj _ => true
  end.

Fixpoint assoc (name : string) (props : list (string * jsval)) : jsval :=
  match props with
  | [] => VUndefined
  | (k, v) :: rest => if String.eqb k name then v else assoc name rest
  end.

(** [v.name] for the property names read from a response ([data],
    [choices], [message], [content]), which no built-in prototype defines:
    reading from [undefined] or [null] raises, a primitive or an array has
    no such property. *)
Definition get_field (v : jsval) (name : string) : result jsval :=
  match v with
  | VUndefined | VNull => Throw TypeError
  | VObj props => Ok (assoc name props)
  | VBool _ | VNum _ | VStr _ | VArr _ => Ok VUndefined
  end.

(** [v[0]]. *)
Definition get_first (v : jsval) : result jsval :=
  match v with
  | VUndefined | VNull => Throw TypeError
  | VArr [] => Ok VUndefined
  | VArr (x :: _) => Ok x
  | VStr [] => Ok VUndefined
  | VStr (c :: _) => Ok (VStr [c])
  | VObj props => Ok (assoc "0" props)
  | VBool _ | VNum _ => Ok VUndefined
  end.

(** [v.trim()]: only a string has the method; a parsed value holds no
    function, so the call raises on everything else. *)
Definition call_trim (v : jsval) : result jsstring :=
  match v with
  | VStr s => Ok (trim s)
  | _ => Throw TypeError
  end.

(** A chat completion request: the two messages and the model parameters
    taken from the configuration. *)
Record request := {
  req_model : jsval;
  req_system : jsstring;
  req_user : jsstring;
  req_max_tokens : jsval;
  req_n : jsval;
  req_stop : jsval;
  req_temperature : jsval;
  req_top_p : option jsval;
}.

(** What the awaited promise of [openai.createChatCompletion] does: it
    rejects (transport failure, HTTP status outside 2xx, unparsable body)
    or resolves to a response. *)
Inductive api_outcome :=
| Rejects
| Resolves (response : jsval).

(** A declaration as the tree library presents it: [getName()],
    [getText()] and the texts of [getJsDocs()]. *)
Record declaration := {
  decl_name : jsstring;
  decl_text : jsstring;
  decl_jsDocs : list jsstring;
}.

(** The two calls that change a declaration's documentation. *)
Inductive edit :=
| ReplaceWithText (target : declaration) (text : jsstring)
| AddJsDoc (target : declaration) (text : jsstring).

Inductive node :=
| File (content : jsstring)
| Dir.

(** The state outside the program: the requests sent so far (oldest
    first), the edits made through the tree library, what exists on disk,
    and the number of [project.saveSync()] calls.  Console output is not
    recorded. *)
Record world := {
  sent : list request;
  edits : list edit;
  disk : gmap jsstring node;
  saves : nat;
}.

Definition M (A : Type) : Type := world -> result A * world.

Definition ret {A} (a : A) : M A := fun w => (Ok a, w).

Definition throw {A} (e : exn) : M A := fun w => (Throw e, w).

Definition bind {A B} (m : M A) (k : A -> M B) : M B :=
  fun w =>
    match m w with
    | (Ok a, w') => k a w'
    | (Throw e, w') => (Throw e, w')
    end.

Definition lift {A} (r : result A) : M A := fun w => (r, w).

(** [try { body } catch (error) { handler }]. *)
Definition try_catch {A} (body : M A) (handler : exn -> M A) : M A :=
  fun w =>
    match body w with
    | (Ok a, w') => (Ok a, w')
    | (Throw e, w') => handler e w'
    end.

Notation "'let!' x ':=' m 'in' k" := (bind m (fun x => k))
  (at level 10, x name, m at level 100, k at level 200).
Notation "m ';;;' k" := (bind m (fun _ => k))
  (at level 100, k at level 200, right associativity).

(** [for (const x of xs) { body }]: an exception leaves the loop. *)
Fixpoint for_of {A} (xs : list A) (body : A -> M unit) : M unit :=
  match xs with
  | [] => ret tt
  | x :: rest => body x ;;; for_of rest body
  end.

(** The world after one more request, and after one more edit. *)
Definition sending (req : request) (w : world) : world :=
  {| sent := sent w ++ [req]; edits := edits w;
     disk := disk w; saves := saves w |}.

Definition editing (e : edit) (w : world) : world :=
  {| sent := sent w; edits := edits w ++ [e];
     disk := disk w; saves := saves w |}.

Definition log_edit (e : edit) : M unit :=
  fun w => (Ok tt, editing e w).

(** [project.saveSync()]. *)
Definition saveSync : M unit :=
  fun w => (Ok tt, {| sent := sent w; edits := edits w;
                      disk := disk w; saves := S (saves w) |}).

(** [`${v}`] for a string or [null]. *)
Definition template_string (v : option jsstring) : jsstring :=
  match v with
  | Some s => s
  | None => lit "null"
  end.

(** [response.data.choices[0].message]. *)
Definition first_message (response : jsval) : result jsval :=
  let? data := get_field response "data" in
  let? choices := get_field data "choices" in
  let? choice := get_first choices in
  get_field choice "message".

(** The statements of the [try] block after the request, the same in
    every completion function of the repository: the message of the first
    choice, the [console.log] of [message.content], the test and the
    [trim]. *)
Definition read_completion (response : jsval) : result jsstring :=
  let? message := first_message response in
  let? content := get_field message "content" in
  if truthy message && truthy content then call_trim content
  else Throw (Error "Unexpected message format").

(** What a completion function returns for an outcome of its request. *)
Definition answer_of (outcome : api_outcome) : option jsstring :=
  match outcome with
  | Rejects => None
  | Resolves response =>
      match read_completion response with
      | Ok content => Some content
      | Throw _ => None
      end
  end.

Section Endpoint.

(** The remote endpoint: its answer to a request, given the requests
    that came before. *)
Variable openai : list request -> request -> api_outcome.

(** [await openai.createChatCompletion(req)]. *)
Definition createChatCompletion (req : request) : M jsval :=
  fun w =>
    match openai (sent w) req with
    | Rejects => (Throw RequestError, sending req w)
    | Resolves response => (Ok response, sending req w)
    end.

End Endpoint.

(** ** The parsed project and the configuration *)

Record class_decl := {
  class_name : option jsstring;
  class_text : jsstring;
  class_methods : list declaration;
  class_properties : list declaration;
  class_constructors : list declaration;
}.

Record enum_decl := {
  enum_members : list declaration;
}.

Record source_file := {
  file_path : jsstring;
  file_classes : list class_decl;
  file_enums : list enum_decl;
  file_functions : list declaration;
}.

(** [config.openAiConfig]. *)
Record OpenAiConfig := {
  model : jsval;
  max_tokens : jsval;
  n : jsval;
  stop : jsval;
  temperature : jsval;
  top_p : jsval;
  retries : jsval;
}.

(** ** The documentation generator ([tsDocumenter.js]) *)

Module TsDocumenter.

(** [config.json] as this program reads it. *)
Record Config := {
  minLength : Z;
  beforeCode : jsstring;
  afterCode : jsstring;
  systemContent : jsstring;
  openAiConfig : OpenAiConfig;
}.

(** [extractComment(text)]; [None] is JavaScript's [null]. *)
Definition extractComment (text : jsstring) : option jsstring :=
  let commentStart := indexOf text (lit "/**") 0 in
  if commentStart =? -1 then None
  else
    let commentEnd := indexOf text (lit "*/") commentStart in
    if commentEnd =? -1 then None
    else
      Some (join nl
              (map (fun line => strip_leading_star (trim line))
                 (split LF (substring text (commentStart + 3) commentEnd)))).

(** [updateDoc(method, documentation)]: the comment is a template string
    around the extraction result; it replaces the text of the first
    documentation comment or is added as a new one. *)
Definition updateDoc (method : declaration) (documentation : jsstring) : M unit :=
  let comment := nl ++ template_string (extractComment documentation) in
  match decl_jsDocs method with
  | _ :: _ => log_edit (ReplaceWithText method comment)
  | [] => log_edit (AddJsDoc method comment)
  end.

(** The edit that splices a comment into a declaration. *)
Definition splice (method : declaration) (comment : jsstring) : edit :=
  match decl_jsDocs method with
  | _ :: _ => ReplaceWithText method comment
  | [] => AddJsDoc method comment
  end.

Section Program.

Variable openai : list request -> request -> api_outcome.
Variable config : Config.

Definition userMessage (codigo : jsstring) : jsstring :=
  beforeCode config ++ codigo ++ afterCode config.

Definition completion_request (codigo : jsstring) : request :=
  {| req_model := model (openAiConfig config);
     req_system := systemContent config;
     req_user := userMessage codigo;
     req_max_tokens := max_tokens (openAiConfig config);
     req_n := n (openAiConfig config);
     req_stop := stop (openAiConfig config);
     req_temperature := temperature (openAiConfig config);
     req_top_p := None |}.

(** [createDoc(codigo, retries)]. *)
Definition createDoc (codigo : jsstring) (retries : jsval) : M (option jsstring) :=
  try_catch
    (let! response := createChatCompletion openai (completion_request codigo) in
     let! content := lift (read_completion response) in
     ret (Some content))
    (fun error => ret None).

(** The body of the four loops of the main function (methods,
    properties, constructors, enum members): the same statements for
    each kind of declaration.  [createDoc(code)] takes the default
    value of [retries]. *)
Definition document (method : declaration) : M unit :=
  let documentation := join nl (decl_jsDocs method) in
  if negb (truthy_str documentation) || test_blank documentation then
    let code := decl_text method in
    if Z.of_nat (length code) >? minLength config then
      let! newDocumentation := createDoc code (retries (openAiConfig config)) in
      match newDocumentation with
      | Some (c :: text) => updateDoc method (c :: text)
      | Some [] | None => ret tt
      end
    else ret tt
  else ret tt.

Definition main (files : list source_file) : M unit :=
  for_of files (fun file =>
    for_of (file_classes file) (fun classObj =>
      for_of (class_methods classObj) document ;;;
      for_of (class_properties classObj) document ;;;
      for_of (class_constructors classObj) document) ;;;
    for_of (file_enums file) (fun enumObj =>
      for_of (enum_members enumObj) document) ;;;
    saveSync).

End Program.

End TsDocumenter.

(** ** Node's [path] module and [fs] calls *)

Module Path.

Definition is_slash (c : code_unit) : bool := (c =? 47)%N.

Fixpoint drop_while (f : code_unit -> bool) (s : jsstring) : jsstring :=
  match s with
  | [] => []
  | c :: r => if f c then drop_while f r else s
  end.

Fixpoint take_while (f : code_unit -> bool) (s : jsstring) : jsstring :=
  match s with
  | [] => []
  | c :: r => if f c then c :: take_while f r else []
  end.

Definition no_slash (s : jsstring) : Prop :=
  Forall (fun c => is_slash c = false) s.

(** [path.isAbsolute(p)]. *)
Definition isAbsolute (p : jsstring) : bool := starts_with (lit "/") p.

(** The last component of a path, slashes at its end ignored. *)
Definition last_component (p : jsstring) : jsstring :=
  rev (take_while (fun c => negb (is_slash c)) (drop_while is_slash (rev p))).

Definition ends_with (s suffix : jsstring) : bool :=
  starts_with (rev suffix) (rev s).

(** [path.basename(p, ext)] on POSIX, for a path that does not end in a
    slash: the last component, without [ext] when it ends in [ext] and is
    longer than it. *)
Definition basename (p ext : jsstring) : jsstring :=
  let b := last_component p in
  if truthy_str ext && (length ext <=? length p)%nat then
    if jseq ext p then []
    else if ends_with b ext && negb (jseq b ext)
         then take (length b - length ext) b
         else b
  else b.

(** [path.dirname(p)] on POSIX: what precedes the last slash that has a
    component after it; ["/"] or ["."] when there is no such slash past
    the first code unit. *)
Definition dirname (p : jsstring) : jsstring :=
  match p with
  | [] => lit "."
  | c :: t =>
      let r := drop_while (fun c => negb (is_slash c))
                 (drop_while is_slash (rev t)) in
      match r with
      | [] => if is_slash c then lit "/" else lit "."
      | _ :: _ =>
          if is_slash c && (length r =? 1)%nat then lit "//"
          else take (length r) p
      end
  end.

(** One segment of a path in [normalizeString]; [res] holds the segments
    kept so far, the last one first.  An empty segment and ["."] are
    dropped; [".."] removes the segment before it, unless there is none or
    it is [".."] itself, in which case it is kept in a relative path and
    dropped in an absolute one. *)
Definition normalize_step (allowAboveRoot : bool) (res : list jsstring)
    (segment : jsstring) : list jsstring :=
  if jseq segment [] || jseq segment (lit ".") then res
  else if jseq segment (lit "..") then
    match res with
    | last :: rest =>
        if jseq last (lit "..")
        then (if allowAboveRoot then segment :: res else res)
        else rest
    | [] => if allowAboveRoot then [segment] else []
    end
  else segment :: res.

(** [normalizeString(path, allowAboveRoot, '/', isPosixPathSeparator)]. *)
Definition normalizeString (path : jsstring) (allowAboveRoot : bool) : jsstring :=
  JsString.join (lit "/")
    (rev (fold_left (normalize_step allowAboveRoot) (split 47%N path) [])).

(** [path.normalize(p)] on POSIX. *)
Definition normalize (p : jsstring) : jsstring :=
  match p with
  | [] => lit "."
  | _ :: _ =>
      let absolute := isAbsolute p in
      let trailingSeparator := ends_with p (lit "/") in
      match normalizeString p (negb absolute) with
      | [] =>
          if absolute then lit "/"
          else if trailingSeparator then lit "./" else lit "."
      | c :: r =>
          (if absolute then lit "/" else [])
          ++ (c :: r) ++ (if trailingSeparator then lit "/" else [])
      end
  end.

(** [path.join(dir, name)] on POSIX: the arguments that are not empty,
    with a slash between them, normalized. *)
Definition join (dir name : jsstring) : jsstring :=
  match dir, name with
  | [], [] => lit "."
  | [], _ :: _ => normalize name
  | _ :: _, [] => normalize dir
  | _ :: _, _ :: _ => normalize (dir ++ lit "/" ++ name)
  end.

End Path.

(** What is handed to [fs.writeFileSync] as data. *)
Inductive file_data :=
| DataString (s : jsstring)
| DataNull
| DataPromise.

Definition coerced (d : file_data) : jsstring :=
  match d with
  | DataString s => s
  | DataNull => lit "null"
  | DataPromise => lit "[object Promise]"
  end.

Definition set_disk (d : gmap jsstring node) : M unit :=
  fun w => (Ok tt, {| sent := sent w; edits := edits w;
                      disk := d; saves := saves w |}).

(** [fs.existsSync(p)]: a file or a directory is there. *)
Definition existsSync (p : jsstring) : M bool :=
  fun w => (Ok (bool_decide (is_Some (disk w !! p))), w).

(** [fs.mkdirSync(dir)]: the directory must not exist, its parent must. *)
Definition mkdirSync (dir : jsstring) : M unit :=
  fun w =>
    match disk w !! dir with
    | Some _ => (Throw (FsError "EEXIST"), w)
    | None =>
        match disk w !! Path.dirname dir with
        | Some Dir => set_disk (<[dir := Dir]> (disk w)) w
        | Some (File _) => (Throw (FsError "ENOTDIR"), w)
        | None => (Throw (FsError "ENOENT"), w)
        end
    end.

Section Fs.

(** Data that is not a string: Node before version 14 writes its string
    form, later versions raise a [TypeError]. *)
Variable legacy_coercion : bool.

(** [fs.writeFileSync(p, data, 'utf-8')]: creates or replaces the file. *)
Definition writeFileSync (p : jsstring) (data : file_data) : M unit :=
  fun w =>
    match data, legacy_coercion with
    | DataNull, false | DataPromise, false => (Throw TypeError, w)
    | _, _ =>
        match disk w !! p with
        | Some Dir => (Throw (FsError "EISDIR"), w)
        | _ =>
            match disk w !! Path.dirname p with
            | Some Dir => set_disk (<[p := File (coerced data)]> (disk w)) w
            | Some (File _) => (Throw (FsError "ENOTDIR"), w)
            | None => (Throw (FsError "ENOENT"), w)
            end
        end
    end.

End Fs.

(** ** The unit test creator with the file-exists check *)

Module UnitTestCreator.

(** [config.prompt]. *)
Record Prompt := {
  beforeCode : jsstring;
  afterCode : jsstring;
  systemContent : jsstring;
}.

Record Config := {
  minLength : Z;
  prompt : Prompt;
  openAiConfig : OpenAiConfig;
}.

(** [code.replace(/\/\/.*/g, '')]: from two slashes up to, and without,
    the next line terminator. *)
Fixpoint remove_singleLineComment (in_comment : bool) (code : jsstring) : jsstring :=
  match code with
  | [] => []
  | c :: r =>
      if in_comment then
        if is_line_terminator c then c :: remove_singleLineComment false r
        else remove_singleLineComment true r
      else
        match c, r with
        | 47%N, 47%N :: _ => remove_singleLineComment true r
        | _, _ => c :: remove_singleLineComment false r
        end
  end.

(** Number of code units up to the end of the first [*/]. *)
Fixpoint close_offset (s : jsstring) : option nat :=
  match s with
  | [] => None
  | c :: r =>
      match c, r with
      | 42%N, 47%N :: _ => Some 2%nat
      | _, _ => option_map S (close_offset r)
      end
  end.

(** [code.replace(/\/\*[\s\S]*?\*\//g, '')]: from [/*] through the first
    [*/] after it; a [/*] that is never closed stays.  [skip] counts the
    code units of the current match still to drop. *)
Fixpoint remove_multiLineComment (skip : nat) (code : jsstring) : jsstring :=
  match code with
  | [] => []
  | c :: r =>
      match skip with
      | S k => remove_multiLineComment k r
      | O =>
          match c, r with
          | 47%N, 42%N :: r' =>
              match close_offset r' with
              | Some k => remove_multiLineComment (S k) r
              | None => c :: remove_multiLineComment 0 r
              end
          | _, _ => c :: remove_multiLineComment 0 r
          end
      end
  end.

(** [removeComments(code)]. *)
Definition removeComments (code : jsstring) : jsstring :=
  remove_multiLineComment 0 (remove_singleLineComment false code).

(** A replacement value is converted to a string: [undefined], the name
    of an anonymous class, becomes the text "undefined". *)
Definition to_string (name : option jsstring) : jsstring :=
  match name with
  | Some s => s
  | None => lit "undefined"
  end.

(** [testFileExists(testFilePath)]. *)
Definition testFileExists (testFilePath : jsstring) : M bool :=
  existsSync testFilePath.

(** [ensureDirectoryExistence(filePath)].  The recursion has no base case
    of its own: it ends when a directory exists, and otherwise exhausts
    the call stack, which [fuel] stands for. *)
Fixpoint ensureDirectoryExistence (fuel : nat) (filePath : jsstring) : M unit :=
  match fuel with
  | O => throw RangeError
  | S fuel' =>
      let dir := Path.dirname filePath in
      let! found := existsSync dir in
      if found : bool then ret tt
      else
        ensureDirectoryExistence fuel' (Path.dirname dir) ;;;
        mkdirSync dir
  end.

Definition call_stack (filePath : jsstring) : nat := (length filePath + 2)%nat.

Section Program.

Variable openai : list request -> request -> api_outcome.
Variable legacy_coercion : bool.
Variable config : Config.

(** [createUnitTestFile(filePath, testFileContent)]. *)
Definition createUnitTestFile (filePath : jsstring) (testFileContent : file_data) : M unit :=
  ensureDirectoryExistence (call_stack filePath) filePath ;;;
  writeFileSync legacy_coercion filePath testFileContent.

Definition beforeCode_of (className : option jsstring) : jsstring :=
  replace (beforeCode (prompt config)) (lit "{className}") (to_string className).

Definition afterCode_of (funcName testFileName : jsstring) : jsstring :=
  replace
    (replace (afterCode (prompt config)) (lit "{methodName}") funcName)
    (lit "{testFileName}") testFileName.

Definition userMessage (className : option jsstring)
    (funcName testFileName clasCode : jsstring) : jsstring :=
  beforeCode_of className ++ removeComments clasCode
    ++ afterCode_of funcName testFileName.

Definition completion_request (className : option jsstring)
    (funcName testFileName clasCode : jsstring) : request :=
  {| req_model := model (openAiConfig config);
     req_system := systemContent (prompt config);
     req_user := userMessage className funcName testFileName clasCode;
     req_max_tokens := max_tokens (openAiConfig config);
     req_n := n (openAiConfig config);
     req_stop := stop (openAiConfig config);
     req_temperature := temperature (openAiConfig config);
     req_top_p := Some (top_p (openAiConfig config)) |}.

(** [generateTestFileContent(className, funcName, testFileName,
    clasCode, retries)]. *)
Definition generateTestFileContent (className : option jsstring)
    (funcName testFileName clasCode : jsstring) (retries : jsval)
    : M (option jsstring) :=
  try_catch
    (let! response := createChatCompletion openai
                        (completion_request className funcName testFileName clasCode) in
     let! content := lift (read_completion response) in
     ret (Some content))
    (fun error => ret None).

Definition as_data (content : option jsstring) : file_data :=
  match content with
  | Some s => DataString s
  | None => DataNull
  end.

Definition testFileName_of (file : source_file) (methodName : jsstring) : jsstring :=
  Path.basename (file_path file) (lit ".ts") ++ lit "." ++ methodName ++ lit ".spec.ts".

Definition testFilePath_of (file : source_file) (methodName : jsstring) : jsstring :=
  Path.join (Path.dirname (file_path file)) (testFileName_of file methodName).

(** The body of the method loop of the main function. *)
Definition process_method (file : source_file) (classObj : class_decl)
    (method : declaration) : M unit :=
  let clasCode := class_text classObj in
  let methodName := decl_name method in
  if truthy_str methodName then
    let methodCode := decl_text method in
    if Z.of_nat (length methodCode) >? minLength config then
      let testFileName := testFileName_of file methodName in
      let testFilePath := testFilePath_of file methodName in
      let! present := testFileExists testFilePath in
      if negb present then
        let! testFileContent :=
          generateTestFileContent (class_name classObj) methodName
            testFileName clasCode (retries (openAiConfig config)) in
        createUnitTestFile testFilePath (as_data testFileContent)
      else ret tt
    else ret tt
  else ret tt.

Definition main (files : list source_file) : M unit :=
  for_of files (fun file =>
    for_of (file_classes file) (fun classObj =>
      for_of (class_methods classObj) (process_method file classObj)) ;;;
    saveSync).

End Program.

End UnitTestCreator.

(** ** The unit test creator of [src/UnitTestCreator/unitTestCreator.js] *)

Module UnitTestCreatorSrc.

Import UnitTestCreator.

(** A value that is not a string: a module, a function, a tree node. *)
Definition opaque : jsval := VObj [].

(** The bindings of the file outside the two loops: the declarations at
    its top (it does not require [path]), its two functions, what Node
    gives every module, and the variables of the main function and of its
    loop over the files. *)
Definition file_scope : list (string * jsval) :=
  [ ("fs", opaque); ("Project", opaque); ("SyntaxKind", opaque);
    ("Configuration", opaque); ("OpenAIApi", opaque); ("config", opaque);
    ("configuration", opaque); ("openai", opaque);
    ("generateTestFileContent", opaque); ("createUnitTestFile", opaque);
    ("require", opaque); ("module", opaque); ("exports", opaque);
    ("__filename", opaque); ("__dirname", opaque); ("process", opaque);
    ("console", opaque); ("globalThis", opaque); ("global", opaque);
    ("JSON", opaque); ("Error", opaque); ("undefined", VUndefined);
    ("project", opaque); ("dirPath", opaque); ("files", opaque);
    ("file", opaque); ("classes", opaque); ("functions", opaque) ]%string.

(** The bindings in scope in the body of the method loop. *)
Definition method_scope (methodName code : jsstring) : list (string * jsval) :=
  [ ("classObj", opaque); ("methods", opaque); ("method", opaque);
    ("methodName", VStr methodName); ("code", VStr code);
    ("testFileContent", opaque); ("testFileName", opaque);
    ("testFilePath", opaque) ]%string ++ file_scope.

(** The bindings in scope in the body of the function loop. *)
Definition function_scope (funcName code : jsstring) : list (string * jsval) :=
  [ ("func", opaque); ("funcName", VStr funcName); ("code", VStr code);
    ("testFileContent", opaque); ("testFileName", opaque);
    ("testFilePath", opaque) ]%string ++ file_scope.

Fixpoint binding (identifier : string) (env : list (string * jsval)) : option jsval :=
  match env with
  | [] => None
  | (k, v) :: rest =>
      if String.eqb k identifier then Some v else binding identifier rest
  end.

(** Evaluating an identifier: a [ReferenceError] when nothing binds it. *)
Definition reference (env : list (string * jsval)) (identifier : string) : M jsval :=
  match binding identifier env with
  | Some v => ret v
  | None => throw (ReferenceError identifier)
  end.

(** A call of an async function that is not awaited: it runs up to its
    request, and the caller goes on with the promise. *)
Definition not_awaited {A} (call : M A) : M file_data :=
  fun w => (Ok DataPromise, snd (call w)).

Section Program.

Variable openai : list request -> request -> api_outcome.
Variable legacy_coercion : bool.
Variable config : Config.

Definition completion_request (code : jsstring) : request :=
  {| req_model := model (openAiConfig config);
     req_system := systemContent (prompt config);
     req_user := beforeCode (prompt config) ++ code ++ afterCode (prompt config);
     req_max_tokens := max_tokens (openAiConfig config);
     req_n := n (openAiConfig config);
     req_stop := stop (openAiConfig config);
     req_temperature := temperature (openAiConfig config);
     req_top_p := None |}.

(** [generateTestFileContent(funcName, code, retries)]. *)
Definition generateTestFileContent (funcName : jsval) (code : jsstring)
    (retries : jsval) : M (option jsstring) :=
  try_catch
    (let! response := createChatCompletion openai (completion_request code) in
     let! content := lift (read_completion response) in
     ret (Some content))
    (fun error => ret None).

(** [createUnitTestFile(filePath, testFileContent)]. *)
Definition createUnitTestFile (filePath : jsstring) (testFileContent : file_data) : M unit :=
  writeFileSync legacy_coercion filePath testFileContent.

Definition testFilePath_of (file : source_file) (name : jsstring) : jsstring :=
  let testFileName :=
    Path.basename (file_path file) (lit ".ts") ++ lit "." ++ name ++ lit ".spec.ts" in
  Path.join (Path.join (Path.dirname (file_path file)) (lit "__tests__")) testFileName.

(** The body of the method loop: the argument of the generation call
    is the identifier [methodname]. *)
Definition process_method (file : source_file) (method : declaration) : M unit :=
  let methodName := decl_name method in
  if truthy_str methodName then
    let code := decl_text method in
    if Z.of_nat (length code) >? minLength config then
      let env := method_scope methodName code in
      let! funcName := reference env "methodname" in
      let! testFileContent :=
        not_awaited (generateTestFileContent funcName code
                       (retries (openAiConfig config))) in
      let! path := reference env "path" in
      createUnitTestFile (testFilePath_of file methodName) testFileContent
    else ret tt
  else ret tt.

(** The body of the function loop. *)
Definition process_function (file : source_file) (func : declaration) : M unit :=
  let funcName := decl_name func in
  if truthy_str funcName then
    let code := decl_text func in
    if Z.of_nat (length code) >? minLength config then
      let env := function_scope funcName code in
      let! name := reference env "funcName" in
      let! testFileContent :=
        not_awaited (generateTestFileContent name code
                       (retries (openAiConfig config))) in
      let! path := reference env "path" in
      createUnitTestFile (testFilePath_of file funcName) testFileContent
    else ret tt
  else ret tt.

Definition main (files : list source_file) : M unit :=
  for_of files (fun file =>
    for_of (file_classes file) (fun classObj =>
      for_of (class_methods classObj) (process_method file)) ;;;
    for_of (file_functions file) (process_function file) ;;;
    saveSync).

End Program.

End UnitTestCreatorSrc.

(** ** The specification's wording of the selection and of the prompt *)

Module Spec.

(** Documentation mode: no documentation comment, or the concatenation
    of the comments' texts is empty or only white space, and the text is
    longer than the minimum. *)
Definition select_documentation (minLength : Z) (d : declaration) : bool :=
  (bool_decide (decl_jsDocs d = []) || test_blank (concat (decl_jsDocs d)))
  && (minLength <? Z.of_nat (length (decl_text d))).

(** A file name without its extension, and the extension. *)
Definition split_extension (name : jsstring) : jsstring * jsstring :=
  let is_dot := fun c : code_unit => (c =? 46)%N in
  let ext_rev := Path.take_while (fun c => negb (is_dot c)) (rev name) in
  match Path.drop_while (fun c => negb (is_dot c)) (rev name) with
  | [] => (name, [])
  | _ :: stem_rev => (rev stem_rev, rev ext_rev)
  end.

(** [<fileBaseNameWithoutExtension>.<methodName>.spec.<ext>] beside the
    source file. *)
Definition testFilePath (file : source_file) (methodName : jsstring) : jsstring :=
  let name := Path.last_component (file_path file) in
  let (stem, ext) := split_extension name in
  Path.join (Path.dirname (file_path file))
    (stem ++ lit "." ++ methodName ++ lit ".spec." ++ ext).

(** Test generation mode: a named class method, longer than the minimum,
    with nothing at its test file path. *)
Definition select_test (minLength : Z) (d : gmap jsstring node)
    (file : source_file) (method : declaration) : bool :=
  truthy_str (decl_name method)
  && (minLength <? Z.of_nat (length (decl_text method)))
  && bool_decide (d !! testFilePath file (decl_name method) = None).

(** Literal replacement of a token by a value, at every occurrence;
    [skip] counts the code units of the current occurrence still to
    drop. *)
Fixpoint substitute (skip : nat) (token value s : jsstring) : jsstring :=
  match s with
  | [] => []
  | c :: r =>
      match skip with
      | S k => substitute k token value r
      | O =>
          if starts_with token s
          then value ++ substitute (length token - 1) token value r
          else c :: substitute 0 token value r
      end
  end.

(** The user message of test generation mode with the three tokens
    substituted in both fragments. *)
Definition userMessage (before after className methodName testFileName body : jsstring)
    : jsstring :=
  let fill := fun fragment =>
    substitute 0 (lit "{testFileName}") testFileName
      (substitute 0 (lit "{methodName}") methodName
         (substitute 0 (lit "{className}") className fragment)) in
  fill before ++ body ++ fill after.



(** A completion result: null, or a string that is not empty and has no
    white space at either end. *)
Definition completion_result (r : option jsstring) : Prop :=
  r = None \/ exists s, r = Some s /\ s <> [] /\ trim s = s.

(** [s] is [content] without the white space at its two ends: what is cut
    off is white space, and [s] neither starts nor ends with white space. *)
Definition trimmed_of (content s : jsstring) : Prop :=
  exists l r,
    content = l ++ s ++ r
    /\ test_blank l = true /\ test_blank r = true
    /\ (forall c rest, s = c :: rest -> is_white_space c = false)
    /\ (forall c rest, s = rest ++ [c] -> is_white_space c = false).

End Spec.

(** ** Relations between the world before and after a computation *)

(** Every entry of the disk is still there, unchanged. *)
Definition keeps (w w' : world) : Prop :=
  forall p nd, disk w !! p = Some nd -> disk w' !! p = Some nd.

(** The disk only gained directories. *)
Definition adds_dirs (w w' : world) : Prop :=
  forall p, disk w' !! p = disk w !! p
            \/ (disk w !! p = None /\ disk w' !! p = Some Dir).

(** Nothing but the disk changed. *)
Definition same_log (w w' : world) : Prop :=
  sent w' = sent w /\ edits w' = edits w /\ saves w' = saves w.

(** ** Inputs used in the examples *)

Definition hello_world_doc : jsstring :=
  cat [lit "/**"; nl; lit " * Hello"; nl; lit " * World"; nl; lit " */"].

Definition empty_world : world :=
  {| sent := []; edits := []; disk := ∅; saves := 0 |}.

Definition bar_method : declaration :=
  {| decl_name := lit "bar";
     decl_text := lit "bar(): number { return this.total + 1; }";
     decl_jsDocs := [] |}.

Definition tiny_method : declaration :=
  {| decl_name := lit "f"; decl_text := lit "f() {}"; decl_jsDocs := [] |}.

Definition documented_method : declaration :=
  {| decl_name := lit "baz";
     decl_text := lit "baz(): number { return this.total - 1; }";
     decl_jsDocs := [lit "/** Computes baz. */"] |}.

Definition foo_class : class_decl :=
  {| class_name := Some (lit "Foo");
     class_text := lit "class Foo { bar(): number { return this.total + 1; } }";
     class_methods := [bar_method];
     class_properties := [];
     class_constructors := [] |}.

Definition foo_ts : source_file :=
  {| file_path := lit "/proj/Foo.ts"; file_classes := [foo_class];
     file_enums := []; file_functions := [] |}.

Definition foo_tsx : source_file :=
  {| file_path := lit "/proj/Foo.tsx"; file_classes := [foo_class];
     file_enums := []; file_functions := [] |}.

Definition sample_openAiConfig : OpenAiConfig :=
  {| model := VStr (lit "gpt-3.5-turbo"); max_tokens := VNum 500; n := VNum 1;
     stop := VNull; temperature := VNum 0; top_p := VNum 1; retries := VNum 3 |}.

Definition doc_config : TsDocumenter.Config :=
  {| TsDocumenter.minLength := 10;
     TsDocumenter.beforeCode := lit "Document this: ";
     TsDocumenter.afterCode := lit " Answer with a comment.";
     TsDocumenter.systemContent := lit "You write documentation.";
     TsDocumenter.openAiConfig := sample_openAiConfig |}.

Definition test_config : UnitTestCreator.Config :=
  {| UnitTestCreator.minLength := 10;
     UnitTestCreator.prompt :=
       {| UnitTestCreator.beforeCode := lit "Class {className}: ";
          UnitTestCreator.afterCode := lit " Test {methodName} in {testFileName}.";
          UnitTestCreator.systemContent := lit "You write unit tests." |};
     UnitTestCreator.openAiConfig := sample_openAiConfig |}.


(** A response whose first choice has a message with the given content. *)
Definition chat_response (content : jsval) : jsval :=
  VObj [("data"%string,
         VObj [("choices"%string,
                VArr [VObj [("message"%string,
                            VObj [("content"%string, content)])]])])].

(** An endpoint that answers every request the same way. *)
Definition always (answer : api_outcome) : list request -> request -> api_outcome :=
  fun _ _ => answer.

(** A disk with the project directory and, in it, the given entries. *)
Definition proj_disk (entries : list (jsstring * node)) : gmap jsstring node :=
  list_to_map ((lit "/", Dir) :: (lit "/proj", Dir) :: entries).

Definition on_disk (d : gmap jsstring node) : world :=
  {| sent := []; edits := []; disk := d; saves := 0 |}.

(** ** Notions used in the statements about whole runs *)

(** The declarations of a class, of a file and of a project in the order
    in which the documentation generator visits them: for each class its
    methods, properties and constructors, then the members of each enum. *)
Definition class_declarations (c : class_decl) : list declaration :=
  class_methods c ++ class_properties c ++ class_constructors c.

Definition file_declarations (file : source_file) : list declaration :=
  concat (map class_declarations (file_classes file))
  ++ concat (map enum_members (file_enums file)).

Definition declarations_of (files : list source_file) : list declaration :=
  concat (map file_declarations files).

(** The requests of the documentation generator for the declarations it
    selects among [ds], in order. *)
Definition documentation_requests (config : TsDocumenter.Config)
    (ds : list declaration) : list request :=
  map (fun d => TsDocumenter.completion_request config (decl_text d))
    (List.filter (Spec.select_documentation (TsDocumenter.minLength config)) ds).

(** A computation that always returns normally, having sent the requests
    [rs] and saved the project [k] times. *)
Definition emits (m : M unit) (rs : list request) (k : nat) : Prop :=
  forall w, fst (m w) = Ok tt
            /\ sent (snd (m w)) = sent w ++ rs
            /\ saves (snd (m w)) = (saves w + k)%nat.

(** An endpoint that fails every request: it rejects, or resolves to a
    response without usable content. *)
Definition always_fails (openai : list request -> request -> api_outcome) : Prop :=
  forall history req, answer_of (openai history req) = None.

(** [pat] occurs in [s]. *)
Definition occurs (pat s : jsstring) : Prop :=
  exists a b, s = a ++ pat ++ b.

(** What [extractComment] does to each line. *)
Definition clean_line (line : jsstring) : jsstring :=
  strip_leading_star (trim line).

(** The class methods of a project, in the order of the visit. *)
Definition methods_of (files : list source_file) : list declaration :=
  concat (map (fun file => concat (map class_methods (file_classes file))) files).

(** The world with the disk replaced. *)
Definition with_disk (d : gmap jsstring node) (w : world) : world :=
  {| sent := sent w; edits := edits w; disk := d; saves := saves w |}.

(** A run that made no edit and sent at most [k] requests. *)
Definition at_most (k : nat) (w w' : world) : Prop :=
  edits w' = edits w /\ (length (sent w') <= length (sent w) + k)%nat.

(** The first two tests of the loops of both unit test creators: a name
    that is not empty and a text longer than the minimum. *)
Definition qualifies (config : UnitTestCreator.Config) (d : declaration) : bool :=
  truthy_str (decl_name d)
  && (Z.of_nat (length (decl_text d)) >? UnitTestCreator.minLength config).

(** A file in which no class method and no function qualifies. *)
Definition quiet_file (config : UnitTestCreator.Config) (file : source_file) : bool :=
  forallb (fun classObj =>
             forallb (fun m => negb (qualifies config m)) (class_methods classObj))
    (file_classes file)
  && forallb (fun f => negb (qualifies config f)) (file_functions file).

(** An error raised for an identifier that nothing binds. *)
Definition is_reference_error (r : result unit) : Prop :=
  r = Throw (ReferenceError "methodname") \/ r = Throw (ReferenceError "path").

(** ** Comments left in a text *)

(** The first code unit of [s] is [x]. *)
Definition head_is (x : code_unit) (s : jsstring) : bool :=
  match s with
  | c :: _ => (c =? x)%N
  | [] => false
  end.

(** Two slashes in a row occur in [s]: a line comment starts there. *)
Fixpoint has_line_comment (s : jsstring) : bool :=
  match s with
  | [] => false
  | c :: r => ((c =? 47)%N && head_is 47%N r) || has_line_comment r
  end.

(** A closed block comment occurs in [s]: a slash and an asterisk with an
    asterisk and a slash somewhere after them. *)
Fixpoint has_block_comment (s : jsstring) : bool :=
  match s with
  | [] => false
  | c :: r =>
      ((c =? 47)%N && head_is 42%N r
       && bool_decide (is_Some (UnitTestCreator.close_offset (tail r))))
      || has_block_comment r
  end.

(** The test file of a class method that passes the two tests exists. *)
Definition has_test_file (config : UnitTestCreator.Config) (w : world)
    (file : source_file) (m : declaration) : Prop :=
  qualifies config m = true ->
  is_Some (disk w !! UnitTestCreator.testFilePath_of file (decl_name m)).

(** The declaration an edit is made on. *)
Definition edit_target (e : edit) : declaration :=
  match e with
  | ReplaceWithText d _ | AddJsDoc d _ => d
  end.

(** An edit on a declaration that the documentation generator selects:
    an added comment where there was none, a replaced one where the
    existing comments are blank. *)
Definition careful_edit (config : TsDocumenter.Config) (e : edit) : Prop :=
  Spec.select_documentation (TsDocumenter.minLength config) (edit_target e) = true
  /\ match e with
     | AddJsDoc d _ => decl_jsDocs d = []
     | ReplaceWithText d _ =>
         decl_jsDocs d <> [] /\ test_blank (concat (decl_jsDocs d)) = true
     end.

(** The edits of [w'] are those of [w] followed by careful edits. *)
Definition edits_carefully (config : TsDocumenter.Config) (w w' : world) : Prop :=
  exists new, edits w' = edits w ++ new /\ Forall (careful_edit config) new.

(** * Properties *)

(** A match on a code unit that singles out one ASCII character takes its
    default branch for every other code unit: case analysis on the bits. *)
Ltac other_code_unit c H :=
  let p := fresh "p" in
  destruct c as [|p]; [reflexivity|];
  do 6 (try (destruct p as [p|p|]; try reflexivity));
  now contradiction H.

(** ** Strings *)

Section StringFacts.

Lemma test_blank_app (a b : jsstring) :
  test_blank (a ++ b) = test_blank a && test_blank b.
Proof. unfold test_blank. apply forallb_app. Qed.

Lemma test_blank_join (docs : list jsstring) :
  test_blank (join nl docs) = test_blank (concat docs).
Proof.
  induction docs as [|doc rest IH]; [reflexivity|].
  destruct rest as [|doc' rest'].
  - simpl. now rewrite app_nil_r.
  - change (join nl (doc :: doc' :: rest'))
      with (doc ++ nl ++ join nl (doc' :: rest')).
    change (concat (doc :: doc' :: rest'))
      with (doc ++ concat (doc' :: rest')).
    rewrite !test_blank_app, IH. reflexivity.
Qed.

Lemma blank_or_empty (s : jsstring) :
  negb (truthy_str s) || test_blank s = test_blank s.
Proof. destruct s; reflexivity. Qed.

Lemma test_blank_Forall (s : jsstring) :
  test_blank s = true <-> Forall (fun c => is_white_space c = true) s.
Proof.
  unfold test_blank. rewrite forallb_forall, Forall_forall.
  split; intros H c Hc; apply H; [now apply list_elem_of_In | now apply list_elem_of_In].
Qed.

Lemma test_blank_concat_false (docs : list jsstring) (doc : jsstring) :
  In doc docs -> test_blank doc = false -> test_blank (concat docs) = false.
Proof.
  induction docs as [|d rest IH]; simpl; [tauto|].
  intros [->|Hin] Hdoc; rewrite test_blank_app.
  - now rewrite Hdoc.
  - rewrite (IH Hin Hdoc). apply andb_false_r.
Qed.

End StringFacts.

(** ** The documentation generator *)

Section DocumenterFacts.

Import TsDocumenter.

Variable openai : list request -> request -> api_outcome.
Variable config : Config.

Lemma updateDoc_run (method : declaration) (documentation : jsstring) (w : world) :
  updateDoc method documentation w
  = (Ok tt, editing (splice method (nl ++ template_string (extractComment documentation))) w).
Proof.
  unfold updateDoc, splice, log_edit. now destruct (decl_jsDocs method).
Qed.

Lemma createDoc_run (codigo : jsstring) (retries : jsval) (w : world) :
  createDoc openai config codigo retries w
  = (Ok (answer_of (openai (sent w) (completion_request config codigo))),
     sending (completion_request config codigo) w).
Proof.
  unfold createDoc, try_catch, bind, createChatCompletion, lift, ret, answer_of.
  destruct (openai _ _) as [|response]; [reflexivity|].
  now destruct (read_completion response).
Qed.

Lemma extractComment_found (text : jsstring) (commentStart commentEnd : Z) :
  indexOf text (lit "/**") 0 = commentStart -> commentStart <> -1 ->
  indexOf text (lit "*/") commentStart = commentEnd -> commentEnd <> -1 ->
  extractComment text
  = Some (join nl (map (fun line => strip_leading_star (trim line))
                     (split LF (substring text (commentStart + 3) commentEnd)))).
Proof.
  intros Hs Hs' He He'. unfold extractComment. rewrite Hs.
  destruct (Z.eqb_spec commentStart (-1)) as [|_]; [contradiction|].
  rewrite He. destruct (Z.eqb_spec commentEnd (-1)) as [|_]; [contradiction|].
  reflexivity.
Qed.

Lemma extractComment_None (text : jsstring) :
  extractComment text = None
  <-> indexOf text (lit "/**") 0 = -1
      \/ indexOf text (lit "*/") (indexOf text (lit "/**") 0) = -1.
Proof.
  unfold extractComment.
  destruct (Z.eqb_spec (indexOf text (lit "/**") 0) (-1)) as [Hs|Hs].
  - split; [now left | reflexivity].
  - destruct (Z.eqb_spec (indexOf text (lit "*/") (indexOf text (lit "/**") 0)) (-1))
      as [He|He].
    + split; [now right | reflexivity].
    + split; [discriminate | intros [H|H]; contradiction].
Qed.

(** The guard of the loop body is the specification's selection. *)
Lemma guard_select (d : declaration) :
  (negb (truthy_str (join nl (decl_jsDocs d))) || test_blank (join nl (decl_jsDocs d)))
  && (Z.of_nat (length (decl_text d)) >? minLength config)
  = Spec.select_documentation (minLength config) d.
Proof.
  unfold Spec.select_documentation.
  rewrite blank_or_empty, test_blank_join, Z.gtb_ltb. f_equal.
  destruct (decl_jsDocs d); reflexivity.
Qed.

Lemma document_run (d : declaration) (w : world) :
  document openai config d w
  = if Spec.select_documentation (minLength config) d then
      let req := completion_request config (decl_text d) in
      match answer_of (openai (sent w) req) with
      | Some (c :: text) =>
          (Ok tt, editing (splice d (nl ++ template_string (extractComment (c :: text))))
                    (sending req w))
      | Some [] | None => (Ok tt, sending req w)
      end
    else (Ok tt, w).
Proof.
  rewrite <- guard_select. unfold document.
  destruct (negb _ || _); simpl; [|reflexivity].
  destruct (_ >? _); [|reflexivity].
  unfold bind. rewrite createDoc_run.
  destruct (answer_of _) as [[|c text]|]; try reflexivity.
  apply updateDoc_run.
Qed.

Lemma sent_grows (w : world) (req : request) : sent w ++ [req] <> sent w.
Proof.
  intros H. apply (f_equal (@length _)) in H. rewrite length_app in H.
  simpl in H. lia.
Qed.

End DocumenterFacts.

(** C1 (as stated): the text spliced for the Hello/World comment is not
    a newline, Hello, a newline, World. *)
Lemma hello_world_not_as_stated :
  edits (snd (TsDocumenter.updateDoc bar_method hello_world_doc empty_world))
  <> [AddJsDoc bar_method (cat [nl; lit "Hello"; nl; lit "World"])].
Proof. vm_compute. discriminate. Qed.

(** C1 (amended): for the generated text made of the lines [/**],
    [ * Hello], [ * World] and [ */], the text between the first [/**] and
    the next [*/] is split into lines, each line is trimmed and loses its
    leading asterisk and space, the lines are joined with newlines and one
    newline is put in front: the empty first line and the blank last line
    stay as empty lines, so the spliced text is two newlines, Hello, a
    newline, World and a newline. *)
Theorem hello_world_splice (method : declaration) (w : world) :
  indexOf hello_world_doc (lit "/**") 0 = 0
  /\ indexOf hello_world_doc (lit "*/") 0 = 23
  /\ substring hello_world_doc (0 + 3) 23
     = cat [nl; lit " * Hello"; nl; lit " * World"; nl; lit " "]
  /\ split LF (substring hello_world_doc (0 + 3) 23)
     = [[]; lit " * Hello"; lit " * World"; lit " "]
  /\ map (fun line => strip_leading_star (trim line))
       (split LF (substring hello_world_doc (0 + 3) 23))
     = [[]; lit "Hello"; lit "World"; []]
  /\ TsDocumenter.extractComment hello_world_doc
     = Some (cat [nl; lit "Hello"; nl; lit "World"; nl])
  /\ TsDocumenter.updateDoc method hello_world_doc w
     = (Ok tt, editing (TsDocumenter.splice method
                          (cat [nl; nl; lit "Hello"; nl; lit "World"; nl])) w).
Proof.
  repeat (split; [vm_compute; reflexivity|]).
  rewrite updateDoc_run. reflexivity.
Qed.

(** C2 (what the code does): when the generated text has no [/**], or no
    [*/] after it, the extraction is null and [updateDoc] still splices:
    the comment is a newline followed by the text null. *)
Theorem updateDoc_without_comment (method : declaration) (documentation : jsstring) (w : world) :
  indexOf documentation (lit "/**") 0 = -1
  \/ indexOf documentation (lit "*/") (indexOf documentation (lit "/**") 0) = -1 ->
  TsDocumenter.updateDoc method documentation w
  = (Ok tt, editing (TsDocumenter.splice method (cat [nl; lit "null"])) w).
Proof.
  intros H. apply extractComment_None in H.
  rewrite updateDoc_run, H. reflexivity.
Qed.

Lemma updateDoc_without_comment_witness :
  indexOf (lit "Computes bar.") (lit "/**") 0 = -1
  /\ edits (snd (TsDocumenter.updateDoc bar_method (lit "Computes bar.") empty_world))
     = [AddJsDoc bar_method (cat [nl; lit "null"])].
Proof.
  split; [reflexivity|].
  rewrite (updateDoc_without_comment bar_method (lit "Computes bar.") empty_world
             (or_introl eq_refl)).
  reflexivity.
Defined.

(** The same through the loop body: a completion without comment markers
    for an undocumented method makes the program add the comment text
    null. *)
Lemma document_without_comment :
  edits (snd (TsDocumenter.document
                (always (Resolves (chat_response (VStr (lit "Computes bar.")))))
                doc_config bar_method empty_world))
  = [AddJsDoc bar_method (cat [nl; lit "null"])].
Proof. rewrite document_run. vm_compute. reflexivity. Qed.

(** C10: in the generated text [/**/] the search for [*/] from the
    position of [/**] finds the one that overlaps it, at position 2; the
    bounds 3 and 2 of the substring are swapped and give an asterisk, which
    is stripped: the extraction is the empty string, not null, and
    [updateDoc] splices a comment that is a single newline. *)
Theorem overlapping_markers_splice (method : declaration) (w : world) :
  indexOf (lit "/**/") (lit "/**") 0 = 0
  /\ indexOf (lit "/**/") (lit "*/") 0 = 2
  /\ substring (lit "/**/") (0 + 3) 2 = lit "*"
  /\ TsDocumenter.extractComment (lit "/**/") = Some []
  /\ TsDocumenter.updateDoc method (lit "/**/") w
     = (Ok tt, editing (TsDocumenter.splice method nl) w).
Proof.
  repeat (split; [vm_compute; reflexivity|]).
  rewrite updateDoc_run. reflexivity.
Qed.

(** C3: in documentation mode a completion request is issued for a
    declaration exactly when it has no documentation comment, or the
    concatenation of its documentation comments' texts is empty or only
    white space, and its text is longer than the configured minimum;
    otherwise the loop body does nothing.  In particular nothing is done
    for a declaration with a documentation comment that is not blank, nor
    for one whose text is at most the minimum long. *)
Theorem documentation_selection
    (openai : list request -> request -> api_outcome)
    (config : TsDocumenter.Config) (d : declaration) (w : world) :
  let run := TsDocumenter.document openai config d w in
  let req := TsDocumenter.completion_request config (decl_text d) in
  let chosen :=
    (decl_jsDocs d = [] \/ concat (decl_jsDocs d) = []
     \/ Forall (fun c => is_white_space c = true) (concat (decl_jsDocs d)))
    /\ TsDocumenter.minLength config < Z.of_nat (length (decl_text d)) in
  (Spec.select_documentation (TsDocumenter.minLength config) d = true <-> chosen)
  /\ (sent (snd run) = sent w ++ [req] <-> chosen)
  /\ (~ chosen -> run = (Ok tt, w))
  /\ ((exists doc, In doc (decl_jsDocs d) /\ test_blank doc = false) ->
      Spec.select_documentation (TsDocumenter.minLength config) d = false
      /\ run = (Ok tt, w))
  /\ (Z.of_nat (length (decl_text d)) <= TsDocumenter.minLength config ->
      Spec.select_documentation (TsDocumenter.minLength config) d = false
      /\ run = (Ok tt, w)).
Proof.
  intros run req chosen.
  assert (Hsel : Spec.select_documentation (TsDocumenter.minLength config) d = true
                 <-> chosen).
  { unfold chosen, Spec.select_documentation.
    rewrite andb_true_iff, orb_true_iff, Z.ltb_lt, bool_decide_eq_true,
      test_blank_Forall.
    split; intros [Hdocs Hlen]; (split; [|exact Hlen]).
    - destruct Hdocs as [H|H]; [now left | now right; right].
    - destruct Hdocs as [H|[H|H]]; [now left | right; rewrite H; constructor | now right]. }
  assert (Hrun : run = if Spec.select_documentation (TsDocumenter.minLength config) d
                       then run else (Ok tt, w)).
  { unfold run. rewrite document_run.
    now destruct (Spec.select_documentation _ d). }
  assert (Hsent : Spec.select_documentation (TsDocumenter.minLength config) d = true ->
                  sent (snd run) = sent w ++ [req]).
  { intros H. unfold run, req. rewrite document_run, H. cbv zeta.
    now destruct (answer_of (openai _ _)) as [[|c text]|]. }
  assert (Hskip : Spec.select_documentation (TsDocumenter.minLength config) d = false ->
                  run = (Ok tt, w)).
  { intros H. now rewrite Hrun, H. }
  split; [exact Hsel|]. split; [|split; [|split]].
  - split.
    + intros Hs. apply Hsel.
      destruct (Spec.select_documentation _ d) eqn:E; [reflexivity|].
      rewrite (Hskip eq_refl) in Hs. simpl in Hs.
      symmetry in Hs. now apply sent_grows in Hs.
    + intros H. now apply Hsent, Hsel.
  - intros H. apply Hskip.
    destruct (Spec.select_documentation _ d) eqn:E; [|reflexivity].
    exfalso. now apply H, Hsel.
  - intros (doc & Hin & Hdoc).
    assert (E : Spec.select_documentation (TsDocumenter.minLength config) d = false).
    { unfold Spec.select_documentation.
      rewrite (test_blank_concat_false _ _ Hin Hdoc).
      destruct (decl_jsDocs d); [destruct Hin | reflexivity]. }
    split; [exact E | now apply Hskip].
  - intros Hlen.
    assert (E : Spec.select_documentation (TsDocumenter.minLength config) d = false).
    { unfold Spec.select_documentation.
      destruct (Z.ltb_spec (TsDocumenter.minLength config)
                  (Z.of_nat (length (decl_text d)))); [lia|].
      apply andb_false_r. }
    split; [exact E | now apply Hskip].
Qed.

Lemma documentation_selection_witness :
  TsDocumenter.document (always Rejects) doc_config documented_method empty_world
  = (Ok tt, empty_world)
  /\ TsDocumenter.document (always Rejects) doc_config tiny_method empty_world
     = (Ok tt, empty_world)
  /\ sent (snd (TsDocumenter.document (always Rejects) doc_config bar_method empty_world))
     = [TsDocumenter.completion_request doc_config (decl_text bar_method)].
Proof.
  split; [|split].
  - refine (proj2 (proj1 (proj2 (proj2 (proj2
              (documentation_selection (always Rejects) doc_config
                 documented_method empty_world)))) _)).
    exists (lit "/** Computes baz. */"). split; [now left | reflexivity].
  - refine (proj2 (proj2 (proj2 (proj2 (proj2
              (documentation_selection (always Rejects) doc_config
                 tiny_method empty_world)))) _)).
    discriminate.
  - refine (proj2 (proj1 (proj2
              (documentation_selection (always Rejects) doc_config
                 bar_method empty_world))) _).
    split; [now left | reflexivity].
Defined.

(** ** The completion call *)

Section TrimFacts.

Lemma trimStart_keeps (c : code_unit) (r : jsstring) :
  is_white_space c = false -> trimStart (c :: r) = c :: r.
Proof. intros H. simpl. now rewrite H. Qed.

Lemma trimStart_idem (s : jsstring) : trimStart (trimStart s) = trimStart s.
Proof.
  induction s as [|c r IH]; [reflexivity|].
  simpl. destruct (is_white_space c) eqn:E; [exact IH|].
  now apply trimStart_keeps.
Qed.

Lemma trimStart_snoc (l : jsstring) (c : code_unit) :
  is_white_space c = false -> trimStart (l ++ [c]) = trimStart l ++ [c].
Proof.
  intros H. induction l as [|x l IH]; simpl.
  - now rewrite H.
  - destruct (is_white_space x); [exact IH | reflexivity].
Qed.

Lemma trimEnd_cons (c : code_unit) (r : jsstring) :
  is_white_space c = false -> trimEnd (c :: r) = c :: trimEnd r.
Proof.
  intros H. unfold trimEnd. simpl.
  rewrite (trimStart_snoc _ _ H), rev_app_distr. reflexivity.
Qed.

Lemma trimEnd_idem (s : jsstring) : trimEnd (trimEnd s) = trimEnd s.
Proof. unfold trimEnd. now rewrite rev_involutive, trimStart_idem. Qed.

Lemma trimStart_head (s : jsstring) :
  trimStart s = [] \/ exists c r, trimStart s = c :: r /\ is_white_space c = false.
Proof.
  induction s as [|c r IH]; [now left|].
  simpl. destruct (is_white_space c) eqn:E; [exact IH|].
  right. now exists c, r.
Qed.

(** The result of [trim] has no white space at either end: trimming it
    again changes nothing. *)
Lemma trim_idem (s : jsstring) : trim (trim s) = trim s.
Proof.
  unfold trim.
  destruct (trimStart_head s) as [E|(c & r & E & Hc)]; rewrite E.
  - reflexivity.
  - rewrite (trimEnd_cons _ _ Hc), (trimStart_keeps _ _ Hc),
      <- (trimEnd_cons _ _ Hc).
    apply trimEnd_idem.
Qed.

Lemma trimStart_split (s : jsstring) :
  exists l, s = l ++ trimStart s /\ test_blank l = true.
Proof.
  induction s as [|c r (l & E & Hl)]; [now exists []|].
  simpl. destruct (is_white_space c) eqn:Hc.
  - exists (c :: l). split; [simpl; now f_equal|]. simpl. now rewrite Hc.
  - now exists [].
Qed.

Lemma test_blank_rev (s : jsstring) : test_blank (rev s) = test_blank s.
Proof.
  induction s as [|c r IH]; [reflexivity|].
  simpl. rewrite test_blank_app, IH. simpl. rewrite andb_true_r. apply andb_comm.
Qed.

Lemma trimEnd_split (s : jsstring) :
  exists r, s = trimEnd s ++ r /\ test_blank r = true.
Proof.
  destruct (trimStart_split (rev s)) as (l & E & Hl).
  exists (rev l). split; [|now rewrite test_blank_rev].
  unfold trimEnd. rewrite <- rev_app_distr, <- E. symmetry. apply rev_involutive.
Qed.

Lemma trimStart_blank (s : jsstring) : test_blank s = true -> trimStart s = [].
Proof.
  induction s as [|c r IH]; [reflexivity|].
  simpl. intros H. apply andb_true_iff in H as [Hc Hr]. rewrite Hc. now apply IH.
Qed.

Lemma trim_blank (s : jsstring) : test_blank s = true -> trim s = [].
Proof. intros H. unfold trim. now rewrite (trimStart_blank s H). Qed.

(** [trim] cuts white space off the two ends, and all of it. *)
Lemma trim_trimmed (content : jsstring) : Spec.trimmed_of content (trim content).
Proof.
  destruct (trimStart_split content) as (l & El & Hl).
  destruct (trimEnd_split (trimStart content)) as (r & Er & Hr).
  exists l, r. split; [unfold trim; now rewrite <- Er|].
  split; [exact Hl|]. split; [exact Hr|]. split.
  - intros c rest Hs. unfold trim in Hs.
    destruct (trimStart_head content) as [E|(c0 & r0 & E & Hc0)]; rewrite E in Hs.
    + discriminate.
    + rewrite (trimEnd_cons _ _ Hc0) in Hs. now injection Hs as <- _.
  - intros c rest Hs. unfold trim, trimEnd in Hs.
    apply (f_equal (@rev _)) in Hs.
    rewrite rev_involutive, rev_app_distr in Hs. simpl in Hs.
    destruct (trimStart_head (rev (trimStart content))) as [E|(c0 & r0 & E & Hc0)];
      rewrite E in Hs.
    + discriminate.
    + now injection Hs as -> _.
Qed.

End TrimFacts.

Section CompletionFacts.

Lemma read_completion_Ok (response : jsval) (s : jsstring) :
  read_completion response = Ok s ->
  exists message content,
    first_message response = Ok message
    /\ get_field message "content" = Ok (VStr content)
    /\ content <> [] /\ s = trim content.
Proof.
  unfold read_completion, rbind.
  destruct (first_message response) as [message|]; [|discriminate].
  destruct (get_field message "content") as [content|] eqn:Hget; [|discriminate].
  destruct (truthy message && truthy content) eqn:E; [|discriminate].
  apply andb_true_iff in E as [_ Hc].
  destruct content as [| | | |text| |]; try discriminate.
  intros [= <-]. exists message, text.
  split; [reflexivity|]. split; [exact Hget|]. split; [|reflexivity].
  now destruct text.
Qed.

Lemma read_completion_no_message (response : jsval) (message : jsval) :
  first_message response = Ok message ->
  message = VUndefined \/ message = VNull ->
  exists e, read_completion response = Throw e.
Proof.
  intros Hm [-> | ->]; unfold read_completion, rbind; rewrite Hm;
    now exists TypeError.
Qed.

Lemma read_completion_no_content (response : jsval) (message content : jsval) :
  first_message response = Ok message ->
  get_field message "content" = Ok content ->
  content = VUndefined \/ content = VNull ->
  exists e, read_completion response = Throw e.
Proof.
  intros Hm Hc Habs. unfold read_completion, rbind. rewrite Hm, Hc.
  exists (Error "Unexpected message format").
  destruct Habs as [-> | ->]; now rewrite andb_false_r.
Qed.

(** The shape of what a completion function returns. *)
Lemma answer_of_shape (outcome : api_outcome) :
  (answer_of outcome = None
   \/ exists response message content,
        outcome = Resolves response
        /\ first_message response = Ok message
        /\ get_field message "content" = Ok (VStr content)
        /\ content <> []
        /\ answer_of outcome = Some (trim content))
  /\ (forall s, answer_of outcome = Some s -> trim s = s)
  /\ (outcome = Rejects -> answer_of outcome = None)
  /\ (forall response message,
        outcome = Resolves response -> first_message response = Ok message ->
        message = VUndefined \/ message = VNull ->
        answer_of outcome = None)
  /\ (forall response message content,
        outcome = Resolves response -> first_message response = Ok message ->
        get_field message "content" = Ok content ->
        content = VUndefined \/ content = VNull ->
        answer_of outcome = None)
  /\ (forall response e,
        outcome = Resolves response -> first_message response = Throw e ->
        answer_of outcome = None).
Proof.
  split; [|split; [|split; [|split; [|split]]]].
  - destruct outcome as [|response]; [now left|]. simpl.
    destruct (read_completion response) as [s|] eqn:E; [|now left].
    right. apply read_completion_Ok in E as (message & content & Hm & Hc & Hne & ->).
    now exists response, message, content.
  - destruct outcome as [|response]; [discriminate|]. simpl.
    destruct (read_completion response) as [s'|] eqn:E; [|discriminate].
    intros s [= <-].
    apply read_completion_Ok in E as (message & content & _ & _ & _ & ->).
    apply trim_idem.
  - now intros ->.
  - intros response message -> Hm Habs. simpl.
    destruct (read_completion_no_message _ _ Hm Habs) as [e ->]. reflexivity.
  - intros response message content -> Hm Hc Habs. simpl.
    destruct (read_completion_no_content _ _ _ Hm Hc Habs) as [e ->]. reflexivity.
  - intros response e -> Hm. simpl. unfold read_completion, rbind.
    now rewrite Hm.
Qed.

(** A content that is a string and not empty is returned trimmed. *)
Lemma read_completion_content (response message : jsval) (content : jsstring) :
  first_message response = Ok message ->
  get_field message "content" = Ok (VStr content) ->
  content <> [] ->
  read_completion response = Ok (trim content).
Proof.
  intros Hm Hc Hne. unfold read_completion, rbind. rewrite Hm, Hc.
  assert (Hmsg : truthy message = true).
  { destruct message; try discriminate; reflexivity. }
  rewrite Hmsg. destruct content; [contradiction | reflexivity].
Qed.

Lemma answer_of_Some (outcome : api_outcome) (s : jsstring) :
  answer_of outcome = Some s
  <-> exists response message content,
        outcome = Resolves response
        /\ first_message response = Ok message
        /\ get_field message "content" = Ok (VStr content)
        /\ content <> []
        /\ s = trim content.
Proof.
  split.
  - destruct outcome as [|response]; [discriminate|]. simpl.
    destruct (read_completion response) as [s'|] eqn:E; [|discriminate].
    intros [= <-].
    apply read_completion_Ok in E as (message & content & Hm & Hc & Hne & ->).
    now exists response, message, content.
  - intros (response & message & content & -> & Hm & Hc & Hne & ->). simpl.
    now rewrite (read_completion_content response message content Hm Hc Hne).
Qed.

Lemma first_message_chat_response (content : jsval) :
  first_message (chat_response content) = Ok (VObj [("content"%string, content)]).
Proof. reflexivity. Qed.

Lemma answer_of_chat_response (content : jsstring) :
  answer_of (Resolves (chat_response (VStr content)))
  = if truthy_str content then Some (trim content) else None.
Proof.
  destruct content as [|c r]; [reflexivity|].
  unfold answer_of.
  now rewrite (read_completion_content _ _ (c :: r)
                 (first_message_chat_response (VStr (c :: r))) eq_refl).
Qed.

Variable openai : list request -> request -> api_outcome.

Lemma generateTestFileContent_run (config : UnitTestCreator.Config)
    (className : option jsstring) (funcName testFileName clasCode : jsstring)
    (retries : jsval) (w : world) :
  let req := UnitTestCreator.completion_request config className funcName
               testFileName clasCode in
  UnitTestCreator.generateTestFileContent openai config className funcName
    testFileName clasCode retries w
  = (Ok (answer_of (openai (sent w) req)), sending req w).
Proof.
  unfold UnitTestCreator.generateTestFileContent, try_catch, bind,
    createChatCompletion, lift, ret, answer_of.
  destruct (openai _ _) as [|response]; [reflexivity|].
  now destruct (read_completion response).
Qed.

Lemma generateTestFileContent_src_run (config : UnitTestCreator.Config)
    (funcName : jsval) (code : jsstring) (retries : jsval) (w : world) :
  let req := UnitTestCreatorSrc.completion_request config code in
  UnitTestCreatorSrc.generateTestFileContent openai config funcName code retries w
  = (Ok (answer_of (openai (sent w) req)), sending req w).
Proof.
  unfold UnitTestCreatorSrc.generateTestFileContent, try_catch, bind,
    createChatCompletion, lift, ret, answer_of.
  destruct (openai _ _) as [|response]; [reflexivity|].
  now destruct (read_completion response).
Qed.

End CompletionFacts.

(** C4 (as stated): a response whose content is two spaces makes
    [createDoc] return the empty string, which is neither null nor a
    non-empty string. *)
Lemma blank_completion_not_as_stated :
  fst (TsDocumenter.createDoc (always (Resolves (chat_response (VStr (lit "  ")))))
         doc_config (decl_text bar_method) VNull empty_world)
  = Ok (Some [])
  /\ ~ Spec.completion_result (Some []).
Proof.
  split; [vm_compute; reflexivity|].
  intros [H|(s & [= <-] & Hne & _)]; [discriminate | now apply Hne].
Qed.

(** C4 (amended): [createDoc] and [generateTestFileContent] never raise,
    whatever the endpoint does: they return null or a string.  The result
    is a string exactly when the response has a first choice whose message
    has a content that is a string and not empty, and it is then that
    content trimmed: the content without the white space at its two ends,
    which is the empty string when the content is only white space.  The
    result is null when the request is rejected, when the path to the first
    choice's message cannot be read, and when the message or its content
    is undefined or null. *)
Theorem completion_never_raises
    (openai : list request -> request -> api_outcome) (w : world) :
  (forall config codigo retries,
      let req := TsDocumenter.completion_request config codigo in
      TsDocumenter.createDoc openai config codigo retries w
      = (Ok (answer_of (openai (sent w) req)), sending req w))
  /\ (forall config className funcName testFileName clasCode retries,
        let req := UnitTestCreator.completion_request config className funcName
                     testFileName clasCode in
        UnitTestCreator.generateTestFileContent openai config className funcName
          testFileName clasCode retries w
        = (Ok (answer_of (openai (sent w) req)), sending req w))
  /\ (forall config funcName code retries,
        let req := UnitTestCreatorSrc.completion_request config code in
        UnitTestCreatorSrc.generateTestFileContent openai config funcName code retries w
        = (Ok (answer_of (openai (sent w) req)), sending req w))
  /\ (forall outcome,
        (answer_of outcome = None
         \/ exists response message content,
              outcome = Resolves response
              /\ first_message response = Ok message
              /\ get_field message "content" = Ok (VStr content)
              /\ content <> []
              /\ answer_of outcome = Some (trim content))
        /\ (forall s, answer_of outcome = Some s -> trim s = s)
        /\ (outcome = Rejects -> answer_of outcome = None)
        /\ (forall response message,
              outcome = Resolves response -> first_message response = Ok message ->
              message = VUndefined \/ message = VNull ->
              answer_of outcome = None)
        /\ (forall response message content,
              outcome = Resolves response -> first_message response = Ok message ->
              get_field message "content" = Ok content ->
              content = VUndefined \/ content = VNull ->
              answer_of outcome = None)
        /\ (forall response e,
              outcome = Resolves response -> first_message response = Throw e ->
              answer_of outcome = None))
  /\ (forall outcome s,
        answer_of outcome = Some s
        <-> exists response message content,
              outcome = Resolves response
              /\ first_message response = Ok message
              /\ get_field message "content" = Ok (VStr content)
              /\ content <> []
              /\ s = trim content)
  /\ (forall response message content,
        first_message response = Ok message ->
        get_field message "content" = Ok (VStr content) ->
        content <> [] ->
        answer_of (Resolves response) = Some (trim content)
        /\ Spec.trimmed_of content (trim content)
        /\ (test_blank content = true -> answer_of (Resolves response) = Some []))
  /\ (forall content,
        answer_of (Resolves (chat_response (VStr content)))
        = if truthy_str content then Some (trim content) else None).
Proof.
  split; [|split; [|split; [|split; [|split; [|split]]]]].
  - intros. apply createDoc_run.
  - intros. apply generateTestFileContent_run.
  - intros. apply generateTestFileContent_src_run.
  - apply answer_of_shape.
  - apply answer_of_Some.
  - intros response message content Hm Hc Hne.
    assert (Hanswer : answer_of (Resolves response) = Some (trim content)).
    { apply answer_of_Some. now exists response, message, content. }
    split; [exact Hanswer|]. split; [apply trim_trimmed|].
    intros Hblank. now rewrite Hanswer, (trim_blank content Hblank).
  - apply answer_of_chat_response.
Qed.

Lemma completion_never_raises_witness :
  answer_of (Resolves (chat_response VNull)) = None
  /\ answer_of (Resolves (chat_response (VStr (lit " ok ")))) = Some (lit "ok")
  /\ trim (lit "ok") = lit "ok"
  /\ Spec.trimmed_of (lit " ok ") (lit "ok")
  /\ answer_of (Resolves (chat_response (VStr (lit "  ")))) = Some [].
Proof.
  pose proof (completion_never_raises (always Rejects) empty_world)
    as (_ & _ & _ & H & _ & Hcontent & _).
  split; [|split; [|split; [|split]]].
  - destruct (H (Resolves (chat_response VNull))) as (_ & _ & _ & _ & Hc & _).
    apply (Hc (chat_response VNull) (VObj [("content"%string, VNull)]) VNull);
      [reflexivity | reflexivity | reflexivity | now right].
  - apply (Hcontent (chat_response (VStr (lit " ok ")))
             (VObj [("content"%string, VStr (lit " ok "))]) (lit " ok "));
      [reflexivity | reflexivity | discriminate].
  - destruct (H (Resolves (chat_response (VStr (lit " ok "))))) as (_ & Ht & _).
    apply Ht. reflexivity.
  - apply (Hcontent (chat_response (VStr (lit " ok ")))
             (VObj [("content"%string, VStr (lit " ok "))]) (lit " ok "));
      [reflexivity | reflexivity | discriminate].
  - apply (Hcontent (chat_response (VStr (lit "  ")))
             (VObj [("content"%string, VStr (lit "  "))]) (lit "  "));
      [reflexivity | reflexivity | discriminate | reflexivity].
Defined.

(** C7: the retries argument has no effect: whatever its value, each
    completion function sends exactly one request, the same one, and
    returns the same result. *)
Theorem retries_unused
    (openai : list request -> request -> api_outcome) (w : world)
    (retries1 retries2 : jsval) :
  (forall config codigo,
      TsDocumenter.createDoc openai config codigo retries1 w
      = TsDocumenter.createDoc openai config codigo retries2 w
      /\ sent (snd (TsDocumenter.createDoc openai config codigo retries1 w))
         = sent w ++ [TsDocumenter.completion_request config codigo])
  /\ (forall config className funcName testFileName clasCode,
        UnitTestCreator.generateTestFileContent openai config className funcName
          testFileName clasCode retries1 w
        = UnitTestCreator.generateTestFileContent openai config className funcName
            testFileName clasCode retries2 w
        /\ sent (snd (UnitTestCreator.generateTestFileContent openai config className
                        funcName testFileName clasCode retries1 w))
           = sent w ++ [UnitTestCreator.completion_request config className funcName
                          testFileName clasCode])
  /\ (forall config funcName code,
        UnitTestCreatorSrc.generateTestFileContent openai config funcName code retries1 w
        = UnitTestCreatorSrc.generateTestFileContent openai config funcName code retries2 w
        /\ sent (snd (UnitTestCreatorSrc.generateTestFileContent openai config funcName
                        code retries1 w))
           = sent w ++ [UnitTestCreatorSrc.completion_request config code]).
Proof.
  split; [|split]; intros.
  - now rewrite !createDoc_run.
  - now rewrite !generateTestFileContent_run.
  - now rewrite !generateTestFileContent_src_run.
Qed.

(** ** The unit test creator of [src/UnitTestCreator] *)

(** C9: in [src/UnitTestCreator/unitTestCreator.js] nothing binds the
    identifier [methodname], so for every class method with a non-empty
    name and a text longer than the minimum the loop body raises a
    [ReferenceError] when it evaluates the argument of the generation call:
    no request is sent and no file is written. *)
Theorem method_branch_raises
    (openai : list request -> request -> api_outcome) (legacy_coercion : bool)
    (config : UnitTestCreator.Config) (file : source_file) (method : declaration)
    (w : world) :
  decl_name method <> [] ->
  UnitTestCreator.minLength config < Z.of_nat (length (decl_text method)) ->
  UnitTestCreatorSrc.binding "methodname"
    (UnitTestCreatorSrc.method_scope (decl_name method) (decl_text method)) = None
  /\ UnitTestCreatorSrc.process_method openai legacy_coercion config file method w
     = (Throw (ReferenceError "methodname"), w).
Proof.
  intros Hname Hlen. split; [reflexivity|].
  unfold UnitTestCreatorSrc.process_method.
  destruct (decl_name method) as [|c name]; [contradiction|]. simpl truthy_str. cbv iota.
  destruct (Z.gtb_spec (Z.of_nat (length (decl_text method)))
              (UnitTestCreator.minLength config)) as [_|H]; [|lia].
  reflexivity.
Qed.

Lemma method_branch_raises_witness :
  UnitTestCreatorSrc.process_method (always Rejects) true test_config foo_ts bar_method
    (on_disk (proj_disk []))
  = (Throw (ReferenceError "methodname"), on_disk (proj_disk [])).
Proof.
  refine (proj2 (method_branch_raises (always Rejects) true test_config foo_ts
                   bar_method (on_disk (proj_disk [])) _ _)).
  - discriminate.
  - reflexivity.
Defined.

(** ** The unit test creator with the file-exists check *)

Section WorldRelations.

Lemma keeps_refl w : keeps w w.
Proof. intros p nd H. exact H. Qed.

Lemma keeps_trans w1 w2 w3 : keeps w1 w2 -> keeps w2 w3 -> keeps w1 w3.
Proof. intros H12 H23 p nd H. now apply H23, H12. Qed.

Lemma adds_dirs_refl w : adds_dirs w w.
Proof. intros p. now left. Qed.

Lemma adds_dirs_trans w1 w2 w3 : adds_dirs w1 w2 -> adds_dirs w2 w3 -> adds_dirs w1 w3.
Proof.
  intros H12 H23 p. destruct (H23 p) as [E|[E1 E2]], (H12 p) as [F|[F1 F2]].
  - left. congruence.
  - right. split; congruence.
  - right. split; congruence.
  - congruence.
Qed.

Lemma adds_dirs_keeps w w' : adds_dirs w w' -> keeps w w'.
Proof. intros H p nd Hp. destruct (H p) as [E|[E _]]; congruence. Qed.

Lemma same_log_refl w : same_log w w.
Proof. now repeat split. Qed.

Lemma same_log_trans w1 w2 w3 : same_log w1 w2 -> same_log w2 w3 -> same_log w1 w3.
Proof. intros (?&?&?) (?&?&?). repeat split; congruence. Qed.

Variable R : world -> world -> Prop.
Hypothesis R_refl : forall w, R w w.
Hypothesis R_trans : forall w1 w2 w3, R w1 w2 -> R w2 w3 -> R w1 w3.

Lemma bind_rel {A B} (m : M A) (k : A -> M B) (w : world) :
  R w (snd (m w)) -> (forall a w', R w' (snd (k a w'))) ->
  R w (snd (bind m k w)).
Proof.
  intros Hm Hk. unfold bind. destruct (m w) as [[a|e] w']; simpl in *.
  - eapply R_trans; [exact Hm | apply Hk].
  - exact Hm.
Qed.

Lemma for_of_rel {A} (body : A -> M unit) :
  (forall x w, R w (snd (body x w))) ->
  forall xs w, R w (snd (for_of xs body w)).
Proof.
  intros Hbody xs. induction xs as [|x rest IH]; intros w; simpl.
  - apply R_refl.
  - apply bind_rel; [apply Hbody | intros _ w'; apply IH].
Qed.

End WorldRelations.

(** A computation that leaves the world as it is. *)
Ltac unchanged := split; [apply adds_dirs_refl | apply same_log_refl].

Section FsFacts.

Lemma mkdirSync_adds (dir : jsstring) (w : world) :
  adds_dirs w (snd (mkdirSync dir w)) /\ same_log w (snd (mkdirSync dir w)).
Proof.
  unfold mkdirSync.
  destruct (disk w !! dir) as [nd|] eqn:E;
    [unchanged|].
  destruct (disk w !! Path.dirname dir) as [[content|]|];
    try unchanged.
  split; [|now repeat split].
  intros p. simpl. destruct (decide (dir = p)) as [<-|Hne].
  - right. split; [exact E | apply lookup_insert_eq].
  - left. now apply lookup_insert_ne.
Qed.

Lemma bind_existsSync {A} (p : jsstring) (k : bool -> M A) (w : world) :
  bind (existsSync p) k w = k (bool_decide (is_Some (disk w !! p))) w.
Proof. reflexivity. Qed.

Lemma ensureDirectoryExistence_adds (fuel : nat) (filePath : jsstring) (w : world) :
  adds_dirs w (snd (UnitTestCreator.ensureDirectoryExistence fuel filePath w))
  /\ same_log w (snd (UnitTestCreator.ensureDirectoryExistence fuel filePath w)).
Proof.
  revert filePath w. induction fuel as [|fuel IH]; intros filePath w.
  - unchanged.
  - change (UnitTestCreator.ensureDirectoryExistence (S fuel) filePath w)
      with (bind (existsSync (Path.dirname filePath))
              (fun found : bool =>
                 if found then ret tt
                 else bind (UnitTestCreator.ensureDirectoryExistence fuel
                              (Path.dirname (Path.dirname filePath)))
                        (fun _ => mkdirSync (Path.dirname filePath))) w).
    rewrite bind_existsSync.
    destruct (bool_decide _);
      [unchanged|].
    split.
    + apply (bind_rel adds_dirs adds_dirs_trans); [apply IH|].
      intros _ w'. apply mkdirSync_adds.
    + apply (bind_rel same_log same_log_trans); [apply IH|].
      intros _ w'. apply mkdirSync_adds.
Qed.

(** When the directory of the path is there, nothing is created. *)
Lemma ensureDirectoryExistence_present (fuel : nat) (filePath : jsstring) (w : world) :
  is_Some (disk w !! Path.dirname filePath) ->
  UnitTestCreator.ensureDirectoryExistence (S fuel) filePath w = (Ok tt, w).
Proof.
  intros H.
  change (UnitTestCreator.ensureDirectoryExistence (S fuel) filePath w)
    with (bind (existsSync (Path.dirname filePath))
            (fun found : bool =>
               if found then ret tt
               else bind (UnitTestCreator.ensureDirectoryExistence fuel
                            (Path.dirname (Path.dirname filePath)))
                      (fun _ => mkdirSync (Path.dirname filePath))) w).
  rewrite bind_existsSync.
  now rewrite (bool_decide_eq_true_2 _ H).
Qed.

Lemma writeFileSync_keeps (legacy_coercion : bool) (p : jsstring) (data : file_data)
    (w : world) :
  disk w !! p = None \/ disk w !! p = Some Dir ->
  keeps w (snd (writeFileSync legacy_coercion p data w))
  /\ same_log w (snd (writeFileSync legacy_coercion p data w)).
Proof.
  intros Hp.
  assert (Hsame : forall w0 : world, keeps w0 w0 /\ same_log w0 w0)
    by (intros w0; split; [apply keeps_refl | apply same_log_refl]).
  assert (Hwrite :
    keeps w (snd (match disk w !! p with
                  | Some Dir => (Throw (FsError "EISDIR"), w)
                  | _ => match disk w !! Path.dirname p with
                         | Some Dir => set_disk (<[p := File (coerced data)]> (disk w)) w
                         | Some (File _) => (Throw (FsError "ENOTDIR"), w)
                         | None => (Throw (FsError "ENOENT"), w)
                         end
                  end))
    /\ same_log w (snd (match disk w !! p with
                  | Some Dir => (Throw (FsError "EISDIR"), w)
                  | _ => match disk w !! Path.dirname p with
                         | Some Dir => set_disk (<[p := File (coerced data)]> (disk w)) w
                         | Some (File _) => (Throw (FsError "ENOTDIR"), w)
                         | None => (Throw (FsError "ENOENT"), w)
                         end
                  end))).
  { destruct Hp as [Hp|Hp]; rewrite Hp; [|apply Hsame].
    destruct (disk w !! Path.dirname p) as [[content|]|]; try apply Hsame.
    split; [|now repeat split].
    intros q nd Hq. simpl. rewrite lookup_insert_ne; [exact Hq|].
    intros <-. congruence. }
  unfold writeFileSync.
  destruct data, legacy_coercion; first [exact Hwrite | apply Hsame].
Qed.

End FsFacts.

Section UnitTestCreatorFacts.

Import UnitTestCreator.

Variable openai : list request -> request -> api_outcome.
Variable legacy_coercion : bool.
Variable config : Config.

Lemma createUnitTestFile_keeps (p : jsstring) (data : file_data) (w : world) :
  disk w !! p = None ->
  keeps w (snd (createUnitTestFile legacy_coercion p data w))
  /\ same_log w (snd (createUnitTestFile legacy_coercion p data w)).
Proof.
  intros Hp. unfold createUnitTestFile, bind.
  destruct (ensureDirectoryExistence_adds (call_stack p) p w) as [Hadd Hlog].
  destruct (ensureDirectoryExistence (call_stack p) p w) as [[[]|e] w1]; simpl in *.
  - assert (Hp1 : disk w1 !! p = None \/ disk w1 !! p = Some Dir).
    { destruct (Hadd p) as [E|[_ E]]; [left; congruence | now right]. }
    destruct (writeFileSync_keeps legacy_coercion p data w1 Hp1) as [Hk Hl].
    split.
    + eapply keeps_trans; [apply adds_dirs_keeps, Hadd | exact Hk].
    + eapply same_log_trans; [exact Hlog | exact Hl].
  - split; [apply adds_dirs_keeps, Hadd | exact Hlog].
Qed.

Lemma process_method_run (file : source_file) (classObj : class_decl)
    (method : declaration) (w : world) :
  let name := decl_name method in
  let req := completion_request config (class_name classObj) name
               (testFileName_of file name) (class_text classObj) in
  process_method openai legacy_coercion config file classObj method w
  = if truthy_str name
       && (Z.of_nat (length (decl_text method)) >? minLength config)
       && negb (bool_decide (is_Some (disk w !! testFilePath_of file name)))
    then createUnitTestFile legacy_coercion (testFilePath_of file name)
           (as_data (answer_of (openai (sent w) req))) (sending req w)
    else (Ok tt, w).
Proof.
  intros name req. unfold process_method. fold name.
  destruct (truthy_str name); [|reflexivity].
  destruct (_ >? _); [|reflexivity].
  unfold testFileExists. rewrite bind_existsSync.
  destruct (bool_decide _); [reflexivity|].
  simpl. unfold bind at 1. rewrite generateTestFileContent_run. reflexivity.
Qed.

Lemma guard_chosen (file : source_file) (method : declaration) (w : world) :
  truthy_str (decl_name method)
  && (Z.of_nat (length (decl_text method)) >? minLength config)
  && negb (bool_decide (is_Some (disk w !! testFilePath_of file (decl_name method))))
  = true
  <-> decl_name method <> []
      /\ minLength config < Z.of_nat (length (decl_text method))
      /\ disk w !! testFilePath_of file (decl_name method) = None.
Proof.
  rewrite !andb_true_iff, negb_true_iff, bool_decide_eq_false, Z.gtb_ltb, Z.ltb_lt.
  rewrite <- eq_None_not_Some.
  assert (truthy_str (decl_name method) = true <-> decl_name method <> [])
    by (destruct (decl_name method); simpl; split; congruence).
  tauto.
Qed.

Lemma process_method_keeps (file : source_file) (classObj : class_decl)
    (method : declaration) (w : world) :
  keeps w (snd (process_method openai legacy_coercion config file classObj method w)).
Proof.
  rewrite process_method_run. cbv zeta.
  destruct (_ && _ && _) eqn:G; [|apply keeps_refl].
  apply guard_chosen in G as (_ & _ & Hp).
  eapply (keeps_trans w (sending _ w)); [intros q nd Hq; exact Hq|].
  now apply createUnitTestFile_keeps.
Qed.

Lemma saveSync_keeps (w : world) : keeps w (snd (saveSync w)).
Proof. intros p nd H. exact H. Qed.

Lemma main_keeps (files : list source_file) (w : world) :
  keeps w (snd (main openai legacy_coercion config files w)).
Proof.
  unfold main. revert w.
  apply (for_of_rel keeps keeps_refl keeps_trans). intros file w.
  apply (bind_rel keeps keeps_trans); [|intros _ w'; apply saveSync_keeps].
  revert w. apply (for_of_rel keeps keeps_refl keeps_trans). intros classObj.
  apply (for_of_rel keeps keeps_refl keeps_trans). intros method w.
  apply process_method_keeps.
Qed.

End UnitTestCreatorFacts.

Section UnitTestCreatorSrcFacts.

Import UnitTestCreatorSrc.

Variable openai : list request -> request -> api_outcome.
Variable legacy_coercion : bool.
Variable config : UnitTestCreator.Config.

Lemma process_method_src_disk (file : source_file) (method : declaration) (w : world) :
  disk (snd (process_method openai legacy_coercion config file method w)) = disk w.
Proof.
  unfold process_method.
  destruct (truthy_str _); [|reflexivity].
  destruct (_ >? _); reflexivity.
Qed.

Lemma process_function_src_disk (file : source_file) (func : declaration) (w : world) :
  disk (snd (process_function openai legacy_coercion config file func w)) = disk w.
Proof.
  unfold process_function.
  destruct (truthy_str _); [|reflexivity].
  destruct (_ >? _); [|reflexivity].
  unfold bind, reference, not_awaited. simpl.
  now rewrite generateTestFileContent_src_run.
Qed.

Lemma main_src_disk (files : list source_file) (w : world) :
  disk (snd (main openai legacy_coercion config files w)) = disk w.
Proof.
  pose (R := fun w w' : world => disk w' = disk w).
  assert (Rrefl : forall w, R w w) by reflexivity.
  assert (Rtrans : forall w1 w2 w3, R w1 w2 -> R w2 w3 -> R w1 w3)
    by (unfold R; intros; congruence).
  unfold main. revert w. apply (for_of_rel R Rrefl Rtrans). intros file w.
  apply (bind_rel R Rtrans).
  - revert w. apply (for_of_rel R Rrefl Rtrans). intros classObj.
    apply (for_of_rel R Rrefl Rtrans). intros method w'.
    apply process_method_src_disk.
  - intros _ w'. apply (bind_rel R Rtrans); [|reflexivity].
    revert w'. apply (for_of_rel R Rrefl Rtrans). intros func w'.
    apply process_function_src_disk.
Qed.

End UnitTestCreatorSrcFacts.

(** C6: for a class method whose test file path is taken, the loop body
    sends no request and writes nothing; and whatever exists on disk
    before a run of the unit test creator is there, unchanged, after it, so
    a test file that exists is never overwritten by a later run.  (The
    program of [src/UnitTestCreator] never changes the disk at all.) *)
Theorem existing_test_file_kept
    (openai : list request -> request -> api_outcome) (legacy_coercion : bool)
    (config : UnitTestCreator.Config) :
  (forall file classObj method w,
      is_Some (disk w !! UnitTestCreator.testFilePath_of file (decl_name method)) ->
      UnitTestCreator.process_method openai legacy_coercion config file classObj method w
      = (Ok tt, w))
  /\ (forall files w p nd,
        disk w !! p = Some nd ->
        disk (snd (UnitTestCreator.main openai legacy_coercion config files w)) !! p
        = Some nd)
  /\ (forall files w,
        disk (snd (UnitTestCreatorSrc.main openai legacy_coercion config files w))
        = disk w).
Proof.
  split; [|split].
  - intros file classObj method w Hp. rewrite process_method_run. cbv zeta.
    rewrite (bool_decide_eq_true_2 _ Hp). simpl. now rewrite andb_false_r.
  - intros files w p nd Hp. now apply main_keeps.
  - intros files w. apply main_src_disk.
Qed.

Lemma existing_test_file_kept_witness :
  let w := on_disk (proj_disk [(lit "/proj/Foo.bar.spec.ts", File (lit "kept"))]) in
  let answer := always (Resolves (chat_response (VStr (lit "new tests")))) in
  UnitTestCreator.process_method answer true test_config foo_ts foo_class bar_method w
  = (Ok tt, w)
  /\ disk (snd (UnitTestCreator.main answer true test_config [foo_ts] w))
       !! lit "/proj/Foo.bar.spec.ts"
     = Some (File (lit "kept")).
Proof.
  intros w answer. split.
  - apply (proj1 (existing_test_file_kept answer true test_config)).
    exists (File (lit "kept")). vm_compute. reflexivity.
  - apply (proj1 (proj2 (existing_test_file_kept answer true test_config))).
    vm_compute. reflexivity.
Defined.

Section PathFacts.

Import Path.

Lemma take_while_stop (f : code_unit -> bool) (l r : jsstring) (c : code_unit) :
  Forall (fun x => f x = true) l -> f c = false ->
  take_while f (l ++ c :: r) = l.
Proof.
  intros Hl Hc. induction Hl as [|x l Hx _ IH]; simpl.
  - now rewrite Hc.
  - now rewrite Hx, IH.
Qed.

Lemma drop_while_stop (f : code_unit -> bool) (l r : jsstring) (c : code_unit) :
  Forall (fun x => f x = true) l -> f c = false ->
  drop_while f (l ++ c :: r) = c :: r.
Proof.
  intros Hl Hc. induction Hl as [|x l Hx _ IH]; simpl.
  - now rewrite Hc.
  - now rewrite Hx, IH.
Qed.

Lemma drop_while_none (f : code_unit -> bool) (c : code_unit) (r : jsstring) :
  f c = false -> drop_while f (c :: r) = c :: r.
Proof. intros Hc. simpl. now rewrite Hc. Qed.

Lemma starts_with_app (a b : jsstring) : starts_with a (a ++ b) = true.
Proof.
  induction a as [|c a IH]; [reflexivity|]. simpl.
  now rewrite N.eqb_refl, IH.
Qed.

Lemma no_slash_rev (s : jsstring) :
  no_slash s -> Forall (fun c => negb (is_slash c) = true) (rev s).
Proof.
  intros H. apply Forall_rev. eapply Forall_impl; [exact H|].
  intros c Hc. simpl in Hc. now rewrite Hc.
Qed.

(** A path made of a directory, a slash and a name without slashes. *)
Lemma rev_path (dir name : jsstring) :
  rev (dir ++ lit "/" ++ name) = rev name ++ 47%N :: rev dir.
Proof.
  rewrite !rev_app_distr. simpl. now rewrite <- app_assoc.
Qed.

Lemma rev_name_head (name : jsstring) :
  name <> [] -> no_slash name ->
  exists c r, rev name = c :: r /\ is_slash c = false.
Proof.
  intros Hne Hns. destruct (rev name) as [|c r] eqn:E.
  - apply (f_equal (@rev _)) in E. rewrite rev_involutive in E. contradiction.
  - exists c, r. split; [reflexivity|].
    apply no_slash_rev in Hns. rewrite E in Hns.
    inversion Hns as [|? ? Hc _]. now apply negb_true_iff in Hc.
Qed.

Lemma last_component_sibling (dir name : jsstring) :
  name <> [] -> no_slash name ->
  last_component (dir ++ lit "/" ++ name) = name.
Proof.
  intros Hne Hns. unfold last_component. rewrite rev_path.
  destruct (rev_name_head name Hne Hns) as (c & r & E & Hc).
  rewrite E, <- app_comm_cons, (drop_while_none _ _ _ Hc), app_comm_cons.
  rewrite <- E, take_while_stop; [apply rev_involutive | now apply no_slash_rev | reflexivity].
Qed.

Lemma dirname_sibling (dir name : jsstring) :
  dir <> [] -> dir <> lit "/" -> name <> [] -> no_slash name ->
  dirname (dir ++ lit "/" ++ name) = dir.
Proof.
  intros Hdir Hroot Hne Hns.
  destruct dir as [|d dt]; [contradiction|].
  change ((d :: dt) ++ lit "/" ++ name) with (d :: (dt ++ lit "/" ++ name)).
  unfold dirname. rewrite rev_path.
  destruct (rev_name_head name Hne Hns) as (c & r & E & Hc).
  rewrite E, <- app_comm_cons, (drop_while_none _ _ _ Hc), app_comm_cons.
  rewrite <- E, drop_while_stop; [| now apply no_slash_rev | reflexivity].
  rewrite length_cons, length_rev, <- (length_cons d dt).
  assert (Hif : is_slash d && (length (d :: dt) =? 1)%nat = false).
  { destruct dt as [|x dt]; [|simpl; apply andb_false_r].
    simpl. rewrite andb_true_r. unfold is_slash.
    destruct (N.eqb_spec d 47) as [->|]; [|reflexivity].
    now contradiction Hroot. }
  rewrite Hif, app_comm_cons.
  now rewrite take_app_length.
Qed.

Lemma take_while_Forall (f : code_unit -> bool) (s : jsstring) :
  Forall (fun c => f c = true) (take_while f s).
Proof.
  induction s as [|c r IH]; simpl; [constructor|].
  destruct (f c) eqn:E; [now constructor | constructor].
Qed.

Lemma last_component_no_slash (p : jsstring) : no_slash (last_component p).
Proof.
  unfold last_component, no_slash. apply Forall_rev.
  eapply Forall_impl; [apply take_while_Forall|].
  intros c Hc. simpl in Hc. now apply negb_true_iff in Hc.
Qed.

Lemma basename_no_slash (p ext : jsstring) : no_slash (basename p ext).
Proof.
  pose proof (last_component_no_slash p) as H. unfold basename.
  destruct (truthy_str ext && (length ext <=? length p)%nat); [|exact H].
  destruct (jseq ext p); [constructor|].
  destruct (ends_with (last_component p) ext && negb (jseq (last_component p) ext));
    [|exact H].
  unfold no_slash. now apply Forall_take.
Qed.

Lemma basename_ts (dir stem : jsstring) :
  stem <> [] -> no_slash stem ->
  basename (dir ++ lit "/" ++ stem ++ lit ".ts") (lit ".ts") = stem.
Proof.
  intros Hne Hns.
  assert (Hname : stem ++ lit ".ts" <> []) by (destruct stem; discriminate).
  assert (Hname' : no_slash (stem ++ lit ".ts")).
  { apply Forall_app. split; [exact Hns|]. repeat constructor. }
  unfold basename. rewrite (last_component_sibling dir _ Hname Hname').
  assert (Hlen : (length (lit ".ts") <=? length (dir ++ lit "/" ++ stem ++ lit ".ts"))%nat
                 = true).
  { apply Nat.leb_le. rewrite !length_app. simpl. lia. }
  rewrite Hlen. simpl andb. cbv iota.
  assert (Hneq : jseq (lit ".ts") (dir ++ lit "/" ++ stem ++ lit ".ts") = false).
  { apply bool_decide_eq_false. intros H.
    apply (f_equal (@length _)) in H. rewrite !length_app in H.
    destruct stem; [contradiction|]. simpl in H. lia. }
  rewrite Hneq.
  assert (Hends : ends_with (stem ++ lit ".ts") (lit ".ts") = true).
  { unfold ends_with. rewrite rev_app_distr. apply starts_with_app. }
  assert (Hneq' : jseq (stem ++ lit ".ts") (lit ".ts") = false).
  { apply bool_decide_eq_false. intros H.
    apply (f_equal (@length _)) in H. rewrite length_app in H.
    destruct stem; [contradiction|]. simpl in H. lia. }
  rewrite Hends, Hneq'. simpl andb. cbv iota.
  rewrite length_app. simpl length.
  replace (length stem + 3 - 3)%nat with (length stem) by lia.
  now rewrite take_app_length.
Qed.

Lemma split_not_nil (sep : code_unit) (s : jsstring) : split sep s <> [].
Proof.
  induction s as [|c r IH]; simpl; [discriminate|].
  destruct (c =? sep)%N; [discriminate|]. now destruct (split sep r).
Qed.

Lemma split_app_sep (sep : code_unit) (a b : jsstring) :
  split sep (a ++ sep :: b) = split sep a ++ split sep b.
Proof.
  induction a as [|c a IH]; simpl.
  - now rewrite N.eqb_refl.
  - rewrite IH. destruct (c =? sep)%N; [reflexivity|].
    pose proof (split_not_nil sep a) as Hne.
    now destruct (split sep a).
Qed.

Lemma split_no_slash (s : jsstring) : no_slash s -> split 47%N s = [s].
Proof.
  intros H. induction H as [|c r Hc _ IH]; [reflexivity|].
  unfold is_slash in Hc. simpl. now rewrite Hc, IH.
Qed.

(** A segment that is neither empty, ["."] nor [".."] is kept. *)
Lemma normalize_step_plain (allowAboveRoot : bool) (res : list jsstring) (t : jsstring) :
  t <> [] -> t <> lit "." -> t <> lit ".." ->
  normalize_step allowAboveRoot res t = t :: res.
Proof.
  intros H1 H2 H3. unfold normalize_step, jseq.
  now rewrite (bool_decide_eq_false_2 _ H1), (bool_decide_eq_false_2 _ H2),
    (bool_decide_eq_false_2 _ H3).
Qed.

Lemma join_snoc (sep : jsstring) (xs : list jsstring) (t : jsstring) :
  JsString.join sep (xs ++ [t])
  = match xs with
    | [] => t
    | _ :: _ => JsString.join sep xs ++ sep ++ t
    end.
Proof.
  induction xs as [|x xs IH]; [reflexivity|].
  destruct xs as [|y ys]; [reflexivity|].
  change (JsString.join sep ((x :: y :: ys) ++ [t]))
    with (x ++ sep ++ JsString.join sep ((y :: ys) ++ [t])).
  rewrite IH.
  change (JsString.join sep (x :: y :: ys))
    with (x ++ sep ++ JsString.join sep (y :: ys)).
  now rewrite <- !app_assoc.
Qed.

Lemma join_snoc_not_nil (sep : jsstring) (xs : list jsstring) (t : jsstring) :
  t <> [] -> JsString.join sep (xs ++ [t]) <> [].
Proof.
  intros Ht. rewrite join_snoc. destruct xs as [|x xs]; [exact Ht|].
  intros H. apply app_eq_nil in H as [_ H]. apply app_eq_nil in H as [_ H].
  contradiction.
Qed.

Lemma ends_with_slash_segment (a t : jsstring) :
  t <> [] -> no_slash t -> ends_with (a ++ t) (lit "/") = false.
Proof.
  intros Hne Hns. unfold ends_with. rewrite rev_app_distr.
  destruct (rev_name_head t Hne Hns) as (c & r & E & Hc). rewrite E.
  unfold is_slash in Hc. apply N.eqb_neq in Hc.
  change (rev (lit "/")) with [47%N]. cbn [app starts_with].
  destruct (N.eqb_spec 47 c) as [E'|]; [congruence | reflexivity].
Qed.

(** Joining a directory and one segment that normalization keeps: the
    segment follows what is left of the directory. *)
Lemma join_plain_segment (dir t : jsstring) :
  t <> [] -> no_slash t -> t <> lit "." -> t <> lit ".." ->
  join dir t
  = (if isAbsolute dir then lit "/" else [])
    ++ JsString.join (lit "/")
         (rev (fold_left (normalize_step (negb (isAbsolute dir))) (split 47%N dir) [])
          ++ [t]).
Proof.
  intros Hne Hns Hdot Hdots.
  assert (Hhead : isAbsolute t = false).
  { destruct t as [|c r]; [contradiction|].
    inversion Hns as [|? ? Hc _]. unfold is_slash in Hc.
    unfold isAbsolute. change (lit "/") with [47%N]. cbn [starts_with].
    rewrite N.eqb_sym, Hc. reflexivity. }
  destruct dir as [|d dt].
  - destruct t as [|c r]; [contradiction|].
    unfold join, normalize. rewrite Hhead.
    pose proof (ends_with_slash_segment [] (c :: r) Hne Hns) as Hend.
    cbn [app] in Hend. rewrite Hend.
    unfold normalizeString. rewrite (split_no_slash _ Hns).
    cbn [fold_left]. rewrite (normalize_step_plain _ _ _ Hne Hdot Hdots).
    change (isAbsolute []) with false. change (split 47%N []) with [[] : jsstring].
    cbn [fold_left rev app JsString.join negb].
    change (normalize_step true [] []) with ([] : list jsstring).
    cbn [rev app JsString.join]. now rewrite app_nil_r.
  - destruct t as [|c r]; [contradiction|].
    unfold join, normalize.
    change ((d :: dt) ++ lit "/" ++ c :: r) with (d :: (dt ++ lit "/" ++ c :: r)).
    assert (Habs : isAbsolute (d :: (dt ++ lit "/" ++ c :: r)) = isAbsolute (d :: dt))
      by reflexivity.
    rewrite Habs.
    pose proof (ends_with_slash_segment ((d :: dt) ++ lit "/") (c :: r) Hne Hns)
      as Hend.
    rewrite <- app_assoc in Hend.
    change ((d :: dt) ++ lit "/" ++ c :: r) with (d :: (dt ++ lit "/" ++ c :: r))
      in Hend.
    rewrite Hend.
    unfold normalizeString.
    change (d :: (dt ++ lit "/" ++ c :: r)) with ((d :: dt) ++ 47%N :: c :: r).
    rewrite split_app_sep, (split_no_slash _ Hns), fold_left_app.
    cbn [fold_left]. rewrite (normalize_step_plain _ _ _ Hne Hdot Hdots).
    cbn [rev].
    pose proof (join_snoc_not_nil (lit "/")
                  (rev (fold_left (normalize_step (negb (isAbsolute (d :: dt))))
                          (split 47%N (d :: dt)) []))
                  (c :: r) Hne) as Hp.
    destruct (JsString.join _ _) as [|x xs]; [contradiction|].
    now rewrite app_nil_r.
Qed.

(** An absolute, normalized directory without a slash at its end and one
    segment that normalization keeps. *)
Lemma join_sibling (dir t : jsstring) :
  isAbsolute dir = true -> normalize dir = dir -> ends_with dir (lit "/") = false ->
  t <> [] -> no_slash t -> t <> lit "." -> t <> lit ".." ->
  join dir t = dir ++ lit "/" ++ t.
Proof.
  intros Habs Hnorm Hend Hne Hns Hdot Hdots.
  rewrite (join_plain_segment dir t Hne Hns Hdot Hdots), Habs, join_snoc.
  destruct dir as [|d dt]; [discriminate|].
  unfold normalize in Hnorm. rewrite Habs, Hend in Hnorm.
  unfold normalizeString in Hnorm. simpl negb in *.
  destruct (rev (fold_left (normalize_step false) (split 47%N (d :: dt)) []))
    as [|x xs] eqn:E.
  - simpl in Hnorm. rewrite <- Hnorm in Hend. discriminate.
  - destruct (JsString.join (lit "/") (x :: xs)) as [|y ys] eqn:Ej.
    + rewrite <- Hnorm in Hend. discriminate.
    + rewrite app_nil_r in Hnorm. rewrite <- Hnorm.
      now rewrite <- (app_assoc (lit "/")).
Qed.

Lemma isAbsolute_cases (dir : jsstring) :
  isAbsolute dir = true -> dir <> [] /\ dir <> lit ".".
Proof.
  intros H. split; intros ->; discriminate.
Qed.

End PathFacts.

Lemma absolute_not_root (dir : jsstring) :
  Path.isAbsolute dir = true -> Path.ends_with dir (lit "/") = false ->
  dir <> [] /\ dir <> lit "/".
Proof.
  intros Habs Hend. split; intros ->; discriminate.
Qed.

Lemma test_file_segment (stem methodName : jsstring) :
  Path.no_slash stem -> Path.no_slash methodName ->
  let t := stem ++ lit "." ++ methodName ++ lit ".spec.ts" in
  t <> [] /\ Path.no_slash t /\ t <> lit "." /\ t <> lit "..".
Proof.
  intros Hs Hm t.
  assert (Hlen : (9 <= length t)%nat).
  { unfold t. rewrite !length_app. simpl. lia. }
  split; [intros E; rewrite E in Hlen; simpl in Hlen; lia|].
  split.
  - unfold t. apply Forall_app. split; [exact Hs|].
    apply Forall_app. split; [repeat constructor|].
    apply Forall_app. split; [exact Hm | repeat constructor].
  - split; intros E; rewrite E in Hlen; simpl in Hlen; lia.
Qed.

Lemma testFilePath_ts (file : source_file) (dir stem methodName : jsstring) :
  Path.isAbsolute dir = true -> Path.normalize dir = dir ->
  Path.ends_with dir (lit "/") = false ->
  stem <> [] -> Path.no_slash stem -> Path.no_slash methodName ->
  file_path file = dir ++ lit "/" ++ stem ++ lit ".ts" ->
  UnitTestCreator.testFileName_of file methodName
  = stem ++ lit "." ++ methodName ++ lit ".spec.ts"
  /\ UnitTestCreator.testFilePath_of file methodName
     = dir ++ lit "/" ++ stem ++ lit "." ++ methodName ++ lit ".spec.ts"
  /\ Path.dirname (UnitTestCreator.testFilePath_of file methodName)
     = Path.dirname (file_path file).
Proof.
  intros Habs Hnorm Hend Hne Hns Hm Hpath.
  destruct (absolute_not_root dir Habs Hend) as [Hdir Hroot].
  assert (Hname : stem ++ lit ".ts" <> []) by (destruct stem; discriminate).
  assert (Hname' : Path.no_slash (stem ++ lit ".ts")).
  { apply Forall_app. split; [exact Hns|]. repeat constructor. }
  destruct (test_file_segment stem methodName Hns Hm) as (Ht & Hts & Hdot & Hdots).
  unfold UnitTestCreator.testFilePath_of, UnitTestCreator.testFileName_of.
  rewrite Hpath, (basename_ts dir stem Hne Hns),
    (dirname_sibling dir _ Hdir Hroot Hname Hname').
  split; [reflexivity|].
  rewrite (join_sibling dir _ Habs Hnorm Hend Ht Hts Hdot Hdots).
  split; [reflexivity|].
  apply (dirname_sibling dir _ Hdir Hroot Ht Hts).
Qed.

(** A method name with a slash: [path.join] resolves the [..] in it, and
    the test file is not named after the source file. *)
Lemma testFilePath_resolved :
  UnitTestCreator.testFilePath_of foo_ts (lit "'x/../y'") = lit "/proj/y'.spec.ts".
Proof. vm_compute. reflexivity. Qed.

(** C5 (as stated): for the class method [bar] of [/proj/Foo.tsx], with
    [/proj/Foo.tsx.bar.spec.ts] on disk and nothing at
    [/proj/Foo.bar.spec.tsx] nor at [/proj/Foo.bar.spec.ts], the stated
    conditions hold and the method is not processed. *)
Lemma tsx_selection_not_as_stated :
  let w := on_disk (proj_disk [(lit "/proj/Foo.tsx.bar.spec.ts", File (lit "tests"))]) in
  let answer := always (Resolves (chat_response (VStr (lit "new tests")))) in
  Spec.testFilePath foo_tsx (lit "bar") = lit "/proj/Foo.bar.spec.tsx"
  /\ Spec.select_test (UnitTestCreator.minLength test_config) (disk w) foo_tsx bar_method
     = true
  /\ disk w !! lit "/proj/Foo.bar.spec.ts" = None
  /\ UnitTestCreator.process_method answer true test_config foo_tsx foo_class bar_method w
     = (Ok tt, w).
Proof.
  intros w answer.
  split; [vm_compute; reflexivity|].
  split; [vm_compute; reflexivity|].
  split; [vm_compute; reflexivity|].
  unfold w, answer. rewrite process_method_run. vm_compute. reflexivity.
Qed.

(** C5 (amended): in the unit test creator with the file-exists check a
    class method is processed (a completion request is sent for it and
    [createUnitTestFile] is called with the answer) exactly when its name
    is not empty, its text is longer than the configured minimum, and
    nothing exists at the test file path the program computes:
    [path.join] of the directory of the source file and of the base name of
    the source file without a final [.ts], a dot, the method name and
    [.spec.ts].  Otherwise the loop body does nothing.  For a source file
    [dir/stem.ts] in an absolute, normalized directory and a method name
    without a slash that path is [dir/stem.methodName.spec.ts], in the
    directory of the source file. *)
Theorem test_generation_selection
    (openai : list request -> request -> api_outcome) (legacy_coercion : bool)
    (config : UnitTestCreator.Config) (file : source_file) (classObj : class_decl)
    (method : declaration) (w : world) :
  let name := decl_name method in
  let testFileName :=
    Path.basename (file_path file) (lit ".ts") ++ lit "." ++ name ++ lit ".spec.ts" in
  let testFilePath := Path.join (Path.dirname (file_path file)) testFileName in
  let req := UnitTestCreator.completion_request config (class_name classObj) name
               testFileName (class_text classObj) in
  let run := UnitTestCreator.process_method openai legacy_coercion config file
               classObj method w in
  let chosen :=
    name <> []
    /\ UnitTestCreator.minLength config < Z.of_nat (length (decl_text method))
    /\ disk w !! testFilePath = None in
  (sent (snd run) = sent w ++ [req] <-> chosen)
  /\ (chosen ->
      run = UnitTestCreator.createUnitTestFile legacy_coercion testFilePath
              (UnitTestCreator.as_data (answer_of (openai (sent w) req)))
              (sending req w))
  /\ (~ chosen -> run = (Ok tt, w))
  /\ (forall dir stem,
        Path.isAbsolute dir = true -> Path.normalize dir = dir ->
        Path.ends_with dir (lit "/") = false ->
        stem <> [] -> Path.no_slash stem -> Path.no_slash name ->
        file_path file = dir ++ lit "/" ++ stem ++ lit ".ts" ->
        testFilePath = dir ++ lit "/" ++ stem ++ lit "." ++ name ++ lit ".spec.ts"
        /\ Path.dirname testFilePath = Path.dirname (file_path file)).
Proof.
  intros name testFileName testFilePath req run chosen.
  pose proof (process_method_run openai legacy_coercion config file classObj method w)
    as Hrun.
  pose proof (guard_chosen config file method w) as Hguard.
  cbv zeta in Hrun.
  change (UnitTestCreator.testFilePath_of file (decl_name method))
    with testFilePath in Hrun, Hguard.
  change (UnitTestCreator.testFileName_of file (decl_name method))
    with testFileName in Hrun.
  fold name req run in Hrun. fold name chosen in Hguard.
  assert (Hyes : chosen ->
            run = UnitTestCreator.createUnitTestFile legacy_coercion testFilePath
                    (UnitTestCreator.as_data (answer_of (openai (sent w) req)))
                    (sending req w)).
  { intros Hc. apply Hguard in Hc. now rewrite Hrun, Hc. }
  assert (Hno : ~ chosen -> run = (Ok tt, w)).
  { intros Hc. rewrite Hrun.
    destruct (_ && _ && _) eqn:G; [|reflexivity].
    exfalso. now apply Hc, Hguard. }
  split; [|split; [exact Hyes | split; [exact Hno|]]].
  - split.
    + intros Hs.
      destruct (truthy_str name
                && (Z.of_nat (length (decl_text method)) >? UnitTestCreator.minLength config)
                && negb (bool_decide (is_Some (disk w !! testFilePath)))) eqn:G.
      * now apply Hguard.
      * assert (Hc : ~ chosen) by (intros Hc; apply Hguard in Hc; congruence).
        rewrite (Hno Hc) in Hs. simpl in Hs. symmetry in Hs.
        now apply sent_grows in Hs.
    + intros Hc. rewrite (Hyes Hc).
      destruct Hc as (_ & _ & Hp).
      destruct (createUnitTestFile_keeps legacy_coercion testFilePath
                  (UnitTestCreator.as_data (answer_of (openai (sent w) req)))
                  (sending req w) Hp) as [_ (Hsent & _)].
      exact Hsent.
  - intros dir stem Habs Hnorm Hend Hne Hns Hm Hpath.
    apply (testFilePath_ts file dir stem name Habs Hnorm Hend Hne Hns Hm Hpath).
Qed.

Lemma test_generation_selection_witness :
  let answer := always (Resolves (chat_response (VStr (lit " test content ")))) in
  let w := on_disk (proj_disk []) in
  let testFilePath :=
    Path.join (Path.dirname (file_path foo_ts))
      (Path.basename (file_path foo_ts) (lit ".ts") ++ lit "." ++ lit "bar"
         ++ lit ".spec.ts") in
  disk (snd (UnitTestCreator.process_method answer true test_config foo_ts foo_class
               bar_method w)) !! lit "/proj/Foo.bar.spec.ts"
  = Some (File (lit "test content"))
  /\ testFilePath
     = lit "/proj" ++ lit "/" ++ lit "Foo" ++ lit "." ++ lit "bar" ++ lit ".spec.ts"
  /\ Path.dirname testFilePath = Path.dirname (file_path foo_ts).
Proof.
  intros answer w testFilePath.
  pose proof (test_generation_selection answer true test_config foo_ts foo_class
                bar_method w) as (_ & Hyes & _ & Hpath).
  split.
  - rewrite Hyes.
    + vm_compute. reflexivity.
    + split; [discriminate|]. split; [reflexivity | vm_compute; reflexivity].
  - apply (Hpath (lit "/proj") (lit "Foo")).
    + reflexivity.
    + vm_compute. reflexivity.
    + reflexivity.
    + discriminate.
    + repeat constructor.
    + repeat constructor.
    + reflexivity.
Defined.

(** ** The prompt *)

Section ReplaceFacts.

Lemma starts_with_true (pat s : jsstring) :
  starts_with pat s = true <-> exists r, s = pat ++ r.
Proof.
  revert s. induction pat as [|p pat IH]; intros s; simpl.
  - split; [intros _; now exists s | reflexivity].
  - destruct s as [|c s].
    + split; [discriminate | intros [r Hr]; discriminate].
    + rewrite andb_true_iff, N.eqb_eq, IH. split.
      * intros [-> [r ->]]. now exists r.
      * intros [r [= -> ->]]. split; [reflexivity | now exists r].
Qed.



Lemma cut_at_None (pat s : jsstring) :
  cut_at pat s = None -> forall a b, s <> a ++ pat ++ b.
Proof.
  induction s as [|c r IH]; simpl.
  - destruct (starts_with pat []) eqn:E; [discriminate|].
    intros _ a b Hs. destruct a; [|discriminate].
    assert (starts_with pat [] = true) by (apply starts_with_true; now exists b).
    congruence.
  - destruct (starts_with pat (c :: r)) eqn:E; [discriminate|].
    destruct (cut_at pat r) as [[a1 b1]|]; [discriminate|].
    intros _ a b Hs. destruct a as [|x a].
    + assert (starts_with pat (c :: r) = true)
        by (apply starts_with_true; now exists b).
      congruence.
    + injection Hs as -> Hr. now apply (IH eq_refl a b).
Qed.



End ReplaceFacts.

Section PromptFacts.


Lemma not_slash_cases (c : code_unit) (r : jsstring) (A : Type) (x y : A) :
  c <> 47%N ->
  match c, r with
  | 47%N, 47%N :: _ => x
  | _, _ => y
  end = y.
Proof.
  intros Hc. other_code_unit c Hc.
Qed.

Lemma not_slash_cases' (c : code_unit) (r : jsstring) (A : Type)
    (x : jsstring -> A) (y : A) :
  c <> 47%N ->
  match c, r with
  | 47%N, 42%N :: r' => x r'
  | _, _ => y
  end = y.
Proof.
  intros Hc. other_code_unit c Hc.
Qed.

Lemma remove_singleLineComment_no_slash (code : jsstring) :
  Forall (fun c => c <> 47%N) code ->
  UnitTestCreator.remove_singleLineComment false code = code.
Proof.
  intros H. induction H as [|c r Hc _ IH]; [reflexivity|].
  cbn [UnitTestCreator.remove_singleLineComment].
  rewrite (not_slash_cases c r _ _ _ Hc). now rewrite IH.
Qed.

Lemma remove_multiLineComment_no_slash (code : jsstring) :
  Forall (fun c => c <> 47%N) code ->
  UnitTestCreator.remove_multiLineComment 0 code = code.
Proof.
  intros H. induction H as [|c r Hc _ IH]; [reflexivity|].
  cbn [UnitTestCreator.remove_multiLineComment].
  rewrite (not_slash_cases' c r _ _ _ Hc). now rewrite IH.
Qed.

Lemma removeComments_no_slash (code : jsstring) :
  Forall (fun c => c <> 47%N) code -> UnitTestCreator.removeComments code = code.
Proof.
  intros H. unfold UnitTestCreator.removeComments.
  now rewrite (remove_singleLineComment_no_slash _ H),
    (remove_multiLineComment_no_slash _ H).
Qed.

(** Line comments end before the line terminator, block comments end at
    the first [*/]; a block comment that is not closed stays. *)
Lemma removeComments_example :
  UnitTestCreator.removeComments
    (cat [lit "a // x"; nl; lit "b /* y "; nl; lit " */ c /*/ d */ e /* f"])
  = cat [lit "a "; nl; lit "b  c  e /* f"].
Proof. vm_compute. reflexivity. Qed.

(** Only the first occurrence of a token is replaced. *)
Lemma replace_first_only :
  replace (lit "{className} and {className}") (lit "{className}") (lit "Foo")
  = lit "Foo and {className}".
Proof. vm_compute. reflexivity. Qed.

End PromptFacts.

Section RemoveCommentsFacts.

Import UnitTestCreator.

Lemma R_other (c : code_unit) (r : jsstring) :
  c <> 47%N -> remove_singleLineComment false (c :: r) = c :: remove_singleLineComment false r.
Proof.
  intros Hc. cbn [remove_singleLineComment]. now rewrite (not_slash_cases c r _ _ _ Hc).
Qed.

Lemma R_slash_other (c : code_unit) (r : jsstring) :
  c <> 47%N -> remove_singleLineComment false (47%N :: c :: r) = 47%N :: remove_singleLineComment false (c :: r).
Proof. intros Hc. other_code_unit c Hc. Qed.

Lemma B_other (c : code_unit) (r : jsstring) :
  c <> 47%N -> remove_multiLineComment 0 (c :: r) = c :: remove_multiLineComment 0 r.
Proof.
  intros Hc. cbn [remove_multiLineComment]. now rewrite (not_slash_cases' c r _ _ _ Hc).
Qed.

Lemma B_slash_other (c : code_unit) (r : jsstring) :
  c <> 42%N -> remove_multiLineComment 0 (47%N :: c :: r) = 47%N :: remove_multiLineComment 0 (c :: r).
Proof. intros Hc. other_code_unit c Hc. Qed.

Lemma B_open (r : jsstring) :
  remove_multiLineComment 0 (47%N :: 42%N :: r)
  = match close_offset r with
    | Some k => remove_multiLineComment (S k) (42%N :: r)
    | None => 47%N :: remove_multiLineComment 0 (42%N :: r)
    end.
Proof. reflexivity. Qed.

Lemma B_skip (k : nat) (s : jsstring) : remove_multiLineComment k s = remove_multiLineComment 0 (drop k s).
Proof.
  revert s. induction k as [|k IH]; intros s; [now rewrite drop_0|].
  destruct s as [|c r]; [reflexivity|]. apply IH.
Qed.

Lemma close_other (c : code_unit) (r : jsstring) :
  c <> 42%N -> close_offset (c :: r) = option_map S (close_offset r).
Proof. intros Hc. other_code_unit c Hc. Qed.

Lemma close_star_other (c : code_unit) (r : jsstring) :
  c <> 47%N -> close_offset (42%N :: c :: r) = option_map S (close_offset (c :: r)).
Proof. intros Hc. other_code_unit c Hc. Qed.

Lemma close_offset_tail (s : jsstring) :
  close_offset s = None -> close_offset (tail s) = None.
Proof.
  destruct s as [|c r]; [reflexivity|]. simpl tail.
  destruct (N.eq_dec c 42%N) as [->|Hc].
  - destruct r as [|c' r']; [reflexivity|].
    destruct (N.eq_dec c' 47%N) as [->|Hc']; [discriminate|].
    rewrite (close_star_other _ _ Hc'). now destruct (close_offset (c' :: r')).
  - rewrite (close_other _ _ Hc). now destruct (close_offset r).
Qed.

Lemma no_close_no_block (s : jsstring) :
  close_offset s = None -> has_block_comment s = false.
Proof.
  induction s as [|c r IH]; [reflexivity|]. intros H.
  apply close_offset_tail in H. simpl in H. simpl.
  rewrite (IH H), orb_false_r.
  apply close_offset_tail in H.
  rewrite (bool_decide_eq_false_2 (is_Some (close_offset (tail r))))
    by (rewrite H; apply is_Some_None).
  apply andb_false_r.
Qed.

Lemma no_line_comment_fixed (s : jsstring) :
  has_line_comment s = false -> remove_singleLineComment false s = s.
Proof.
  induction s as [|c r IH]; [reflexivity|].
  intros H. cbn [has_line_comment] in H. apply orb_false_iff in H as [Hhere Hrest].
  destruct (N.eq_dec c 47%N) as [->|Hc].
  - destruct r as [|c' r']; [reflexivity|]. simpl in Hhere.
    destruct (N.eqb_spec c' 47%N) as [|Hc']; [discriminate|].
    now rewrite (R_slash_other _ _ Hc'), (IH Hrest).
  - now rewrite (R_other _ _ Hc), (IH Hrest).
Qed.

Lemma no_block_comment_fixed (s : jsstring) :
  has_block_comment s = false -> remove_multiLineComment 0 s = s.
Proof.
  induction s as [|c r IH]; [reflexivity|].
  intros H. cbn [has_block_comment] in H. apply orb_false_iff in H as [Hhere Hrest].
  destruct (N.eq_dec c 47%N) as [->|Hc].
  - destruct r as [|c' r']; [reflexivity|]. simpl in Hhere.
    destruct (N.eqb_spec c' 42%N) as [->|Hc'].
    + rewrite B_open. simpl in Hhere.
      apply bool_decide_eq_false in Hhere.
      destruct (close_offset r') as [k|]; [exfalso; apply Hhere; eauto|].
      f_equal. exact (IH Hrest).
    + now rewrite (B_slash_other _ _ Hc'), (IH Hrest).
  - now rewrite (B_other _ _ Hc), (IH Hrest).
Qed.

Lemma line_terminator_not_slash (c : code_unit) :
  is_line_terminator c = true -> (c =? 47)%N = false.
Proof.
  unfold is_line_terminator. rewrite !orb_true_iff, !N.eqb_eq.
  intros [[[->| ->]| ->]| ->]; reflexivity.
Qed.

(** After the first replacement no two slashes are adjacent. *)
Lemma R_no_line_comment (s : jsstring) :
  forall b,
    has_line_comment (remove_singleLineComment b s) = false
    /\ (b = true -> head_is 47%N (remove_singleLineComment b s) = false)
    /\ (b = false -> head_is 47%N s = false ->
        head_is 47%N (remove_singleLineComment b s) = false).
Proof.
  induction s as [|c r IH]; intros b.
  - destruct b; repeat split; reflexivity.
  - destruct b.
    + cbn [remove_singleLineComment].
      destruct (is_line_terminator c) eqn:Ht.
      * destruct (IH false) as (Hn & _ & _).
        cbn [has_line_comment head_is].
        rewrite (line_terminator_not_slash c Ht), Hn.
        split; [reflexivity|]. split; [reflexivity | discriminate].
      * destruct (IH true) as (Hn & Hh & _).
        split; [exact Hn|]. split; [intros _; now apply Hh | discriminate].
    + destruct (N.eq_dec c 47%N) as [->|Hc].
      * destruct r as [|c' r'].
        { split; [reflexivity|]. split; discriminate. }
        destruct (N.eq_dec c' 47%N) as [->|Hc'].
        { change (remove_singleLineComment false (47%N :: 47%N :: r'))
            with (remove_singleLineComment true (47%N :: r')).
          destruct (IH true) as (Hn & _ & _).
          split; [exact Hn|]. split; discriminate. }
        rewrite (R_slash_other _ _ Hc').
        destruct (IH false) as (Hn & _ & Hh).
        assert (Hc'' : head_is 47%N (c' :: r') = false) by now apply N.eqb_neq.
        specialize (Hh eq_refl Hc'').
        cbn [has_line_comment head_is]. rewrite Hh, Hn.
        split; [reflexivity|]. split; discriminate.
      * rewrite (R_other _ _ Hc).
        destruct (IH false) as (Hn & _ & _).
        assert (Hc' : (c =? 47)%N = false) by now apply N.eqb_neq.
        cbn [has_line_comment head_is]. rewrite Hc', Hn.
        split; [reflexivity|]. split; [discriminate | reflexivity].
Qed.

Lemma has_line_comment_drop (k : nat) (s : jsstring) :
  has_line_comment s = false -> has_line_comment (drop k s) = false.
Proof.
  revert s. induction k as [|k IH]; intros s H; [now rewrite drop_0|].
  destruct s as [|c r]; [reflexivity|].
  simpl in H. apply orb_false_iff in H as [_ H]. now apply IH.
Qed.

Lemma B_head (s : jsstring) :
  head_is 47%N s = false -> head_is 47%N (remove_multiLineComment 0 s) = false.
Proof.
  destruct s as [|c r]; [reflexivity|]. intros Hc. cbn [head_is] in Hc.
  apply N.eqb_neq in Hc as Hc'. rewrite (B_other _ _ Hc'). exact Hc.
Qed.

(** After the second replacement of a text without adjacent slashes no
    closed block comment is left and no slashes became adjacent. *)
Lemma B_no_comment (n : nat) :
  forall s, (length s <= n)%nat -> has_line_comment s = false ->
            has_line_comment (remove_multiLineComment 0 s) = false
            /\ has_block_comment (remove_multiLineComment 0 s) = false.
Proof.
  induction n as [|n IH]; intros s Hlen Hs.
  - destruct s; [now split | simpl in Hlen; lia].
  - destruct s as [|c r]; [now split|].
    simpl in Hlen. cbn [has_line_comment] in Hs.
    apply orb_false_iff in Hs as [Hhere Hrest].
    destruct (IH r ltac:(lia) Hrest) as [IHl IHb].
    destruct (N.eq_dec c 47%N) as [->|Hc].
    + destruct r as [|c' r']; [now split|].
      cbn [head_is] in Hhere. rewrite N.eqb_refl in Hhere. simpl andb in Hhere.
      apply N.eqb_neq in Hhere as Hc'.
      destruct (N.eq_dec c' 42%N) as [->|Hstar].
      * rewrite B_open. destruct (close_offset r') as [k|] eqn:Hclose.
        -- rewrite B_skip. apply IH.
           ++ rewrite length_drop. simpl in *. lia.
           ++ now apply has_line_comment_drop.
        -- assert (Hfix : remove_multiLineComment 0 r' = r').
           { now apply no_block_comment_fixed, no_close_no_block. }
           change (has_line_comment (42%N :: remove_multiLineComment 0 r') = false)
             in IHl.
           change (has_block_comment (42%N :: remove_multiLineComment 0 r') = false)
             in IHb.
           rewrite Hfix in IHl, IHb.
           split.
           ++ change (has_line_comment (47%N :: 42%N :: remove_multiLineComment 0 r')
                      = false).
              rewrite Hfix. exact IHl.
           ++ change (has_block_comment (47%N :: 42%N :: remove_multiLineComment 0 r')
                      = false).
              rewrite Hfix. cbn [has_block_comment head_is tail].
              cbn [has_block_comment] in IHb. rewrite IHb, orb_false_r.
              rewrite (bool_decide_eq_false_2 (is_Some (close_offset r')))
                by (rewrite Hclose; apply is_Some_None).
              reflexivity.
      * rewrite (B_slash_other _ _ Hstar).
        assert (Hhead : head_is 47%N (remove_multiLineComment 0 (c' :: r')) = false)
          by (apply B_head; exact Hhere).
        rewrite (B_other _ _ Hc') in IHl, IHb, Hhead |- *.
        assert (Hs' : (c' =? 42)%N = false) by now apply N.eqb_neq.
        split.
        -- cbn [has_line_comment]. rewrite Hhead. exact IHl.
        -- cbn [has_block_comment]. cbn [head_is]. rewrite Hs'. exact IHb.
    + rewrite (B_other _ _ Hc).
      assert (Hc' : (c =? 47)%N = false) by now apply N.eqb_neq.
      split.
      * cbn [has_line_comment]. rewrite Hc'. exact IHl.
      * cbn [has_block_comment]. rewrite Hc'. exact IHb.
Qed.











End RemoveCommentsFacts.




(** * Further properties of the programs *)

(** ** Whole runs of the documentation generator *)

Section DocumenterRuns.

Import TsDocumenter.

Variable openai : list request -> request -> api_outcome.
Variable config : Config.

Lemma emits_ret : emits (ret tt) [] 0.
Proof. intros w. simpl. now rewrite app_nil_r, Nat.add_0_r. Qed.

Lemma emits_bind (m : M unit) (k : unit -> M unit) rs1 rs2 k1 k2 :
  emits m rs1 k1 -> (forall u, emits (k u) rs2 k2) ->
  emits (bind m k) (rs1 ++ rs2) (k1 + k2).
Proof.
  intros Hm Hk w. unfold bind.
  destruct (Hm w) as (Hok & Hsent & Hsaves).
  destruct (m w) as [[[]|e] w1]; simpl in *; [|discriminate].
  destruct (Hk tt w1) as (Hok2 & Hsent2 & Hsaves2).
  rewrite Hok2, Hsent2, Hsaves2, Hsent, Hsaves.
  split; [reflexivity|]. split; [now rewrite app_assoc | lia].
Qed.

Lemma emits_for_of {A} (body : A -> M unit) (f : A -> list request) (g : A -> nat) :
  (forall x, emits (body x) (f x) (g x)) ->
  forall xs, emits (for_of xs body) (concat (map f xs)) (list_sum (map g xs)).
Proof.
  intros Hbody xs. induction xs as [|x rest IH]; simpl.
  - apply emits_ret.
  - apply emits_bind; [apply Hbody | intros _; exact IH].
Qed.

Lemma emits_saveSync : emits saveSync [] 1.
Proof.
  intros w. simpl. rewrite app_nil_r.
  split; [reflexivity|]. split; [reflexivity | lia].
Qed.

Lemma documentation_requests_app (ds1 ds2 : list declaration) :
  documentation_requests config (ds1 ++ ds2)
  = documentation_requests config ds1 ++ documentation_requests config ds2.
Proof. unfold documentation_requests. now rewrite List.filter_app, List.map_app. Qed.

Lemma documentation_requests_concat (dss : list (list declaration)) :
  documentation_requests config (concat dss)
  = concat (map (documentation_requests config) dss).
Proof.
  induction dss as [|ds rest IH]; [reflexivity|].
  simpl. now rewrite documentation_requests_app, IH.
Qed.

Lemma emits_document (d : declaration) :
  emits (document openai config d) (documentation_requests config [d]) 0.
Proof.
  intros w. rewrite document_run. unfold documentation_requests. simpl.
  destruct (Spec.select_documentation (minLength config) d); simpl.
  - destruct (answer_of _) as [[|c text]|]; simpl;
      (split; [reflexivity|]; split; [reflexivity | lia]).
  - rewrite app_nil_r. split; [reflexivity|]. split; [reflexivity | lia].
Qed.

Lemma emits_documents (ds : list declaration) :
  emits (for_of ds (document openai config)) (documentation_requests config ds) 0.
Proof.
  induction ds as [|d rest IH]; [apply emits_ret|].
  change (d :: rest) with ([d] ++ rest) at 2.
  rewrite documentation_requests_app.
  apply (emits_bind _ _ _ _ 0 0); [apply emits_document | intros _; exact IH].
Qed.

Lemma emits_class (classObj : class_decl) :
  emits (bind (for_of (class_methods classObj) (document openai config))
           (fun _ => bind (for_of (class_properties classObj) (document openai config))
              (fun _ => for_of (class_constructors classObj) (document openai config))))
    (documentation_requests config (class_declarations classObj)) 0.
Proof.
  unfold class_declarations. rewrite !documentation_requests_app.
  apply (emits_bind _ _ _ _ 0 0); [apply emits_documents|]. intros _.
  apply (emits_bind _ _ _ _ 0 0); [apply emits_documents|]. intros _.
  apply emits_documents.
Qed.

Lemma list_sum_zero {A} (xs : list A) : list_sum (map (fun _ => 0%nat) xs) = 0%nat.
Proof. induction xs; simpl; auto. Qed.

Lemma list_sum_one {A} (xs : list A) : list_sum (map (fun _ => 1%nat) xs) = length xs.
Proof. induction xs; simpl; auto. Qed.

Lemma emits_file (file : source_file) :
  emits (bind (for_of (file_classes file) (fun classObj =>
                 bind (for_of (class_methods classObj) (document openai config))
                   (fun _ => bind (for_of (class_properties classObj)
                                     (document openai config))
                      (fun _ => for_of (class_constructors classObj)
                                  (document openai config)))))
           (fun _ => bind (for_of (file_enums file) (fun enumObj =>
                             for_of (enum_members enumObj) (document openai config)))
              (fun _ => saveSync)))
    (documentation_requests config (file_declarations file)) 1.
Proof.
  unfold file_declarations.
  rewrite documentation_requests_app, !documentation_requests_concat, !map_map.
  rewrite <- (app_nil_r (concat (map (fun x => documentation_requests config (enum_members x))
                                   (file_enums file)))).
  apply (emits_bind _ _ _ _ 0 1).
  - rewrite <- (list_sum_zero (file_classes file)).
    apply (emits_for_of _ (fun c => documentation_requests config (class_declarations c))).
    apply emits_class.
  - intros _. apply (emits_bind _ _ _ _ 0 1); [|intros _; apply emits_saveSync].
    rewrite <- (list_sum_zero (file_enums file)).
    apply (emits_for_of _ (fun e => documentation_requests config (enum_members e))).
    intros e. apply emits_documents.
Qed.

Lemma emits_main (files : list source_file) :
  emits (main openai config files)
    (documentation_requests config (declarations_of files)) (length files).
Proof.
  unfold declarations_of. rewrite documentation_requests_concat, map_map.
  rewrite <- (list_sum_one files).
  apply (emits_for_of _ (fun f => documentation_requests config (file_declarations f))).
  apply emits_file.
Qed.

End DocumenterRuns.

(** X1: a run of the documentation generator never raises, whatever the
    endpoint answers, and saves the project once per file. *)
Theorem documenter_main_returns
    (openai : list request -> request -> api_outcome) (config : TsDocumenter.Config)
    (files : list source_file) (w : world) :
  fst (TsDocumenter.main openai config files w) = Ok tt
  /\ saves (snd (TsDocumenter.main openai config files w))
     = (saves w + length files)%nat.
Proof.
  destruct (emits_main openai config files w) as (Hok & _ & Hsaves). now split.
Qed.

(** X2: a run of the documentation generator sends one request for each
    declaration it selects, in the order of the visit (per file: for each
    class its methods, properties and constructors, then the enum members),
    and no other: a declaration is asked about at most once, and a failed
    request is not repeated. *)
Theorem documenter_main_requests
    (openai : list request -> request -> api_outcome) (config : TsDocumenter.Config)
    (files : list source_file) (w : world) :
  sent (snd (TsDocumenter.main openai config files w))
  = sent w
    ++ map (fun d => TsDocumenter.completion_request config (decl_text d))
         (List.filter (Spec.select_documentation (TsDocumenter.minLength config))
            (declarations_of files)).
Proof.
  destruct (emits_main openai config files w) as (_ & Hsent & _). exact Hsent.
Qed.

(** X3: the loop body of the documentation generator edits a declaration
    at most once, and only with the answer to its own request: when the
    request fails or the answer is empty nothing is edited; otherwise the
    one edit adds a comment to a declaration without documentation
    comments and replaces the first comment of one that has (blank)
    comments. *)
Theorem document_edits
    (openai : list request -> request -> api_outcome) (config : TsDocumenter.Config)
    (d : declaration) (w : world) :
  let req := TsDocumenter.completion_request config (decl_text d) in
  let answer := answer_of (openai (sent w) req) in
  let after := edits (snd (TsDocumenter.document openai config d w)) in
  (answer = None \/ answer = Some [] -> after = edits w)
  /\ (Spec.select_documentation (TsDocumenter.minLength config) d = false ->
      after = edits w)
  /\ (forall c text,
        Spec.select_documentation (TsDocumenter.minLength config) d = true ->
        answer = Some (c :: text) ->
        let comment := nl ++ template_string (TsDocumenter.extractComment (c :: text)) in
        after = edits w ++ [match decl_jsDocs d with
                            | [] => AddJsDoc d comment
                            | _ :: _ => ReplaceWithText d comment
                            end]).
Proof.
  intros req answer after. unfold after, answer, req.
  rewrite document_run. cbv zeta.
  split; [|split].
  - intros [H|H]; rewrite H; now destruct (Spec.select_documentation _ d).
  - now intros ->.
  - intros c text -> ->. unfold TsDocumenter.splice.
    now destruct (decl_jsDocs d).
Qed.

Lemma document_edits_witness :
  edits (snd (TsDocumenter.document (always Rejects) doc_config bar_method empty_world))
  = []
  /\ edits (snd (TsDocumenter.document
                   (always (Resolves (chat_response (VStr (lit "/** Adds one. */")))))
                   doc_config bar_method empty_world))
     = [AddJsDoc bar_method (cat [nl; lit "Adds one."])].
Proof.
  split.
  - apply (proj1 (document_edits (always Rejects) doc_config bar_method empty_world)).
    now left.
  - apply (proj2 (proj2 (document_edits
                           (always (Resolves (chat_response (VStr (lit "/** Adds one. */")))))
                           doc_config bar_method empty_world))
             47%N (lit "** Adds one. */")); reflexivity.
Defined.

(** X4: when every request fails, a run of the documentation generator
    edits nothing: it still visits every file and returns normally. *)
Theorem documenter_main_failing_endpoint
    (openai : list request -> request -> api_outcome) (config : TsDocumenter.Config)
    (files : list source_file) (w : world) :
  always_fails openai ->
  edits (snd (TsDocumenter.main openai config files w)) = edits w.
Proof.
  intros Hfail.
  pose (R := fun w w' : world => edits w' = edits w).
  assert (Rrefl : forall w, R w w) by reflexivity.
  assert (Rtrans : forall w1 w2 w3, R w1 w2 -> R w2 w3 -> R w1 w3)
    by (unfold R; intros; congruence).
  assert (Hdoc : forall d w, R w (snd (TsDocumenter.document openai config d w))).
  { intros d w'. unfold R. rewrite document_run. cbv zeta.
    destruct (Spec.select_documentation _ d); [rewrite Hfail|]; reflexivity. }
  unfold TsDocumenter.main. revert w. apply (for_of_rel R Rrefl Rtrans). intros file w.
  apply (bind_rel R Rtrans).
  - revert w. apply (for_of_rel R Rrefl Rtrans). intros classObj w.
    apply (bind_rel R Rtrans); [revert w; now apply (for_of_rel R Rrefl Rtrans)|].
    intros _ w'. apply (bind_rel R Rtrans); [revert w'; now apply (for_of_rel R Rrefl Rtrans)|].
    intros _ w''. revert w''. now apply (for_of_rel R Rrefl Rtrans).
  - intros _ w'. apply (bind_rel R Rtrans); [|reflexivity].
    revert w'. apply (for_of_rel R Rrefl Rtrans). intros enumObj.
    now apply (for_of_rel R Rrefl Rtrans).
Qed.

Lemma documenter_main_failing_endpoint_witness :
  edits (snd (TsDocumenter.main (always Rejects) doc_config [foo_ts] empty_world)) = [].
Proof.
  apply (documenter_main_failing_endpoint (always Rejects) doc_config [foo_ts] empty_world).
  intros history req. reflexivity.
Defined.

(** ** What [extractComment] extracts *)

Section ExtractFacts.

Lemma index_from_first (pat s : jsstring) (k : nat) (i : Z) :
  (forall j, (j < k)%nat -> starts_with pat (drop j s) = false) ->
  starts_with pat (drop k s) = true -> (k <= length s)%nat ->
  index_from pat s i = i + Z.of_nat k.
Proof.
  revert k i. induction s as [|c r IH]; intros k i Hbefore Hat Hk.
  - assert (k = 0%nat) as -> by (simpl in Hk; lia).
    simpl in *. rewrite Hat. lia.
  - change (index_from pat (c :: r) i)
      with (if starts_with pat (c :: r) then i else index_from pat r (i + 1)).
    destruct k as [|k].
    + change (drop 0 (c :: r)) with (c :: r) in Hat. rewrite Hat. lia.
    + pose proof (Hbefore 0%nat ltac:(lia)) as H0.
      change (drop 0 (c :: r)) with (c :: r) in H0. rewrite H0.
      rewrite (IH k (i + 1)); [lia | | exact Hat | simpl in Hk; lia].
      intros j Hj. apply (Hbefore (S j)). lia.
Qed.

(** No occurrence of the opening marker starts inside a text that does
    not contain it, even when the marker follows. *)
Lemma no_start_before_open (prefix rest : jsstring) (j : nat) :
  ~ occurs (lit "/**") prefix -> (j < length prefix)%nat ->
  starts_with (lit "/**") (drop j (prefix ++ lit "/**" ++ rest)) = false.
Proof.
  intros Hno Hj.
  destruct (starts_with _ _) eqn:E; [|reflexivity]. exfalso.
  apply starts_with_true in E as [r Hr].
  rewrite drop_app_le in Hr by lia.
  pose proof (take_drop j prefix) as Hsplit.
  destruct (drop j prefix) as [|a [|b [|c p2]]] eqn:Hd.
  - apply (f_equal (@length _)) in Hd. rewrite length_drop in Hd. simpl in Hd. lia.
  - discriminate Hr.
  - discriminate Hr.
  - injection Hr as -> -> -> _. apply Hno.
    exists (take j prefix), p2. now rewrite <- Hsplit at 1.
Qed.

Lemma no_start_before_close (body rest : jsstring) (j : nat) :
  ~ occurs (lit "*/") (lit "*" ++ body) -> (j < 3 + length body)%nat ->
  starts_with (lit "*/") (drop j (lit "/**" ++ body ++ lit "*/" ++ rest)) = false.
Proof.
  intros Hno Hj.
  destruct j as [|[|j]]; [reflexivity | reflexivity |].
  change (drop (S (S j)) (lit "/**" ++ body ++ lit "*/" ++ rest))
    with (drop j ((lit "*" ++ body) ++ lit "*/" ++ rest)).
  assert (Hj' : (j < length (lit "*" ++ body))%nat) by (simpl; lia).
  destruct (starts_with _ _) eqn:E; [|reflexivity]. exfalso.
  apply starts_with_true in E as [r Hr].
  rewrite drop_app_le in Hr by lia.
  pose proof (take_drop j (lit "*" ++ body)) as Hsplit.
  destruct (drop j (lit "*" ++ body)) as [|a [|b p2]] eqn:Hd.
  - apply (f_equal (@length _)) in Hd. rewrite length_drop in Hd. simpl in Hd, Hj'. lia.
  - discriminate Hr.
  - injection Hr as -> -> _. apply Hno.
    exists (take j (lit "*" ++ body)), p2. now rewrite <- Hsplit at 1.
Qed.

Lemma indexOf_open (prefix rest : jsstring) :
  ~ occurs (lit "/**") prefix ->
  indexOf (prefix ++ lit "/**" ++ rest) (lit "/**") 0 = Z.of_nat (length prefix).
Proof.
  intros Hno. unfold indexOf.
  replace (Z.min (Z.max 0 0) _) with 0 by lia.
  change (Z.to_nat 0) with 0%nat. rewrite drop_0.
  rewrite (index_from_first _ _ (length prefix)); [lia | | | ].
  - intros j Hj. now apply no_start_before_open.
  - rewrite drop_app_length. reflexivity.
  - rewrite length_app. lia.
Qed.

Lemma indexOf_close (prefix body rest : jsstring) :
  ~ occurs (lit "*/") (lit "*" ++ body) ->
  indexOf (prefix ++ lit "/**" ++ body ++ lit "*/" ++ rest) (lit "*/")
    (Z.of_nat (length prefix))
  = Z.of_nat (length prefix) + 3 + Z.of_nat (length body).
Proof.
  intros Hno. unfold indexOf.
  replace (Z.min (Z.max (Z.of_nat (length prefix)) 0) _)
    with (Z.of_nat (length prefix)) by (rewrite length_app; lia).
  rewrite Nat2Z.id, drop_app_length.
  rewrite (index_from_first _ _ (3 + length body)); [lia | | | ].
  - intros j Hj. now apply no_start_before_close.
  - change (drop (3 + length body) (lit "/**" ++ body ++ lit "*/" ++ rest))
      with (drop (length body) (body ++ lit "*/" ++ rest)).
    rewrite drop_app_length. reflexivity.
  - rewrite !length_app. simpl. lia.
Qed.

Lemma substring_body (prefix body rest : jsstring) :
  substring (prefix ++ lit "/**" ++ body ++ rest)
    (Z.of_nat (length prefix) + 3)
    (Z.of_nat (length prefix) + 3 + Z.of_nat (length body))
  = body.
Proof.
  unfold substring. rewrite !length_app. simpl length.
  replace (Z.to_nat (Z.max _ _ - Z.min _ _)) with (length body) by lia.
  replace (Z.to_nat (Z.min _ _)) with (length prefix + 3)%nat by lia.
  rewrite <- drop_drop, drop_app_length.
  change (drop 3 (lit "/**" ++ body ++ rest)) with (body ++ rest).
  now rewrite take_app_length.
Qed.

End ExtractFacts.

(** X5: for a text that holds a comment, that is some text without [/**],
    then [/**], a body, [*/] and anything after it, where [*/] occurs
    neither in the body nor across its start, [extractComment] returns the
    lines of the body, each trimmed and without its leading asterisk and
    space, joined by newlines: what precedes the first comment and what
    follows it is ignored. *)
Theorem extractComment_delimited (prefix body suffix : jsstring) :
  ~ occurs (lit "/**") prefix ->
  ~ occurs (lit "*/") (lit "*" ++ body) ->
  TsDocumenter.extractComment (prefix ++ lit "/**" ++ body ++ lit "*/" ++ suffix)
  = Some (join nl (map clean_line (split LF body))).
Proof.
  intros Hopen Hclose. unfold TsDocumenter.extractComment.
  rewrite (indexOf_open prefix _ Hopen).
  destruct (Z.eqb_spec (Z.of_nat (length prefix)) (-1)) as [H|_]; [lia|].
  rewrite (indexOf_close prefix body suffix Hclose).
  destruct (Z.eqb_spec (Z.of_nat (length prefix) + 3 + Z.of_nat (length body)) (-1))
    as [H|_]; [lia|].
  now rewrite substring_body.
Qed.

Lemma extractComment_delimited_witness :
  TsDocumenter.extractComment
    (cat [lit "Here it is: "; lit "/**"; cat [nl; lit " * Adds a/b."; nl; lit " "];
          lit "*/"; lit " // done */"])
  = Some (cat [nl; lit "Adds a/b."; nl]).
Proof.
  refine (extractComment_delimited (lit "Here it is: ")
            (cat [nl; lit " * Adds a/b."; nl; lit " "]) (lit " // done */") _ _).
  - intros (a & b & H).
    exact (cut_at_None (lit "/**") (lit "Here it is: ") eq_refl a b H).
  - intros (a & b & H).
    exact (cut_at_None (lit "*/")
             (lit "*" ++ cat [nl; lit " * Adds a/b."; nl; lit " "]) eq_refl a b H).
Defined.

(** X6: when the first [/**] of a text is directly followed by a slash,
    the [*/] found is the one that overlaps the opening marker and the
    result is the empty string, whatever surrounds the four characters. *)
Theorem extractComment_overlap (prefix suffix : jsstring) :
  ~ occurs (lit "/**") prefix ->
  TsDocumenter.extractComment (prefix ++ lit "/**/" ++ suffix) = Some [].
Proof.
  intros Hopen. unfold TsDocumenter.extractComment.
  change (prefix ++ lit "/**/" ++ suffix)
    with (prefix ++ lit "/**" ++ lit "/" ++ suffix).
  rewrite (indexOf_open prefix _ Hopen).
  destruct (Z.eqb_spec (Z.of_nat (length prefix)) (-1)) as [H|_]; [lia|].
  assert (Hend : indexOf (prefix ++ lit "/**" ++ lit "/" ++ suffix) (lit "*/")
                   (Z.of_nat (length prefix))
                 = Z.of_nat (length prefix) + 2).
  { unfold indexOf.
    replace (Z.min (Z.max (Z.of_nat (length prefix)) 0) _)
      with (Z.of_nat (length prefix)) by (rewrite length_app; lia).
    rewrite Nat2Z.id, drop_app_length.
    change (index_from (lit "*/") (lit "/**" ++ lit "/" ++ suffix)
              (Z.of_nat (length prefix)))
      with (Z.of_nat (length prefix) + 1 + 1).
    lia. }
  rewrite Hend.
  destruct (Z.eqb_spec (Z.of_nat (length prefix) + 2) (-1)) as [H|_]; [lia|].
  assert (Hsub : substring (prefix ++ lit "/**" ++ lit "/" ++ suffix)
                   (Z.of_nat (length prefix) + 3) (Z.of_nat (length prefix) + 2)
                 = lit "*").
  { unfold substring. rewrite !length_app. simpl length.
    replace (Z.to_nat (Z.max _ _ - Z.min _ _)) with 1%nat by lia.
    replace (Z.to_nat (Z.min _ _)) with (length prefix + 2)%nat by lia.
    rewrite <- drop_drop, drop_app_length. reflexivity. }
  rewrite Hsub. reflexivity.
Qed.

Lemma extractComment_overlap_witness :
  TsDocumenter.extractComment (lit "see /**/ and /** this */") = Some [].
Proof.
  refine (extractComment_overlap (lit "see ") (lit " and /** this */") _).
  intros (a & b & H). exact (cut_at_None (lit "/**") (lit "see ") eq_refl a b H).
Defined.

(** ** Directories and files of the unit test creator *)

(** X7: [ensureDirectoryExistence] never changes or removes what exists:
    whatever the path and however deep the recursion goes, every entry of
    the disk stays as it is, a path that was free is free or a directory
    afterwards, and no request or edit is made. *)
Theorem ensureDirectoryExistence_only_adds (fuel : nat) (filePath : jsstring) (w : world) :
  let w' := snd (UnitTestCreator.ensureDirectoryExistence fuel filePath w) in
  (forall p nd, disk w !! p = Some nd -> disk w' !! p = Some nd)
  /\ (forall p, disk w !! p = None -> disk w' !! p = None \/ disk w' !! p = Some Dir)
  /\ sent w' = sent w /\ edits w' = edits w /\ saves w' = saves w.
Proof.
  intros w'.
  destruct (ensureDirectoryExistence_adds fuel filePath w) as [Hadd (Hs & He & Hv)].
  fold w' in Hadd, Hs, He, Hv.
  split; [|split; [|now repeat split]].
  - now apply adds_dirs_keeps.
  - intros p Hp. destruct (Hadd p) as [E|[_ E]]; [left; congruence | now right].
Qed.

Lemma ensureDirectoryExistence_only_adds_witness :
  disk (snd (UnitTestCreator.ensureDirectoryExistence 5 (lit "/proj/out/Foo.spec.ts")
               (on_disk (proj_disk [(lit "/proj/Foo.ts", File (lit "class Foo {}"))]))))
    !! lit "/proj/Foo.ts"
  = Some (File (lit "class Foo {}")).
Proof.
  apply (proj1 (ensureDirectoryExistence_only_adds 5 (lit "/proj/out/Foo.spec.ts")
                  (on_disk (proj_disk [(lit "/proj/Foo.ts", File (lit "class Foo {}"))])))).
  vm_compute. reflexivity.
Defined.

(** X8: when only the directory of the file is missing (its parent is a
    directory and the one above exists), [ensureDirectoryExistence] creates
    exactly that directory. *)
Theorem ensureDirectoryExistence_one_level (fuel : nat) (filePath : jsstring) (w : world) :
  let dir := Path.dirname filePath in
  disk w !! dir = None ->
  disk w !! Path.dirname dir = Some Dir ->
  is_Some (disk w !! Path.dirname (Path.dirname dir)) ->
  UnitTestCreator.ensureDirectoryExistence (S (S fuel)) filePath w
  = (Ok tt, with_disk (<[dir := Dir]> (disk w)) w).
Proof.
  intros dir Hdir Hparent Hgrand.
  change (UnitTestCreator.ensureDirectoryExistence (S (S fuel)) filePath w)
    with (bind (existsSync dir)
            (fun found : bool =>
               if found then ret tt
               else bind (UnitTestCreator.ensureDirectoryExistence (S fuel)
                            (Path.dirname dir))
                      (fun _ => mkdirSync dir)) w).
  rewrite bind_existsSync.
  rewrite bool_decide_eq_false_2 by (rewrite Hdir; apply is_Some_None).
  unfold bind. rewrite (ensureDirectoryExistence_present fuel _ w Hgrand).
  unfold mkdirSync. now rewrite Hdir, Hparent.
Qed.

Lemma ensureDirectoryExistence_one_level_witness :
  UnitTestCreator.ensureDirectoryExistence 2 (lit "/proj/out/Foo.spec.ts")
    (on_disk (proj_disk []))
  = (Ok tt, with_disk (<[lit "/proj/out" := Dir]> (proj_disk [])) (on_disk (proj_disk []))).
Proof.
  apply (ensureDirectoryExistence_one_level 0 (lit "/proj/out/Foo.spec.ts")
           (on_disk (proj_disk []))).
  - vm_compute. reflexivity.
  - vm_compute. reflexivity.
  - exists Dir. vm_compute. reflexivity.
Defined.

(** X9: when the directory of the file and its parent are both missing,
    [ensureDirectoryExistence] creates nothing and raises [ENOENT]: the
    recursive call is given the parent of the directory, so it looks at the
    directory two levels up and never creates the parent that [mkdirSync]
    needs. *)
Theorem ensureDirectoryExistence_two_levels (fuel : nat) (filePath : jsstring) (w : world) :
  let dir := Path.dirname filePath in
  disk w !! dir = None ->
  disk w !! Path.dirname dir = None ->
  is_Some (disk w !! Path.dirname (Path.dirname dir)) ->
  UnitTestCreator.ensureDirectoryExistence (S (S fuel)) filePath w
  = (Throw (FsError "ENOENT"), w).
Proof.
  intros dir Hdir Hparent Hgrand.
  change (UnitTestCreator.ensureDirectoryExistence (S (S fuel)) filePath w)
    with (bind (existsSync dir)
            (fun found : bool =>
               if found then ret tt
               else bind (UnitTestCreator.ensureDirectoryExistence (S fuel)
                            (Path.dirname dir))
                      (fun _ => mkdirSync dir)) w).
  rewrite bind_existsSync.
  rewrite bool_decide_eq_false_2 by (rewrite Hdir; apply is_Some_None).
  unfold bind. rewrite (ensureDirectoryExistence_present fuel _ w Hgrand).
  unfold mkdirSync. now rewrite Hdir, Hparent.
Qed.

Lemma ensureDirectoryExistence_two_levels_witness :
  UnitTestCreator.ensureDirectoryExistence 2 (lit "/proj/out/unit/Foo.spec.ts")
    (on_disk (proj_disk []))
  = (Throw (FsError "ENOENT"), on_disk (proj_disk [])).
Proof.
  apply (ensureDirectoryExistence_two_levels 0 (lit "/proj/out/unit/Foo.spec.ts")
           (on_disk (proj_disk []))).
  - vm_compute. reflexivity.
  - vm_compute. reflexivity.
  - exists Dir. vm_compute. reflexivity.
Defined.

Section TestFileFacts.

Import UnitTestCreator.

Variable openai : list request -> request -> api_outcome.
Variable legacy_coercion : bool.
Variable config : Config.

Lemma writeFileSync_Ok (p : jsstring) (data : file_data) (w w' : world) :
  writeFileSync legacy_coercion p data w = (Ok tt, w') ->
  w' = with_disk (<[p := File (coerced data)]> (disk w)) w
  /\ (legacy_coercion = false -> exists s, data = DataString s).
Proof.
  unfold writeFileSync.
  assert (Hwrite :
    match disk w !! p with
    | Some Dir => (Throw (FsError "EISDIR"), w)
    | _ => match disk w !! Path.dirname p with
           | Some Dir => set_disk (<[p := File (coerced data)]> (disk w)) w
           | Some (File _) => (Throw (FsError "ENOTDIR"), w)
           | None => (Throw (FsError "ENOENT"), w)
           end
    end = (Ok tt, w') ->
    w' = with_disk (<[p := File (coerced data)]> (disk w)) w).
  { destruct (disk w !! p) as [[old|]|];
      destruct (disk w !! Path.dirname p) as [[content|]|];
      try discriminate; now intros [= <-]. }
  destruct data as [s| |], legacy_coercion; try discriminate; intros H;
    (split; [now apply Hwrite | first [discriminate | intros _; now exists s]]).
Qed.

Lemma createUnitTestFile_Ok (p : jsstring) (data : file_data) (w w' : world) :
  createUnitTestFile legacy_coercion p data w = (Ok tt, w') ->
  disk w' !! p = Some (File (coerced data))
  /\ (legacy_coercion = false -> exists s, data = DataString s).
Proof.
  unfold createUnitTestFile, bind.
  destruct (ensureDirectoryExistence (call_stack p) p w) as [[[]|e] w1]; [|discriminate].
  intros H. apply writeFileSync_Ok in H as [-> Hdata].
  split; [apply lookup_insert_eq | exact Hdata].
Qed.

End TestFileFacts.

(** X10: [createUnitTestFile] has no check of its own.  When it returns
    normally the file holds exactly the data it was given (as text), also
    when a file was there before: in an existing directory it replaces the
    content of an existing file.  Without the coercion of old Node versions
    it only returns normally for string data. *)
Theorem createUnitTestFile_writes (legacy_coercion : bool) (p : jsstring)
    (data : file_data) (w : world) :
  (forall w', UnitTestCreator.createUnitTestFile legacy_coercion p data w = (Ok tt, w') ->
              disk w' !! p = Some (File (coerced data))
              /\ (legacy_coercion = false -> exists s, data = DataString s))
  /\ (forall old s,
        data = DataString s ->
        disk w !! p = Some (File old) ->
        disk w !! Path.dirname p = Some Dir ->
        UnitTestCreator.createUnitTestFile legacy_coercion p data w
        = (Ok tt, with_disk (<[p := File s]> (disk w)) w)).
Proof.
  split.
  - intros w'. apply createUnitTestFile_Ok.
  - intros old s -> Hp Hdir. unfold UnitTestCreator.createUnitTestFile, bind.
    unfold UnitTestCreator.call_stack.
    replace (length p + 2)%nat with (S (length p + 1)) by lia.
    rewrite ensureDirectoryExistence_present by (rewrite Hdir; eauto).
    unfold writeFileSync. rewrite Hp, Hdir. now destruct legacy_coercion.
Qed.

Lemma createUnitTestFile_writes_witness :
  let w := on_disk (proj_disk [(lit "/proj/Foo.bar.spec.ts", File (lit "old"))]) in
  disk (snd (UnitTestCreator.createUnitTestFile false (lit "/proj/Foo.bar.spec.ts")
               (DataString (lit "new")) w)) !! lit "/proj/Foo.bar.spec.ts"
  = Some (File (lit "new")).
Proof.
  intros w.
  rewrite (proj2 (createUnitTestFile_writes false (lit "/proj/Foo.bar.spec.ts")
                    (DataString (lit "new")) w) (lit "old") (lit "new")).
  - apply lookup_insert_eq.
  - reflexivity.
  - vm_compute. reflexivity.
  - vm_compute. reflexivity.
Defined.

(** X11: a failed generation is not skipped.  For a selected method whose
    test file would lie in an existing directory, when the completion is
    null the loop body still calls [createUnitTestFile] with it: Node 14
    and later raise a [TypeError] (the request was sent, nothing is
    written, the run stops), older versions write a test file whose
    content is the text null. *)
Theorem failed_generation_not_skipped
    (openai : list request -> request -> api_outcome) (legacy_coercion : bool)
    (config : UnitTestCreator.Config) (file : source_file) (classObj : class_decl)
    (method : declaration) (w : world) :
  let name := decl_name method in
  let testFilePath := UnitTestCreator.testFilePath_of file name in
  let req := UnitTestCreator.completion_request config (class_name classObj) name
               (UnitTestCreator.testFileName_of file name) (class_text classObj) in
  name <> [] ->
  UnitTestCreator.minLength config < Z.of_nat (length (decl_text method)) ->
  disk w !! testFilePath = None ->
  disk w !! Path.dirname testFilePath = Some Dir ->
  answer_of (openai (sent w) req) = None ->
  UnitTestCreator.process_method openai legacy_coercion config file classObj method w
  = if legacy_coercion
    then (Ok tt, with_disk (<[testFilePath := File (lit "null")]> (disk w)) (sending req w))
    else (Throw TypeError, sending req w).
Proof.
  intros name testFilePath req Hname Hlen Hfree Hdir Hnull.
  rewrite process_method_run. cbv zeta. fold name testFilePath req.
  assert (G : truthy_str name
              && (Z.of_nat (length (decl_text method)) >? UnitTestCreator.minLength config)
              && negb (bool_decide (is_Some (disk w !! testFilePath))) = true).
  { apply guard_chosen. now repeat split. }
  rewrite G, Hnull. simpl UnitTestCreator.as_data.
  unfold UnitTestCreator.createUnitTestFile, bind, UnitTestCreator.call_stack.
  replace (length testFilePath + 2)%nat with (S (length testFilePath + 1)) by lia.
  rewrite ensureDirectoryExistence_present by (simpl; rewrite Hdir; eauto).
  unfold writeFileSync. destruct legacy_coercion; [|reflexivity].
  simpl disk. now rewrite Hfree, Hdir.
Qed.

Lemma failed_generation_not_skipped_witness :
  fst (UnitTestCreator.process_method (always Rejects) false test_config foo_ts foo_class
         bar_method (on_disk (proj_disk [])))
  = Throw TypeError
  /\ disk (snd (UnitTestCreator.process_method (always Rejects) true test_config foo_ts
                  foo_class bar_method (on_disk (proj_disk []))))
       !! lit "/proj/Foo.bar.spec.ts"
     = Some (File (lit "null")).
Proof.
  split.
  - rewrite (failed_generation_not_skipped (always Rejects) false test_config foo_ts
               foo_class bar_method (on_disk (proj_disk [])));
      [reflexivity | discriminate | reflexivity | vm_compute; reflexivity
       | vm_compute; reflexivity | reflexivity].
  - rewrite (failed_generation_not_skipped (always Rejects) true test_config foo_ts
               foo_class bar_method (on_disk (proj_disk [])));
      [vm_compute; reflexivity | discriminate | reflexivity | vm_compute; reflexivity
       | vm_compute; reflexivity | reflexivity].
Defined.

(** X12: one test file per method name and source file.  Once the loop
    body has processed a method and returned normally, a method of the same
    name in the same file (in another class, say) is skipped: no request,
    no write. *)
Theorem same_name_processed_once
    (openai : list request -> request -> api_outcome) (legacy_coercion : bool)
    (config : UnitTestCreator.Config) (file : source_file)
    (classObj classObj' : class_decl) (method method' : declaration) (w w1 : world) :
  decl_name method <> [] ->
  UnitTestCreator.minLength config < Z.of_nat (length (decl_text method)) ->
  disk w !! UnitTestCreator.testFilePath_of file (decl_name method) = None ->
  UnitTestCreator.process_method openai legacy_coercion config file classObj method w
  = (Ok tt, w1) ->
  decl_name method' = decl_name method ->
  UnitTestCreator.process_method openai legacy_coercion config file classObj' method' w1
  = (Ok tt, w1).
Proof.
  intros Hname Hlen Hfree Hrun Hsame.
  rewrite process_method_run in Hrun. cbv zeta in Hrun.
  assert (G : truthy_str (decl_name method)
              && (Z.of_nat (length (decl_text method)) >? UnitTestCreator.minLength config)
              && negb (bool_decide (is_Some (disk w !! UnitTestCreator.testFilePath_of file
                                                         (decl_name method)))) = true).
  { apply guard_chosen. now repeat split. }
  rewrite G in Hrun. apply createUnitTestFile_Ok in Hrun as [Hfile _].
  rewrite process_method_run. cbv zeta. rewrite Hsame, Hfile.
  rewrite bool_decide_eq_true_2 by eauto. simpl. now rewrite andb_false_r.
Qed.

Lemma same_name_processed_once_witness :
  let answer := always (Resolves (chat_response (VStr (lit "tests")))) in
  let w := on_disk (proj_disk []) in
  let w1 := snd (UnitTestCreator.process_method answer true test_config foo_ts foo_class
                   bar_method w) in
  UnitTestCreator.process_method answer true test_config foo_ts foo_class bar_method w1
  = (Ok tt, w1).
Proof.
  intros answer w w1.
  apply (same_name_processed_once answer true test_config foo_ts foo_class foo_class
           bar_method bar_method w w1).
  - discriminate.
  - reflexivity.
  - vm_compute. reflexivity.
  - vm_compute. reflexivity.
  - reflexivity.
Defined.

(** X13: different method names never share a test file: for method names
    without a slash, different names give different test file paths in a
    source file. *)
Theorem testFilePath_injective (file : source_file) (name1 name2 : jsstring) :
  Path.no_slash name1 -> Path.no_slash name2 -> name1 <> name2 ->
  UnitTestCreator.testFilePath_of file name1 <> UnitTestCreator.testFilePath_of file name2.
Proof.
  intros Hn1 Hn2 Hne H. apply Hne. revert H.
  unfold UnitTestCreator.testFilePath_of, UnitTestCreator.testFileName_of.
  pose proof (basename_no_slash (file_path file) (lit ".ts")) as Hbase.
  set (base := Path.basename (file_path file) (lit ".ts")) in *.
  set (dir := Path.dirname (file_path file)).
  destruct (test_file_segment base name1 Hbase Hn1) as (Ht1 & Hs1 & Hd1 & Hdd1).
  destruct (test_file_segment base name2 Hbase Hn2) as (Ht2 & Hs2 & Hd2 & Hdd2).
  rewrite (join_plain_segment dir _ Ht1 Hs1 Hd1 Hdd1),
    (join_plain_segment dir _ Ht2 Hs2 Hd2 Hdd2), !join_snoc.
  intros H. apply app_inv_head in H.
  assert (Hnames : base ++ lit "." ++ name1 ++ lit ".spec.ts"
                   = base ++ lit "." ++ name2 ++ lit ".spec.ts").
  { destruct (rev _) as [|x xs]; [exact H|].
    apply app_inv_head in H. now apply (app_inv_head (lit "/")) in H. }
  apply app_inv_head in Hnames. apply (app_inv_head (lit ".")) in Hnames.
  now apply app_inv_tail in Hnames.
Qed.

Lemma testFilePath_injective_witness :
  UnitTestCreator.testFilePath_of foo_ts (lit "bar")
  <> UnitTestCreator.testFilePath_of foo_ts (lit "baz").
Proof.
  apply (testFilePath_injective foo_ts (lit "bar") (lit "baz")).
  - repeat constructor.
  - repeat constructor.
  - discriminate.
Defined.

(** ** Whole runs of the unit test creators *)

Section TestCreatorRuns.

Lemma at_most_refl (w : world) : at_most 0 w w.
Proof. split; [reflexivity | lia]. Qed.

Lemma at_most_bind {A B} (m : M A) (k : A -> M B) (k1 k2 : nat) (w : world) :
  at_most k1 w (snd (m w)) -> (forall a w', at_most k2 w' (snd (k a w'))) ->
  at_most (k1 + k2) w (snd (bind m k w)).
Proof.
  intros [He Hs] Hk. unfold bind. destruct (m w) as [[a|e] w1]; simpl in *.
  - destruct (Hk a w1) as [He2 Hs2]. split; [congruence | lia].
  - split; [exact He | lia].
Qed.

Lemma at_most_for_of {A} (body : A -> M unit) (g : A -> nat) :
  (forall x w, at_most (g x) w (snd (body x w))) ->
  forall xs w, at_most (list_sum (map g xs)) w (snd (for_of xs body w)).
Proof.
  intros Hbody xs. induction xs as [|x rest IH]; intros w; simpl.
  - apply at_most_refl.
  - apply at_most_bind; [apply Hbody | intros _ w'; apply IH].
Qed.

Lemma length_concat_sum {A} (ls : list (list A)) :
  length (concat ls) = list_sum (map (@length A) ls).
Proof.
  induction ls as [|l rest IH]; [reflexivity|].
  simpl. now rewrite length_app, IH.
Qed.

Variable openai : list request -> request -> api_outcome.
Variable legacy_coercion : bool.
Variable config : UnitTestCreator.Config.

Lemma process_method_at_most (file : source_file) (classObj : class_decl)
    (method : declaration) (w : world) :
  at_most 1 w (snd (UnitTestCreator.process_method openai legacy_coercion config file
                      classObj method w)).
Proof.
  rewrite process_method_run. cbv zeta.
  destruct (_ && _ && _) eqn:G; [|split; [reflexivity | simpl; lia]].
  apply guard_chosen in G as (_ & _ & Hp).
  destruct (createUnitTestFile_keeps legacy_coercion _
              (UnitTestCreator.as_data
                 (answer_of (openai (sent w)
                    (UnitTestCreator.completion_request config (class_name classObj)
                       (decl_name method)
                       (UnitTestCreator.testFileName_of file (decl_name method))
                       (class_text classObj)))))
              (sending (UnitTestCreator.completion_request config (class_name classObj)
                          (decl_name method)
                          (UnitTestCreator.testFileName_of file (decl_name method))
                          (class_text classObj)) w) Hp)
    as [_ (Hs & He & _)].
  split; [exact He|]. rewrite Hs. simpl. rewrite length_app. simpl. lia.
Qed.

Lemma test_main_at_most (files : list source_file) (w : world) :
  at_most (length (methods_of files)) w
    (snd (UnitTestCreator.main openai legacy_coercion config files w)).
Proof.
  unfold methods_of, UnitTestCreator.main.
  rewrite length_concat_sum, map_map. revert w.
  apply (at_most_for_of _ (fun file =>
           length (concat (map class_methods (file_classes file))))).
  intros file w. rewrite <- (Nat.add_0_r (length _)).
  apply at_most_bind; [|intros _ w'; split; [reflexivity | simpl; lia]].
  rewrite length_concat_sum, map_map. revert w.
  apply (at_most_for_of _ (fun classObj => length (class_methods classObj))).
  intros classObj w.
  replace (length (class_methods classObj))
    with (list_sum (map (fun _ => 1%nat) (class_methods classObj)))
    by (induction (class_methods classObj); simpl; auto).
  revert w. apply at_most_for_of. intros method w. apply process_method_at_most.
Qed.

(** The two loop bodies of [src/UnitTestCreator/unitTestCreator.js]. *)
Lemma process_method_src_run (file : source_file) (method : declaration) (w : world) :
  UnitTestCreatorSrc.process_method openai legacy_coercion config file method w
  = if qualifies config method then (Throw (ReferenceError "methodname"), w)
    else (Ok tt, w).
Proof.
  unfold UnitTestCreatorSrc.process_method, qualifies.
  destruct (truthy_str _); [|reflexivity].
  destruct (_ >? _); reflexivity.
Qed.

Lemma process_function_src_run (file : source_file) (func : declaration) (w : world) :
  UnitTestCreatorSrc.process_function openai legacy_coercion config file func w
  = if qualifies config func
    then (Throw (ReferenceError "path"),
          sending (UnitTestCreatorSrc.completion_request config (decl_text func)) w)
    else (Ok tt, w).
Proof.
  unfold UnitTestCreatorSrc.process_function, qualifies.
  destruct (truthy_str _); [|reflexivity].
  destruct (_ >? _); [|reflexivity].
  unfold bind, UnitTestCreatorSrc.reference, UnitTestCreatorSrc.not_awaited. simpl.
  now rewrite generateTestFileContent_src_run.
Qed.

Lemma for_of_quiet {A} (body : A -> M unit) (quiet : A -> bool) (xs : list A)
    (w : world) :
  (forall x w, quiet x = true -> body x w = (Ok tt, w)) ->
  forallb quiet xs = true ->
  for_of xs body w = (Ok tt, w).
Proof.
  intros Hquiet. induction xs as [|x rest IH]; simpl; [reflexivity|].
  rewrite andb_true_iff. intros [Hx Hrest].
  unfold bind. rewrite (Hquiet x w Hx). now apply IH.
Qed.

Lemma for_of_cons_Ok {A} (body : A -> M unit) (x : A) (rest : list A) (w w1 : world) :
  body x w = (Ok tt, w1) -> for_of (x :: rest) body w = for_of rest body w1.
Proof. intros H. simpl. unfold bind. now rewrite H. Qed.

Lemma for_of_cons_loud {A} (body : A -> M unit) (x : A) (rest : list A) (w : world) :
  is_reference_error (fst (body x w)) ->
  is_reference_error (fst (for_of (x :: rest) body w)).
Proof.
  simpl. unfold bind. destruct (body x w) as [[[]|e] w1]; simpl; [|tauto].
  intros [H|H]; discriminate.
Qed.

Lemma reference_error_bind (m : M unit) (k : unit -> M unit) (w : world) :
  is_reference_error (fst (m w)) -> is_reference_error (fst (bind m k w)).
Proof.
  unfold bind. destruct (m w) as [[[]|e] w1]; simpl; [|tauto].
  intros [H|H]; discriminate.
Qed.

Lemma for_of_loud {A} (body : A -> M unit) (quiet : A -> bool) (xs : list A)
    (w : world) :
  (forall x w, quiet x = true -> body x w = (Ok tt, w)) ->
  (forall x w, quiet x = false -> is_reference_error (fst (body x w))) ->
  forallb quiet xs = false ->
  is_reference_error (fst (for_of xs body w)).
Proof.
  intros Hquiet Hloud. induction xs as [|x rest IH]; simpl; [discriminate|].
  destruct (quiet x) eqn:Hx; simpl.
  - intros Hrest. unfold bind. rewrite (Hquiet x w Hx). now apply IH.
  - intros _. apply reference_error_bind. now apply Hloud.
Qed.

End TestCreatorRuns.

(** X14: a run of the unit test creator with the file-exists check never
    edits a declaration, and sends at most one request per class method. *)
Theorem test_main_frame
    (openai : list request -> request -> api_outcome) (legacy_coercion : bool)
    (config : UnitTestCreator.Config) (files : list source_file) (w : world) :
  let w' := snd (UnitTestCreator.main openai legacy_coercion config files w) in
  edits w' = edits w
  /\ (length (sent w') <= length (sent w) + length (methods_of files))%nat.
Proof. apply test_main_at_most. Qed.

(** X15: in [src/UnitTestCreator/unitTestCreator.js] the loop over the
    functions of a file fails too, but later than the loop over the
    methods: for a function with a non-empty name and a text longer than
    the minimum the generation call is made without [await], so its request
    is sent, and then the unbound identifier [path] raises a
    [ReferenceError] before any file is written. *)
Theorem function_branch_raises
    (openai : list request -> request -> api_outcome) (legacy_coercion : bool)
    (config : UnitTestCreator.Config) (file : source_file) (func : declaration)
    (w : world) :
  decl_name func <> [] ->
  UnitTestCreator.minLength config < Z.of_nat (length (decl_text func)) ->
  UnitTestCreatorSrc.binding "path"
    (UnitTestCreatorSrc.function_scope (decl_name func) (decl_text func)) = None
  /\ UnitTestCreatorSrc.process_function openai legacy_coercion config file func w
     = (Throw (ReferenceError "path"),
        sending (UnitTestCreatorSrc.completion_request config (decl_text func)) w).
Proof.
  intros Hname Hlen. split; [reflexivity|].
  rewrite process_function_src_run. unfold qualifies.
  destruct (decl_name func); [contradiction|]. simpl.
  now rewrite (proj2 (Z.gtb_lt _ _) Hlen).
Qed.

Lemma function_branch_raises_witness :
  UnitTestCreatorSrc.process_function (always Rejects) true test_config foo_ts bar_method
    empty_world
  = (Throw (ReferenceError "path"),
     sending (UnitTestCreatorSrc.completion_request test_config (decl_text bar_method))
       empty_world).
Proof.
  refine (proj2 (function_branch_raises (always Rejects) true test_config foo_ts
                   bar_method empty_world _ _)).
  - discriminate.
  - reflexivity.
Defined.

(** X16: a run of [src/UnitTestCreator/unitTestCreator.js] returns normally
    only when no class method and no function of any file qualifies, and
    then it has sent nothing; as soon as one qualifies the run ends with a
    [ReferenceError] for [methodname] or [path]. *)
Theorem src_main_outcome
    (openai : list request -> request -> api_outcome) (legacy_coercion : bool)
    (config : UnitTestCreator.Config) (files : list source_file) (w : world) :
  let run := UnitTestCreatorSrc.main openai legacy_coercion config files w in
  (forallb (quiet_file config) files = true ->
   fst run = Ok tt /\ sent (snd run) = sent w
   /\ saves (snd run) = (saves w + length files)%nat)
  /\ (forallb (quiet_file config) files = false -> is_reference_error (fst run)).
Proof.
  cbv zeta. unfold UnitTestCreatorSrc.main.
  set (methods_quiet := fun classObj : class_decl =>
         forallb (fun m => negb (qualifies config m)) (class_methods classObj)).
  assert (Hm : forall file m w, negb (qualifies config m) = true ->
            UnitTestCreatorSrc.process_method openai legacy_coercion config file m w
            = (Ok tt, w)).
  { intros file m w0 Hq. apply negb_true_iff in Hq.
    now rewrite process_method_src_run, Hq. }
  assert (Hm' : forall file m w, negb (qualifies config m) = false ->
            is_reference_error
              (fst (UnitTestCreatorSrc.process_method openai legacy_coercion config
                      file m w))).
  { intros file m w0 Hq. apply negb_false_iff in Hq.
    rewrite process_method_src_run, Hq. now left. }
  assert (Hf : forall file f w, negb (qualifies config f) = true ->
            UnitTestCreatorSrc.process_function openai legacy_coercion config file f w
            = (Ok tt, w)).
  { intros file f w0 Hq. apply negb_true_iff in Hq.
    now rewrite process_function_src_run, Hq. }
  assert (Hf' : forall file f w, negb (qualifies config f) = false ->
            is_reference_error
              (fst (UnitTestCreatorSrc.process_function openai legacy_coercion config
                      file f w))).
  { intros file f w0 Hq. apply negb_false_iff in Hq.
    rewrite process_function_src_run, Hq. now right. }
  assert (Hc : forall file classObj w, methods_quiet classObj = true ->
            for_of (class_methods classObj)
              (UnitTestCreatorSrc.process_method openai legacy_coercion config file) w
            = (Ok tt, w)).
  { intros file classObj w0. apply for_of_quiet. apply Hm. }
  assert (Hc' : forall file classObj w, methods_quiet classObj = false ->
            is_reference_error
              (fst (for_of (class_methods classObj)
                      (UnitTestCreatorSrc.process_method openai legacy_coercion config file)
                      w))).
  { intros file classObj w0. apply for_of_loud; [apply Hm | apply Hm']. }
  assert (Hfile : forall file w,
            quiet_file config file = true ->
            bind (for_of (file_classes file) (fun classObj =>
                    for_of (class_methods classObj)
                      (UnitTestCreatorSrc.process_method openai legacy_coercion config file)))
              (fun _ => bind (for_of (file_functions file)
                                (UnitTestCreatorSrc.process_function openai legacy_coercion
                                   config file))
                 (fun _ => saveSync)) w
            = saveSync w).
  { intros file w0 Hq. unfold quiet_file in Hq. apply andb_true_iff in Hq as [Hqc Hqf].
    unfold bind at 1.
    rewrite (for_of_quiet _ methods_quiet _ _ (Hc file) Hqc).
    unfold bind at 1.
    now rewrite (for_of_quiet _ _ _ _ (Hf file) Hqf). }
  assert (Hfile' : forall file w,
            quiet_file config file = false ->
            is_reference_error
              (fst (bind (for_of (file_classes file) (fun classObj =>
                      for_of (class_methods classObj)
                        (UnitTestCreatorSrc.process_method openai legacy_coercion config
                           file)))
                (fun _ => bind (for_of (file_functions file)
                                  (UnitTestCreatorSrc.process_function openai
                                     legacy_coercion config file))
                   (fun _ => saveSync)) w))).
  { intros file w0 Hq. unfold quiet_file in Hq.
    destruct (forallb methods_quiet (file_classes file)) eqn:Hqc.
    - fold methods_quiet in Hq. rewrite Hqc in Hq. simpl in Hq.
      unfold bind at 1.
      rewrite (for_of_quiet _ methods_quiet _ _ (Hc file) Hqc).
      apply reference_error_bind.
      now apply (for_of_loud _ _ _ _ (Hf file) (Hf' file)).
    - apply reference_error_bind.
      now apply (for_of_loud _ methods_quiet _ _ (Hc file) (Hc' file)). }
  split.
  - revert w. induction files as [|file rest IH]; intros w.
    + intros _. split; [reflexivity|]. split; [reflexivity | simpl; lia].
    + simpl forallb. rewrite andb_true_iff. intros [Hq Hrest].
      rewrite (for_of_cons_Ok _ file rest w (snd (saveSync w)))
        by (rewrite (Hfile file w Hq); reflexivity).
      destruct (IH (snd (saveSync w)) Hrest) as (Hok & Hsent & Hsaves).
      split; [exact Hok|]. split; [exact Hsent|].
      rewrite Hsaves. simpl. lia.
  - revert w. induction files as [|file rest IH]; intros w; [discriminate|].
    simpl forallb. destruct (quiet_file config file) eqn:Hq; simpl andb.
    + intros Hrest.
      rewrite (for_of_cons_Ok _ file rest w (snd (saveSync w)))
        by (rewrite (Hfile file w Hq); reflexivity).
      now apply IH.
    + intros _. apply for_of_cons_loud. now apply Hfile'.
Qed.

Lemma src_main_outcome_witness :
  fst (UnitTestCreatorSrc.main (always Rejects) true test_config [foo_ts] empty_world)
  = Throw (ReferenceError "methodname")
  \/ fst (UnitTestCreatorSrc.main (always Rejects) true test_config [foo_ts] empty_world)
     = Throw (ReferenceError "path").
Proof.
  apply (proj2 (src_main_outcome (always Rejects) true test_config [foo_ts] empty_world)).
  reflexivity.
Defined.

(** ** What [removeComments] leaves *)


(** X17: [removeComments] leaves no comment: in its result no two slashes
    are adjacent and no [/*] is followed by a [*/], so removing comments
    from it again changes nothing.  (A [/*] that is never closed stays.) *)
Theorem removeComments_idempotent (code : jsstring) :
  has_line_comment (UnitTestCreator.removeComments code) = false
  /\ has_block_comment (UnitTestCreator.removeComments code) = false
  /\ UnitTestCreator.removeComments (UnitTestCreator.removeComments code)
     = UnitTestCreator.removeComments code.
Proof.
  unfold UnitTestCreator.removeComments.
  destruct (R_no_line_comment code false) as (Hline & _ & _).
  destruct (B_no_comment (length (UnitTestCreator.remove_singleLineComment false code))
              _ (Nat.le_refl _) Hline) as [Hl Hb].
  split; [exact Hl|]. split; [exact Hb|].
  now rewrite (no_line_comment_fixed _ Hl), (no_block_comment_fixed _ Hb).
Qed.

(** ** What a run leaves behind *)

(** X18: for a selected method whose test file would lie in an existing
    directory, when the completion is a text the loop body creates the test
    file with exactly that text (the trimmed content of the answer) and
    changes nothing else on disk. *)
Theorem generated_test_written
    (openai : list request -> request -> api_outcome) (legacy_coercion : bool)
    (config : UnitTestCreator.Config) (file : source_file) (classObj : class_decl)
    (method : declaration) (w : world) (tests : jsstring) :
  let name := decl_name method in
  let testFilePath := UnitTestCreator.testFilePath_of file name in
  let req := UnitTestCreator.completion_request config (class_name classObj) name
               (UnitTestCreator.testFileName_of file name) (class_text classObj) in
  name <> [] ->
  UnitTestCreator.minLength config < Z.of_nat (length (decl_text method)) ->
  disk w !! testFilePath = None ->
  disk w !! Path.dirname testFilePath = Some Dir ->
  answer_of (openai (sent w) req) = Some tests ->
  UnitTestCreator.process_method openai legacy_coercion config file classObj method w
  = (Ok tt, with_disk (<[testFilePath := File tests]> (disk w)) (sending req w)).
Proof.
  intros name testFilePath req Hname Hlen Hfree Hdir Hanswer.
  rewrite process_method_run. cbv zeta. fold name testFilePath req.
  assert (G : truthy_str name
              && (Z.of_nat (length (decl_text method)) >? UnitTestCreator.minLength config)
              && negb (bool_decide (is_Some (disk w !! testFilePath))) = true).
  { apply guard_chosen. now repeat split. }
  rewrite G, Hanswer. simpl UnitTestCreator.as_data.
  unfold UnitTestCreator.createUnitTestFile, bind, UnitTestCreator.call_stack.
  replace (length testFilePath + 2)%nat with (S (length testFilePath + 1)) by lia.
  rewrite ensureDirectoryExistence_present by (simpl; rewrite Hdir; eauto).
  unfold writeFileSync. simpl disk. rewrite Hfree, Hdir.
  now destruct legacy_coercion.
Qed.

Lemma generated_test_written_witness :
  disk (snd (UnitTestCreator.process_method
               (always (Resolves (chat_response (VStr (lit " test content ")))))
               false test_config foo_ts foo_class bar_method (on_disk (proj_disk []))))
    !! lit "/proj/Foo.bar.spec.ts"
  = Some (File (lit "test content")).
Proof.
  rewrite (generated_test_written
             (always (Resolves (chat_response (VStr (lit " test content ")))))
             false test_config foo_ts foo_class bar_method (on_disk (proj_disk []))
             (lit "test content"));
    [vm_compute; reflexivity | discriminate | reflexivity | vm_compute; reflexivity
     | vm_compute; reflexivity | reflexivity].
Defined.

Section Coverage.

Lemma for_of_stable {A} (body : A -> M unit) (P : world -> Prop) :
  (forall y w, P w -> P (snd (body y w))) ->
  forall ys w, P w -> P (snd (for_of ys body w)).
Proof.
  intros Hbody ys. induction ys as [|y rest IH]; intros w Hw; [exact Hw|].
  simpl. unfold bind. specialize (Hbody y w Hw).
  destruct (body y w) as [[[]|e] w1]; simpl in *; [now apply IH | exact Hbody].
Qed.

Lemma for_of_covers {A} (body : A -> M unit) (P : A -> world -> Prop) :
  (forall x w w', body x w = (Ok tt, w') -> P x w') ->
  (forall x y w, P x w -> P x (snd (body y w))) ->
  forall xs w, fst (for_of xs body w) = Ok tt ->
               forall x, In x xs -> P x (snd (for_of xs body w)).
Proof.
  intros Hdone Hstable xs. induction xs as [|x0 rest IH]; intros w Hok x Hin.
  - destruct Hin.
  - simpl in Hok |- *. unfold bind in Hok |- *.
    destruct (body x0 w) as [[[]|e] w1] eqn:E; simpl in *; [|discriminate].
    destruct Hin as [<-|Hin].
    + apply for_of_stable; [apply Hstable | now apply (Hdone x0 w)].
    + now apply IH.
Qed.

Variable openai : list request -> request -> api_outcome.
Variable legacy_coercion : bool.
Variable config : UnitTestCreator.Config.

Lemma has_test_file_keeps (w w' : world) (file : source_file) (m : declaration) :
  keeps w w' -> has_test_file config w file m -> has_test_file config w' file m.
Proof.
  intros Hk H Hq. destruct (H Hq) as [nd Hnd]. exists nd. now apply Hk.
Qed.

Lemma process_method_done (file : source_file) (classObj : class_decl)
    (m : declaration) (w w' : world) :
  UnitTestCreator.process_method openai legacy_coercion config file classObj m w
  = (Ok tt, w') ->
  has_test_file config w' file m.
Proof.
  rewrite process_method_run. cbv zeta. unfold has_test_file, qualifies.
  destruct (truthy_str (decl_name m)); [|discriminate].
  destruct (_ >? _); [|discriminate]. simpl.
  destruct (bool_decide (is_Some (disk w !! _))) eqn:Hthere; simpl.
  - intros [= <-] _. now apply bool_decide_eq_true in Hthere.
  - intros Hrun _. apply createUnitTestFile_Ok in Hrun as [Hfile _]. eauto.
Qed.

Lemma methods_keep (file : source_file) (classObj : class_decl) (w : world) :
  keeps w (snd (for_of (class_methods classObj)
                  (UnitTestCreator.process_method openai legacy_coercion config file
                     classObj) w)).
Proof.
  revert w. apply (for_of_rel keeps keeps_refl keeps_trans).
  intros m w. apply process_method_keeps.
Qed.

Lemma classes_keep (file : source_file) (w : world) :
  keeps w (snd (bind (for_of (file_classes file) (fun classObj =>
                        for_of (class_methods classObj)
                          (UnitTestCreator.process_method openai legacy_coercion config
                             file classObj)))
                  (fun _ => saveSync) w)).
Proof.
  apply (bind_rel keeps keeps_trans); [|intros _ w'; apply saveSync_keeps].
  revert w. apply (for_of_rel keeps keeps_refl keeps_trans).
  intros classObj w. apply methods_keep.
Qed.

Lemma methods_cover (file : source_file) (classObj : class_decl) (w : world) :
  fst (for_of (class_methods classObj)
         (UnitTestCreator.process_method openai legacy_coercion config file classObj) w)
  = Ok tt ->
  forall m, In m (class_methods classObj) ->
  has_test_file config
    (snd (for_of (class_methods classObj)
            (UnitTestCreator.process_method openai legacy_coercion config file classObj) w))
    file m.
Proof.
  apply (for_of_covers _ (fun m w' => has_test_file config w' file m)).
  - intros m w0 w'. apply process_method_done.
  - intros m y w0. apply has_test_file_keeps, process_method_keeps.
Qed.

Lemma classes_cover (file : source_file) (w : world) :
  fst (for_of (file_classes file) (fun classObj =>
         for_of (class_methods classObj)
           (UnitTestCreator.process_method openai legacy_coercion config file classObj)) w)
  = Ok tt ->
  forall classObj, In classObj (file_classes file) ->
  forall m, In m (class_methods classObj) ->
  has_test_file config
    (snd (for_of (file_classes file) (fun classObj =>
            for_of (class_methods classObj)
              (UnitTestCreator.process_method openai legacy_coercion config file
                 classObj)) w))
    file m.
Proof.
  apply (for_of_covers _
           (fun classObj w' => forall m, In m (class_methods classObj) ->
                               has_test_file config w' file m)).
  - intros classObj w0 w' Hrun m Hm.
    pose proof (methods_cover file classObj w0) as Hcov.
    rewrite Hrun in Hcov. now apply Hcov.
  - intros classObj y w0 H m Hm.
    apply (has_test_file_keeps w0); [apply methods_keep | now apply H].
Qed.

Lemma main_covers (files : list source_file) (w : world) :
  fst (UnitTestCreator.main openai legacy_coercion config files w) = Ok tt ->
  forall file, In file files ->
  forall classObj, In classObj (file_classes file) ->
  forall m, In m (class_methods classObj) ->
  has_test_file config (snd (UnitTestCreator.main openai legacy_coercion config files w))
    file m.
Proof.
  apply (for_of_covers _
           (fun file w' => forall classObj, In classObj (file_classes file) ->
                           forall m, In m (class_methods classObj) ->
                           has_test_file config w' file m)).
  - intros file w0 w' Hrun classObj Hclass m Hm.
    pose proof (classes_cover file w0) as Hcov.
    unfold bind in Hrun.
    destruct (for_of (file_classes file) _ w0) as [[[]|e] w1]; [|discriminate].
    injection Hrun as <-.
    apply (has_test_file_keeps w1); [intros p nd H; exact H|].
    exact (Hcov eq_refl classObj Hclass m Hm).
  - intros file y w0 H classObj Hclass m Hm.
    apply (has_test_file_keeps w0); [apply classes_keep | exact (H classObj Hclass m Hm)].
Qed.

End Coverage.

(** X19: a run of the unit test creator that returns normally leaves no
    method out: every class method of every file with a non-empty name and
    a text longer than the minimum has its test file on disk afterwards
    (written by this run, or there before). *)
Theorem normal_run_covers
    (openai : list request -> request -> api_outcome) (legacy_coercion : bool)
    (config : UnitTestCreator.Config) (files : list source_file) (w : world) :
  fst (UnitTestCreator.main openai legacy_coercion config files w) = Ok tt ->
  forall file classObj m,
    In file files -> In classObj (file_classes file) -> In m (class_methods classObj) ->
    decl_name m <> [] ->
    UnitTestCreator.minLength config < Z.of_nat (length (decl_text m)) ->
    is_Some (disk (snd (UnitTestCreator.main openai legacy_coercion config files w))
               !! UnitTestCreator.testFilePath_of file (decl_name m)).
Proof.
  intros Hok file classObj m Hfile Hclass Hm Hname Hlen.
  apply (main_covers openai legacy_coercion config files w Hok file Hfile classObj Hclass
           m Hm).
  unfold qualifies. apply andb_true_iff. split.
  - destruct (decl_name m); [contradiction | reflexivity].
  - now apply Z.gtb_lt.
Qed.

Lemma normal_run_covers_witness :
  let answer := always (Resolves (chat_response (VStr (lit "tests")))) in
  is_Some (disk (snd (UnitTestCreator.main answer false test_config [foo_ts]
                        (on_disk (proj_disk []))))
             !! UnitTestCreator.testFilePath_of foo_ts (decl_name bar_method)).
Proof.
  intros answer.
  apply (normal_run_covers answer false test_config [foo_ts] (on_disk (proj_disk []))
           ltac:(vm_compute; reflexivity) foo_ts foo_class bar_method).
  - now left.
  - now left.
  - now left.
  - discriminate.
  - reflexivity.
Defined.

(** ** What the documentation generator edits *)

Section CarefulEdits.

Variable openai : list request -> request -> api_outcome.
Variable config : TsDocumenter.Config.

Lemma edits_carefully_refl (w : world) : edits_carefully config w w.
Proof. exists []. split; [now rewrite app_nil_r | constructor]. Qed.

Lemma edits_carefully_trans (w1 w2 w3 : world) :
  edits_carefully config w1 w2 -> edits_carefully config w2 w3 ->
  edits_carefully config w1 w3.
Proof.
  intros (n1 & E1 & F1) (n2 & E2 & F2). exists (n1 ++ n2). split.
  - now rewrite E2, E1, app_assoc.
  - apply Forall_app. now split.
Qed.

Lemma document_carefully (d : declaration) (w : world) :
  edits_carefully config w (snd (TsDocumenter.document openai config d w)).
Proof.
  rewrite document_run. cbv zeta.
  destruct (Spec.select_documentation _ d) eqn:Hsel; [|apply edits_carefully_refl].
  destruct (answer_of _) as [[|c text]|];
    try (exists []; split; [now rewrite app_nil_r | constructor]).
  eexists. split; [reflexivity|]. constructor; [|constructor].
  unfold careful_edit, TsDocumenter.splice.
  unfold Spec.select_documentation in Hsel.
  apply andb_true_iff in Hsel as [Hdocs Hlen].
  destruct (decl_jsDocs d) as [|doc docs] eqn:Hd; simpl edit_target.
  - split; [|exact Hd]. unfold Spec.select_documentation. rewrite Hd. simpl.
    exact Hlen.
  - split.
    + unfold Spec.select_documentation. rewrite Hd, Hlen. now rewrite Hdocs.
    + rewrite Hd. split; [discriminate|].
      rewrite bool_decide_eq_false_2 in Hdocs by discriminate. exact Hdocs.
Qed.

Lemma main_carefully (files : list source_file) (w : world) :
  edits_carefully config w (snd (TsDocumenter.main openai config files w)).
Proof.
  pose proof edits_carefully_refl as Rrefl.
  pose proof edits_carefully_trans as Rtrans.
  unfold TsDocumenter.main. revert w.
  apply (for_of_rel _ Rrefl Rtrans). intros file w.
  apply (bind_rel _ Rtrans).
  - revert w. apply (for_of_rel _ Rrefl Rtrans). intros classObj w.
    apply (bind_rel _ Rtrans);
      [revert w; apply (for_of_rel _ Rrefl Rtrans); apply document_carefully|].
    intros _ w'. apply (bind_rel _ Rtrans);
      [revert w'; apply (for_of_rel _ Rrefl Rtrans); apply document_carefully|].
    intros _ w''. revert w''. apply (for_of_rel _ Rrefl Rtrans). apply document_carefully.
  - intros _ w'. apply (bind_rel _ Rtrans);
      [|intros _ w''; exists []; split; [simpl; now rewrite app_nil_r | constructor]].
    revert w'. apply (for_of_rel _ Rrefl Rtrans). intros enumObj.
    apply (for_of_rel _ Rrefl Rtrans). apply document_carefully.
Qed.

End CarefulEdits.

(** X20: the documentation generator never touches documentation that is
    there: every edit of a run is made on a declaration it selects (no
    comment or only blank ones, text longer than the minimum); a comment is
    added only where there was none, and replaced only where all the
    existing comments are blank. *)
Theorem documenter_edits_only_selected
    (openai : list request -> request -> api_outcome) (config : TsDocumenter.Config)
    (files : list source_file) (w : world) :
  exists new,
    edits (snd (TsDocumenter.main openai config files w)) = edits w ++ new
    /\ Forall (fun e =>
                Spec.select_documentation (TsDocumenter.minLength config) (edit_target e)
                = true
                /\ match e with
                   | AddJsDoc d _ => decl_jsDocs d = []
                   | ReplaceWithText d _ =>
                       decl_jsDocs d <> [] /\ test_blank (concat (decl_jsDocs d)) = true
                   end) new.
Proof. apply main_carefully. Qed.
